(** * NEMOGrid: NEMO-convention NetCDF output and spline lookups

    A shallow embedding of [parcels/nemo_grid.py].  The Python class
    [NEMOGrid] reads and writes two NetCDF files ([<name>_U.nc] and
    [<name>_V.nc]) through [netCDF4.Dataset], replaces NaN entries of the
    velocity arrays by zero, and hands the arrays to SciPy's
    [RectBivariateSpline].  The file system, standard output, the instances
    and the list object bound to the class attribute [_particles] are the
    mutable state; Python exceptions are the error results.

    [parcels/examples/example_globcurrent.py] holds tests of the particle
    engine; what one of them needs of the engine is modelled from the
    specification, in [GlobCurrent]. *)

From Stdlib Require Import ZArith.
From Stdlib Require Import Floats.SpecFloat.
From stdpp Require Import gmap strings list fin_maps.

Local Open Scope string_scope.

(** ** NumPy scalars and arrays *)

Module Np.

(** A NumPy floating-point scalar, of any binary format. *)
Abbreviation float := spec_float.

Inductive dtype := float32 | float64.

Definition prec (t : dtype) : Z :=
  match t with float32 => 24 | float64 => 53 end%Z.

Definition emax (t : dtype) : Z :=
  match t with float32 => 128 | float64 => 1024 end%Z.

(** [np.float32(v)], [np.float64(v)]: conversion with rounding to nearest
    even; zeros, infinities and NaN are kept. *)
Definition astype (t : dtype) (v : float) : float :=
  match v with
  | S754_finite s m e => binary_round (prec t) (emax t) s m e
  | _ => v
  end.

(** [a.astype(t)] on a two-dimensional array. *)
Definition astype_array (t : dtype) (a : list (list float)) : list (list float) :=
  (λ row : list float, astype t <$> row) <$> a.

(** [np.isnan] on one element. *)
Definition isnan (v : float) : bool :=
  match v with S754_nan => true | _ => false end.

(** The literal [0.]. *)
Definition zero : float := S754_zero false.

(** Python's [==] on two floating-point numbers, whatever their formats:
    NaN equals nothing, the two zeros are equal, finite numbers are
    compared by value. *)
Definition equal (a b : float) : bool :=
  match a, b with
  | S754_zero _, S754_zero _ => true
  | S754_infinity s1, S754_infinity s2 => bool_decide (s1 = s2)
  | S754_finite s1 m1 e1, S754_finite s2 m2 e2 =>
      let e := Z.min e1 e2 in
      bool_decide (s1 = s2) &&
      (Z.shiftl (Zpos m1) (e1 - e) =? Z.shiftl (Zpos m2) (e2 - e))%Z
  | _, _ => false
  end.

(** The arrays the class handles: one- and two-dimensional. *)
Inductive ndarray :=
| Arr1 (a : list float)
| Arr2 (a : list (list float)).

(** A two-dimensional array of shape [(n, m)]. *)
Definition rect (n m : nat) (a : list (list float)) : Prop :=
  length a = n ∧ Forall (λ r, length r = m) a.

Definition rectb (n m : nat) (a : list (list float)) : bool :=
  bool_decide (length a = n) && forallb (λ r, bool_decide (length r = m)) a.

(** [np.transpose] of a two-dimensional array: entry [(j, i)] of the
    result is entry [(i, j)] of the argument. *)
Definition transpose (a : list (list float)) : list (list float) :=
  match a with
  | [] => []
  | r :: _ => (λ j, (λ row : list float, nth j row zero) <$> a) <$> seq 0 (length r)
  end.

(** [a[np.isnan(a)] = 0.] *)
Definition nan_to_zero (a : list (list float)) : list (list float) :=
  (λ row : list float, (λ v, if isnan v then zero else v) <$> row) <$> a.

(** [a == b] everywhere, for two arrays of one shape. *)
Definition array_equal (a b : list (list float)) : Prop :=
  Forall2 (Forall2 (λ v w, equal v w = true)) a b.

End Np.

(** ** Python exceptions and results *)

Inductive Exc :=
| IOError (path : string)
| KeyError (key : string)
| IndexError
| ValueError
| TypeError
| AttributeError (attr : string)
| RuntimeError
| TimeExtrapolationError
| OutOfBoundsError.

Inductive result (A : Type) :=
| Ok (a : A)
| Raise (e : Exc).
Arguments Ok {A} a.
Arguments Raise {A} e.

Definition rbind {A B} (r : result A) (k : A → result B) : result B :=
  match r with Ok a => k a | Raise e => Raise e end.

#[global] Instance result_ret : MRet result := @Ok.
#[global] Instance result_bind : MBind result := λ A B k r, rbind r k.
#[global] Instance result_fmap : FMap result := λ A B f r, rbind r (λ a, Ok (f a)).

(** ** netCDF4 datasets

    A dataset is its dimensions and its variables; only the calls
    [NEMOGrid] makes are modelled.  An assignment whose right-hand side has
    another shape than the slice it is assigned to raises here: the
    reshaping and broadcasting netCDF4 tries first are not modelled, nor are
    the masking and scaling of the values read. *)

Module NetCDF.
Import Np.

(** A dimension: its current length, and whether it is unlimited. *)
Record Dimension := { dim_size : nat; unlimited : bool }.

(** A variable.  Its data are kept by index; a position that was never
    written reads as the fill value of the type. *)
Record NcVariable := {
  datatype : dtype;
  var_dims : list string;
  data : gmap (list nat) float;
  ncattrs : gmap string float }.

Record Dataset := {
  dimensions : gmap string Dimension;
  variables : gmap string NcVariable }.

Definition empty_dataset : Dataset :=
  {| dimensions := ∅; variables := ∅ |}.

(** netCDF's default fill values [NC_FILL_FLOAT] and [NC_FILL_DOUBLE],
    both 15 * 2^119. *)
Definition fill_value (t : dtype) : float :=
  match t with
  | float32 => S754_finite false 15728640 99
  | float64 => S754_finite false 8444249301319680 70
  end.

Definition set_dimensions (d : gmap string Dimension) (ds : Dataset) : Dataset :=
  {| dimensions := d; variables := variables ds |}.

Definition set_variable (name : string) (v : NcVariable) (ds : Dataset) : Dataset :=
  {| dimensions := dimensions ds; variables := <[name := v]> (variables ds) |}.

Definition set_data (d : gmap (list nat) float) (v : NcVariable) : NcVariable :=
  {| datatype := datatype v; var_dims := var_dims v; data := d; ncattrs := ncattrs v |}.

(** [ds.createDimension(name, size)], [size = None] for unlimited. *)
Definition createDimension (name : string) (size : option nat) (ds : Dataset)
  : result Dataset :=
  match dimensions ds !! name with
  | Some _ => Raise RuntimeError
  | None =>
      let d := match size with
               | Some n => {| dim_size := n; unlimited := false |}
               | None => {| dim_size := 0; unlimited := true |}
               end in
      Ok (set_dimensions (<[name := d]> (dimensions ds)) ds)
  end.

(** [ds.createVariable(name, datatype, dims)] *)
Definition createVariable (name : string) (t : dtype) (dims : list string)
    (ds : Dataset) : result Dataset :=
  match variables ds !! name with
  | Some _ => Raise RuntimeError
  | None =>
      if forallb (λ d, bool_decide (is_Some (dimensions ds !! d))) dims
      then Ok (set_variable name
                 {| datatype := t; var_dims := dims; data := ∅; ncattrs := ∅ |} ds)
      else Raise ValueError
  end.

(** [ds[name]] *)
Definition getvar (ds : Dataset) (name : string) : result NcVariable :=
  match variables ds !! name with
  | Some v => Ok v
  | None => Raise (KeyError name)
  end.

Definition dim_len (ds : Dataset) (d : string) : nat :=
  from_option dim_size 0 (dimensions ds !! d).

(** [ds[name].shape] *)
Definition shape (ds : Dataset) (v : NcVariable) : list nat :=
  dim_len ds <$> var_dims v.

(** One stored element. *)
Definition read (v : NcVariable) (ix : list nat) : float :=
  default (fill_value (datatype v)) (data v !! ix).

(** Store [f ix], converted to the variable's type, at every index of
    [region]. *)
Definition write_region (t : dtype) (region : list (list nat))
    (f : list nat → float) (d : gmap (list nat) float) : gmap (list nat) float :=
  foldr (λ ix m, <[ix := astype t (f ix)]> m) d region.

(** Writing at index [i] along dimension [d]: an unlimited dimension grows
    to hold it, a fixed one raises. *)
Definition ensure_index (d : string) (i : nat) (ds : Dataset) : result Dataset :=
  match dimensions ds !! d with
  | None => Raise (KeyError d)
  | Some dim =>
      if bool_decide (i < dim_size dim) then Ok ds
      else if unlimited dim
           then Ok (set_dimensions
                      (<[d := {| dim_size := S i; unlimited := true |}]> (dimensions ds)) ds)
           else Raise IndexError
  end.

(** Writing [n] elements along the whole of dimension [d] ([v[:] = a]):
    an unlimited dimension takes the length of the data, a fixed one
    must have it. *)
Definition ensure_length (d : string) (n : nat) (ds : Dataset) : result Dataset :=
  match dimensions ds !! d with
  | None => Raise (KeyError d)
  | Some dim =>
      if bool_decide (n = dim_size dim) then Ok ds
      else if unlimited dim
           then Ok (set_dimensions
                      (<[d := {| dim_size := max n (dim_size dim); unlimited := true |}]>
                         (dimensions ds)) ds)
           else Raise ValueError
  end.

Definition update_data (name : string) (v : NcVariable)
    (region : list (list nat)) (f : list nat → float) (ds : Dataset) : Dataset :=
  set_variable name (set_data (write_region (datatype v) region f (data v)) v) ds.

(** [ds[name][:] = a], for a one-dimensional variable. *)
Definition setitem_all (name : string) (a : list float) (ds : Dataset)
  : result Dataset :=
  v ← getvar ds name ;
  match var_dims v with
  | [d] =>
      ds ← ensure_length d (length a) ds ;
      Ok (update_data name v ((λ i, [i]) <$> seq 0 (length a))
            (λ ix, nth (hd 0 ix) a zero) ds)
  | _ => Raise ValueError
  end.

(** [ds[name][y, :] = a], for a two-dimensional variable. *)
Definition setitem_row (name : string) (y : nat) (a : list float) (ds : Dataset)
  : result Dataset :=
  v ← getvar ds name ;
  match var_dims v with
  | [dy; dx] =>
      ds ← ensure_index dy y ds ;
      ds ← ensure_length dx (length a) ds ;
      Ok (update_data name v ((λ j, [y; j]) <$> seq 0 (length a))
            (λ ix, nth (nth 1 ix 0) a zero) ds)
  | _ => Raise IndexError
  end.

(** [ds[name][:, x] = a], for a two-dimensional variable. *)
Definition setitem_col (name : string) (x : nat) (a : list float) (ds : Dataset)
  : result Dataset :=
  v ← getvar ds name ;
  match var_dims v with
  | [dy; dx] =>
      ds ← ensure_length dy (length a) ds ;
      ds ← ensure_index dx x ds ;
      Ok (update_data name v ((λ i, [i; x]) <$> seq 0 (length a))
            (λ ix, nth (hd 0 ix) a zero) ds)
  | _ => Raise IndexError
  end.

(** The indices [(0, 0, i, j)] of a [(y, x)] slice, row by row. *)
Definition region_00 (ny nx : nat) : list (list nat) :=
  mjoin ((λ i, (λ j, [0; 0; i; j]) <$> seq 0 nx) <$> seq 0 ny).

(** [ds[name][0, 0, :, :] = a], for a four-dimensional variable. *)
Definition setitem_00 (name : string) (a : list (list float)) (ds : Dataset)
  : result Dataset :=
  v ← getvar ds name ;
  match var_dims v with
  | [dt; dz; dy; dx] =>
      ds ← ensure_index dt 0 ds ;
      ds ← ensure_index dz 0 ds ;
      if rectb (dim_len ds dy) (dim_len ds dx) a
      then Ok (update_data name v (region_00 (dim_len ds dy) (dim_len ds dx))
                 (λ ix, nth (nth 3 ix 0) (nth (nth 2 ix 0) a []) zero) ds)
      else Raise ValueError
  | _ => Raise IndexError
  end.

(** [ds[name].<attr> = value] *)
Definition setncattr (name attr : string) (value : float) (ds : Dataset)
  : result Dataset :=
  v ← getvar ds name ;
  Ok (set_variable name
        {| datatype := datatype v; var_dims := var_dims v; data := data v;
           ncattrs := <[attr := value]> (ncattrs v) |} ds).

(** [v[0, 0, :, :]], read from a four-dimensional variable of [ds]. *)
Definition getitem_00 (ds : Dataset) (v : NcVariable) : result (list (list float)) :=
  match shape ds v with
  | [nt; nz; ny; nx] =>
      if bool_decide (0 < nt) && bool_decide (0 < nz)
      then Ok ((λ i, (λ j, read v [0; 0; i; j]) <$> seq 0 nx) <$> seq 0 ny)
      else Raise IndexError
  | _ => Raise IndexError
  end.

(** [v[:, 0]], read from a two-dimensional variable of [ds]. *)
Definition getitem_col0 (ds : Dataset) (v : NcVariable) : result (list float) :=
  match shape ds v with
  | [ny; nx] =>
      if bool_decide (0 < nx)
      then Ok ((λ i, read v [i; 0]) <$> seq 0 ny)
      else Raise IndexError
  | _ => Raise IndexError
  end.

(** [v[0, :]], read from a two-dimensional variable of [ds]. *)
Definition getitem_row0 (ds : Dataset) (v : NcVariable) : result (list float) :=
  match shape ds v with
  | [ny; nx] =>
      if bool_decide (0 < ny)
      then Ok ((λ j, read v [0; j]) <$> seq 0 nx)
      else Raise IndexError
  | _ => Raise IndexError
  end.

End NetCDF.

(** ** SciPy's interpolator and py.path, as the class uses them *)

Class Scipy := {
  Spline : Type;
(** [RectBivariateSpline(x, y, z, kx=kx, ky=ky)] *)
RectBivariateSpline :
  list Np.float → list Np.float → list (list Np.float) → Z → Z → result Spline;
(** [spline.ev(xi, yi)] *)
ev : Spline → Np.float → Np.float → Np.float }.

Class PyPath := {
(** [str(path.local(filename))] *)
path_local : string → string }.

(** ** The Python world: objects, files, standard output *)

(** A reference to a Python object. *)
Definition ref := positive.

Section Python.
Context `{Scipy}.

(** The values an attribute of a grid can hold. *)
Inductive Value :=
| PyNone
| PyInt (n : Z)
| NdArray (a : Np.ndarray)
| NcVar (ds : NetCDF.Dataset) (v : NetCDF.NcVariable)
| PyDataset (ds : NetCDF.Dataset)
| PySpline (s : Spline)
| PyList (l : ref).

Record World := {
  fs : gmap string NetCDF.Dataset;       (** the NetCDF files, by path *)
  stdout : list string;                  (** the lines printed so far *)
  lists : gmap ref (list ref);           (** the list objects *)
  objects : gmap ref (gmap string Value);(** the instances: their own attributes *)
  class_dict : gmap string Value         (** the attributes of the class NEMOGrid *)
}.

Definition set_fs (f : gmap string NetCDF.Dataset) (w : World) : World :=
  {| fs := f; stdout := stdout w; lists := lists w; objects := objects w;
     class_dict := class_dict w |}.

Definition set_stdout (o : list string) (w : World) : World :=
  {| fs := fs w; stdout := o; lists := lists w; objects := objects w;
     class_dict := class_dict w |}.

Definition set_lists (l : gmap ref (list ref)) (w : World) : World :=
  {| fs := fs w; stdout := stdout w; lists := l; objects := objects w;
     class_dict := class_dict w |}.

Definition set_objects (o : gmap ref (gmap string Value)) (w : World) : World :=
  {| fs := fs w; stdout := stdout w; lists := lists w; objects := o;
     class_dict := class_dict w |}.

(** A Python statement: it changes the world and returns or raises.  The
    changes made before an exception stay. *)
Definition M (A : Type) : Type := World → World * result A.

#[global] Instance M_ret : MRet M := λ A a w, (w, Ok a).
#[global] Instance M_bind : MBind M := λ A B k m w,
  match m w with
  | (w', Ok a) => k a w'
  | (w', Raise e) => (w', Raise e)
  end.

(** A pure computation that may raise. *)
Definition lift {A} (r : result A) : M A := λ w, (w, r).

(** [for a in l: body] *)
Fixpoint for_each {A} (l : list A) (body : A → M unit) : M unit :=
  match l with
  | [] => mret ()
  | a :: l => body a ≫= λ _, for_each l body
  end.

(** Attribute lookup: the instance's own attributes, then the class's. *)
Definition lookup_attr (w : World) (self : ref) (name : string) : result Value :=
  match objects w !! self with
  | None => Raise RuntimeError
  | Some d =>
      match d !! name with
      | Some v => Ok v
      | None =>
          match class_dict w !! name with
          | Some v => Ok v
          | None => Raise (AttributeError name)
          end
      end
  end.

(** [self.name] *)
Definition getattr (self : ref) (name : string) : M Value :=
  λ w, (w, lookup_attr w self name).

(** [self.name = v] *)
Definition setattr (self : ref) (name : string) (v : Value) : M unit :=
  λ w, match objects w !! self with
       | None => (w, Raise RuntimeError)
       | Some d => (set_objects (<[self := <[name := v]> d]> (objects w)) w, Ok ())
       end.

(** [print line] *)
Definition print (line : string) : M unit :=
  λ w, (set_stdout (stdout w ++ [line])%list w, Ok ()).

(** [Dataset(path, 'w', format="NETCDF4")]: the file is created empty, or
    emptied; the handle is the path. *)
Definition Dataset_w (path : string) : M string :=
  λ w, (set_fs (<[path := NetCDF.empty_dataset]> (fs w)) w, Ok path).

(** [Dataset(path, 'r', format="NETCDF4")]: the contents of the file. *)
Definition Dataset_r (path : string) : M Value :=
  λ w, match fs w !! path with
       | Some ds => (w, Ok (PyDataset ds))
       | None => (w, Raise (IOError path))
       end.

(** A call on a dataset open for writing. *)
Definition call (h : string) (op : NetCDF.Dataset → result NetCDF.Dataset) : M unit :=
  λ w, match fs w !! h with
       | None => (w, Raise RuntimeError)
       | Some ds =>
           match op ds with
           | Ok ds' => (set_fs (<[h := ds']> (fs w)) w, Ok ())
           | Raise e => (w, Raise e)
           end
       end.

(** [dset.close()] *)
Definition close (h : string) : M unit := mret ().

(** [lst.append(p)] *)
Definition append (lst : Value) (p : ref) : M unit :=
  λ w, match lst with
       | PyList l =>
           match lists w !! l with
           | Some ps => (set_lists (<[l := (ps ++ [p])%list]> (lists w)) w, Ok ())
           | None => (w, Raise RuntimeError)
           end
       | _ => (w, Raise (AttributeError "append"))
       end.

(** [len(v)] *)
Definition len (v : Value) : result nat :=
  match v with
  | NdArray (Np.Arr1 a) => Ok (length a)
  | NdArray (Np.Arr2 a) => Ok (length a)
  | NcVar ds v =>
      match NetCDF.shape ds v with
      | n :: _ => Ok n
      | [] => Raise TypeError
      end
  | _ => Raise TypeError
  end.

(** [v.size] *)
Definition size_ (v : Value) : result nat :=
  match v with
  | NdArray (Np.Arr1 a) => Ok (length a)
  | NdArray (Np.Arr2 a) => Ok (length (concat a))
  | NcVar ds v => Ok (foldr Nat.mul 1 (NetCDF.shape ds v))
  | _ => Raise (AttributeError "size")
  end.

(** The one-dimensional arrays are the ones this model assigns to a row, a
    column or a whole variable, and takes the scalars [v[0]] and [v[-1]]
    from; a value of another kind raises. *)
Definition array1 (v : Value) : result (list Np.float) :=
  match v with
  | NdArray (Np.Arr1 a) => Ok a
  | NdArray (Np.Arr2 _) => Raise ValueError
  | _ => Raise TypeError
  end.

(** [v[0]] *)
Definition first (v : Value) : result Np.float :=
  a ← array1 v;
  match a with
  | x :: _ => Ok x
  | [] => Raise IndexError
  end.

(** [v[-1]] *)
Definition last_ (v : Value) : result Np.float :=
  a ← array1 v;
  match last a with
  | Some x => Ok x
  | None => Raise IndexError
  end.

(** [np.transpose(v)], for the two-dimensional arrays. *)
Definition np_transpose (v : Value) : result (list (list Np.float)) :=
  match v with
  | NdArray (Np.Arr2 a) => Ok (Np.transpose a)
  | NdArray (Np.Arr1 _) => Raise ValueError
  | _ => Raise TypeError
  end.

(** [v[name]], for a dataset. *)
Definition subscript (v : Value) (name : string) : result Value :=
  match v with
  | PyDataset ds => NcVar ds <$> NetCDF.getvar ds name
  | _ => Raise TypeError
  end.

(** [v[0, 0, :, :]] *)
Definition index_00 (v : Value) : result Value :=
  match v with
  | NcVar ds v => (λ a, NdArray (Np.Arr2 a)) <$> NetCDF.getitem_00 ds v
  | NdArray _ => Raise IndexError
  | _ => Raise TypeError
  end.

(** [v[:, 0]] *)
Definition index_col0 (v : Value) : result (list Np.float) :=
  match v with
  | NcVar ds v => NetCDF.getitem_col0 ds v
  | NdArray (Np.Arr2 a) =>
      if forallb (λ r, bool_decide (0 < length r)) a
      then Ok ((λ r : list Np.float, nth 0 r Np.zero) <$> a)
      else Raise IndexError
  | NdArray (Np.Arr1 _) => Raise IndexError
  | _ => Raise TypeError
  end.

(** [v[0, :]] *)
Definition index_row0 (v : Value) : result (list Np.float) :=
  match v with
  | NcVar ds v => NetCDF.getitem_row0 ds v
  | NdArray (Np.Arr2 (r :: _)) => Ok r
  | NdArray _ => Raise IndexError
  | _ => Raise TypeError
  end.

(** [v[:, :]] *)
Definition index_all2 (v : Value) : result (list (list Np.float)) :=
  match v with
  | NdArray (Np.Arr2 a) => Ok a
  | NdArray (Np.Arr1 _) => Raise IndexError
  | _ => Raise TypeError
  end.

(** [v[np.isnan(v)] = 0.]: the array after the assignment. *)
Definition assign_nan_zero (v : Value) : result Value :=
  match v with
  | NdArray (Np.Arr2 a) => Ok (NdArray (Np.Arr2 (Np.nan_to_zero a)))
  | NdArray (Np.Arr1 a) =>
      Ok (NdArray (Np.Arr1 ((λ v, if Np.isnan v then Np.zero else v) <$> a)))
  | _ => Raise TypeError
  end.

End Python.

(** ** Regions written by the loops of [write] *)

Module Region.

(** The indices [(y, j)] of the rows [ys] of width [n], last row first. *)
Definition rows (ys : list nat) (n : nat) : list (list nat) :=
  mjoin ((λ y, (λ j, [y; j]) <$> seq 0 n) <$> reverse ys).

(** The indices [(i, x)] of the columns [xs] of height [n], last column
    first. *)
Definition cols (xs : list nat) (n : nat) : list (list nat) :=
  mjoin ((λ x, (λ i, [i; x]) <$> seq 0 n) <$> reverse xs).

End Region.

(** ** The class NEMOGrid *)

Module NEMOGrid.
Import Np NetCDF.

Section Class.
Context `{Scipy} `{PyPath}.

(** The class body: dimension sizes, variable data arrays, flow field
    data, and the particle set, one list object [particles] made when the
    class is defined. *)
Definition class_body (particles : ref) : gmap string Value :=
  <["x" := PyInt 0]> (<["y" := PyInt 0]> (
  <["depth" := PyNone]> (<["time_counter" := PyNone]> (
  <["lon_u" := PyNone]> (<["lat_u" := PyNone]> (
  <["lon_v" := PyNone]> (<["lat_v" := PyNone]> (
  <["U" := PyNone]> (<["V" := PyNone]> (
  <["_particles" := PyList particles]> ∅)))))))))).

(** [if filename:] *)
Definition truthy (filename : option string) : option string :=
  match filename with
  | Some f => if bool_decide (f = EmptyString) then None else Some f
  | None => None
  end.

(** [s.ev(a, b)] *)
Definition spline_ev (s : Value) (a b : float) : result float :=
  match s with
  | PySpline s => Ok (ev s a b)
  | _ => Raise (AttributeError "ev")
  end.

(** [NEMOGrid.__init__(self, filename=None, degree=3)]; an argument left
    out is [None] here. *)
Definition __init__ (self : ref) (filename : option string) (degree : option Z)
  : M unit :=
  let degree := default 3%Z degree in
  match truthy filename with
  | None => mret ()
  | Some filename =>
      d ← Dataset_r (filename ++ "_U.nc"); setattr self "dset_u" d;;
      d ← Dataset_r (filename ++ "_V.nc"); setattr self "dset_v" d;;

      d ← getattr self "dset_u"; v ← lift (subscript d "nav_lon");
      setattr self "lon_u" v;;
      d ← getattr self "dset_u"; v ← lift (subscript d "nav_lat");
      setattr self "lat_u" v;;
      d ← getattr self "dset_v"; v ← lift (subscript d "nav_lon");
      setattr self "lon_v" v;;
      d ← getattr self "dset_v"; v ← lift (subscript d "nav_lat");
      setattr self "lat_v" v;;
      d ← getattr self "dset_u"; v ← lift (subscript d "vozocrtx" ≫= index_00);
      setattr self "U" v;;
      d ← getattr self "dset_v"; v ← lift (subscript d "vomecrty" ≫= index_00);
      setattr self "V" v;;

      u ← getattr self "U"; u ← lift (assign_nan_zero u); setattr self "U" u;;
      v ← getattr self "V"; v ← lift (assign_nan_zero v); setattr self "V" v;;

      lat ← getattr self "lat_u"; lat ← lift (index_col0 lat);
      lon ← getattr self "lon_u"; lon ← lift (index_row0 lon);
      u ← getattr self "U"; u ← lift (index_all2 u);
      s ← lift (RectBivariateSpline lat lon u degree degree);
      setattr self "interp_u" (PySpline s);;
      lat ← getattr self "lat_v"; lat ← lift (index_col0 lat);
      lon ← getattr self "lon_v"; lon ← lift (index_row0 lon);
      v ← getattr self "V"; v ← lift (index_all2 v);
      s ← lift (RectBivariateSpline lat lon v degree degree);
      setattr self "interp_v" (PySpline s)
  end.

(** [NEMOGrid(filename, degree)]: a new instance, initialised. *)
Definition new (filename : option string) (degree : option Z) : M ref :=
  λ w, let self := fresh (dom (objects w)) in
       (__init__ self filename degree ;; mret self)
         (set_objects (<[self := ∅]> (objects w)) w).

(** [self.eval(x, y)] *)
Definition eval (self : ref) (x y : float) : M (float * float) :=
  s ← getattr self "interp_u"; u ← lift (spline_ev s y x);
  s ← getattr self "interp_v"; v ← lift (spline_ev s y x);
  mret (u, v).

(** [self.add_particle(p)] *)
Definition add_particle (self : ref) (p : ref) : M unit :=
  l ← getattr self "_particles"; append l p.

(** [self.write(filename)] *)
Definition write (self : ref) (filename : string) : M unit :=
  let filepath := path_local filename in
  print ("Generating NEMO grid output: " ++ filepath);;

  dset_u ← Dataset_w (filepath ++ "_U.nc");
  v ← getattr self "lon_u"; n ← lift (len v);
  call dset_u (createDimension "x" (Some n));;
  v ← getattr self "lat_u"; n ← lift (len v);
  call dset_u (createDimension "y" (Some n));;
  v ← getattr self "depth"; n ← lift (size_ v);
  call dset_u (createDimension "depthu" (Some n));;
  call dset_u (createDimension "time_counter" None);;

  call dset_u (createVariable "nav_lon" float32 ["y"; "x"]);;
  call dset_u (createVariable "nav_lat" float32 ["y"; "x"]);;
  call dset_u (createVariable "depthu" float32 ["depthu"]);;
  call dset_u (createVariable "time_counter" float64 ["time_counter"]);;
  call dset_u (createVariable "vozocrtx" float32 ["time_counter"; "depthu"; "y"; "x"]);;

  v ← getattr self "lat_u"; n ← lift (len v);
  for_each (seq 0 n) (λ y,
    v ← getattr self "lon_u"; a ← lift (array1 v);
    call dset_u (setitem_row "nav_lon" y a));;
  v ← getattr self "lon_u"; a ← lift (first v);
  call dset_u (setncattr "nav_lon" "valid_min" a);;
  v ← getattr self "lon_u"; a ← lift (last_ v);
  call dset_u (setncattr "nav_lon" "valid_max" a);;
  v ← getattr self "lon_u"; n ← lift (len v);
  for_each (seq 0 n) (λ x,
    v ← getattr self "lat_u"; a ← lift (array1 v);
    call dset_u (setitem_col "nav_lat" x a));;
  v ← getattr self "lat_u"; a ← lift (first v);
  call dset_u (setncattr "nav_lat" "valid_min" a);;
  v ← getattr self "lat_u"; a ← lift (last_ v);
  call dset_u (setncattr "nav_lat" "valid_max" a);;
  v ← getattr self "depth"; a ← lift (array1 v);
  call dset_u (setitem_all "depthu" a);;
  v ← getattr self "time_counter"; a ← lift (array1 v);
  call dset_u (setitem_all "time_counter" a);;
  v ← getattr self "U"; a ← lift (np_transpose v);
  call dset_u (setitem_00 "vozocrtx" a);;
  close dset_u;;

  dset_v ← Dataset_w (filepath ++ "_V.nc");
  v ← getattr self "lon_v"; n ← lift (len v);
  call dset_v (createDimension "x" (Some n));;
  v ← getattr self "lat_v"; n ← lift (len v);
  call dset_v (createDimension "y" (Some n));;
  v ← getattr self "depth"; n ← lift (size_ v);
  call dset_v (createDimension "depthv" (Some n));;
  call dset_v (createDimension "time_counter" None);;

  call dset_v (createVariable "nav_lon" float32 ["y"; "x"]);;
  call dset_v (createVariable "nav_lat" float32 ["y"; "x"]);;
  call dset_v (createVariable "depthv" float32 ["depthv"]);;
  call dset_v (createVariable "time_counter" float64 ["time_counter"]);;
  call dset_v (createVariable "vomecrty" float32 ["time_counter"; "depthv"; "y"; "x"]);;

  v ← getattr self "lat_v"; n ← lift (len v);
  for_each (seq 0 n) (λ y,
    v ← getattr self "lon_v"; a ← lift (array1 v);
    call dset_v (setitem_row "nav_lon" y a));;
  v ← getattr self "lon_u"; a ← lift (first v);
  call dset_v (setncattr "nav_lon" "valid_min" a);;
  v ← getattr self "lon_u"; a ← lift (last_ v);
  call dset_v (setncattr "nav_lon" "valid_max" a);;
  v ← getattr self "lon_v"; n ← lift (len v);
  for_each (seq 0 n) (λ x,
    v ← getattr self "lat_v"; a ← lift (array1 v);
    call dset_v (setitem_col "nav_lat" x a));;
  v ← getattr self "lat_u"; a ← lift (first v);
  call dset_v (setncattr "nav_lat" "valid_min" a);;
  v ← getattr self "lat_u"; a ← lift (last_ v);
  call dset_v (setncattr "nav_lat" "valid_max" a);;
  v ← getattr self "depth"; a ← lift (array1 v);
  call dset_v (setitem_all "depthv" a);;
  v ← getattr self "time_counter"; a ← lift (array1 v);
  call dset_v (setitem_all "time_counter" a);;
  v ← getattr self "V"; a ← lift (np_transpose v);
  call dset_v (setitem_00 "vomecrty" a);;
  close dset_v.

(** The statements of [write] for one file, followed by [k]: [write]
    runs them for the U file, then for the V file.  [lon], [lat] and
    [field] name the attributes the sizes and the data come from; the
    valid ranges come from [lon_u] and [lat_u] for both files. *)
Definition write_file_then (self : ref) (path zname vname lon lat field : string)
    (k : M unit) : M unit :=
  dset ← Dataset_w path;
  v ← getattr self lon; n ← lift (len v);
  call dset (createDimension "x" (Some n));;
  v ← getattr self lat; n ← lift (len v);
  call dset (createDimension "y" (Some n));;
  v ← getattr self "depth"; n ← lift (size_ v);
  call dset (createDimension zname (Some n));;
  call dset (createDimension "time_counter" None);;

  call dset (createVariable "nav_lon" float32 ["y"; "x"]);;
  call dset (createVariable "nav_lat" float32 ["y"; "x"]);;
  call dset (createVariable zname float32 [zname]);;
  call dset (createVariable "time_counter" float64 ["time_counter"]);;
  call dset (createVariable vname float32 ["time_counter"; zname; "y"; "x"]);;

  v ← getattr self lat; n ← lift (len v);
  for_each (seq 0 n) (λ y,
    v ← getattr self lon; a ← lift (array1 v);
    call dset (setitem_row "nav_lon" y a));;
  v ← getattr self "lon_u"; a ← lift (first v);
  call dset (setncattr "nav_lon" "valid_min" a);;
  v ← getattr self "lon_u"; a ← lift (last_ v);
  call dset (setncattr "nav_lon" "valid_max" a);;
  v ← getattr self lon; n ← lift (len v);
  for_each (seq 0 n) (λ x,
    v ← getattr self lat; a ← lift (array1 v);
    call dset (setitem_col "nav_lat" x a));;
  v ← getattr self "lat_u"; a ← lift (first v);
  call dset (setncattr "nav_lat" "valid_min" a);;
  v ← getattr self "lat_u"; a ← lift (last_ v);
  call dset (setncattr "nav_lat" "valid_max" a);;
  v ← getattr self "depth"; a ← lift (array1 v);
  call dset (setitem_all zname a);;
  v ← getattr self "time_counter"; a ← lift (array1 v);
  call dset (setitem_all "time_counter" a);;
  v ← getattr self field; a ← lift (np_transpose v);
  call dset (setitem_00 vname a);;
  close dset;;
  k.

(** The variables these statements leave in the file: the longitudes on
    every row, the latitudes on every column, the transposed field in the
    slice [[0, 0, :, :]]. *)
Definition file_nav_lon (lon lat : list float) (lon_min lon_max : float)
  : NcVariable :=
  {| datatype := float32; var_dims := ["y"; "x"];
     data := write_region float32 (Region.rows (seq 0 (length lat)) (length lon))
               (λ ix, nth (nth 1 ix 0) lon zero) ∅;
     ncattrs := <["valid_max" := lon_max]> (<["valid_min" := lon_min]> ∅) |}.

Definition file_nav_lat (lon lat : list float) (lat_min lat_max : float)
  : NcVariable :=
  {| datatype := float32; var_dims := ["y"; "x"];
     data := write_region float32 (Region.cols (seq 0 (length lon)) (length lat))
               (λ ix, nth (hd 0 ix) lat zero) ∅;
     ncattrs := <["valid_max" := lat_max]> (<["valid_min" := lat_min]> ∅) |}.

Definition file_depth (zname : string) (depth : list float) : NcVariable :=
  {| datatype := float32; var_dims := [zname];
     data := write_region float32 ((λ i, [i]) <$> seq 0 (length depth))
               (λ ix, nth (hd 0 ix) depth zero) ∅;
     ncattrs := ∅ |}.

Definition file_time_counter (tc : list float) : NcVariable :=
  {| datatype := float64; var_dims := ["time_counter"];
     data := write_region float64 ((λ i, [i]) <$> seq 0 (length tc))
               (λ ix, nth (hd 0 ix) tc zero) ∅;
     ncattrs := ∅ |}.

Definition file_velocity (zname : string) (lon lat : list float)
    (field : list (list float)) : NcVariable :=
  {| datatype := float32; var_dims := ["time_counter"; zname; "y"; "x"];
     data := write_region float32 (region_00 (length lat) (length lon))
               (λ ix, nth (nth 3 ix 0) (nth (nth 2 ix 0) (transpose field) []) zero) ∅;
     ncattrs := ∅ |}.

(** The dataset these statements leave in the file. *)
Definition nemo_dataset (zname vname : string) (lon lat depth tc : list float)
    (lon_min lon_max lat_min lat_max : float) (field : list (list float))
  : Dataset :=
  {| dimensions :=
       <["time_counter" := {| dim_size := max (length tc) 1; unlimited := true |}]> (
       <[zname := {| dim_size := length depth; unlimited := false |}]> (
       <["y" := {| dim_size := length lat; unlimited := false |}]> (
       <["x" := {| dim_size := length lon; unlimited := false |}]> ∅)));
     variables :=
       <[vname := file_velocity zname lon lat field]> (
       <["time_counter" := file_time_counter tc]> (
       <[zname := file_depth zname depth]> (
       <["nav_lat" := file_nav_lat lon lat lat_min lat_max]> (
       <["nav_lon" := file_nav_lon lon lat lon_min lon_max]> ∅)))) |}.

End Class.
End NEMOGrid.

(** ** The GlobCurrent tests

    [parcels/examples/example_globcurrent.py] tests the field and particle
    engine of parcels, which is not part of these sources.  What the test
    of the time-extrapolation error needs of it is modelled from the
    specification: the request of field data, the advection kernel and
    the first time step of a run.  The rest of the run is left open. *)

Module GlobCurrent.

(** The two particle classes and the two ways of building the field set
    that the tests are run with. *)
Inductive Mode := scipy | jit.
Inductive Backend := xarray | netcdf.

(** Modelled from the spec: the error codes of the engine (ErrorCode,
    absent from the sources) that a kernel can return:
    [ErrorCode.ErrorOutOfBounds] of the tests, and the code of the
    time-extrapolation error. *)
Inductive ErrorCode := ErrorOutOfBounds | ErrorTimeExtrapolation.

Section Engine.
(** Positions and velocities are left open. *)
Variables Position Velocity : Type.

(** Modelled from the spec: the field sets of the field engine (FieldSet,
    absent from the sources), "named velocity/scalar fields over a
    spatiotemporal grid": how the set was built, the times of its loaded
    time axis ([fieldset.U.time], in seconds) and its velocity data. *)
Record FieldSet := {
  backend : Backend;
  U_time : list Z;
  UV : Z → Position → Velocity }.

(** Modelled from the spec: the particles of a particle set (ParticleSet,
    absent from the sources), with the identifier the kernels read and
    the mark [particle.delete()] leaves. *)
Record Particle := {
  mode : Mode;
  id : nat;
  position : Position;
  time : Z;
  deleted : bool }.

Definition set_position (x : Position) (p : Particle) : Particle :=
  {| mode := mode p; id := id p; position := x; time := time p;
     deleted := deleted p |}.

Definition set_time (t : Z) (p : Particle) : Particle :=
  {| mode := mode p; id := id p; position := position p; time := t;
     deleted := deleted p |}.

(** Modelled from the spec: what "outside the loaded time axis" is
    measured against, from the first to the last loaded time. *)
Definition on_time_axis (fieldset : FieldSet) (t : Z) : bool :=
  match U_time fieldset with
  | [] => false
  | t0 :: rest => (t0 <=? t)%Z && (t <=? List.last rest t0)%Z
  end.

(** Modelled from the spec: the request of field data of the field engine
    (FieldSet, absent from the sources).  "Requesting field data at a time
    outside the loaded time axis raises a time-extrapolation error." *)
Definition request (fieldset : FieldSet) (t : Z) (x : Position) : result Velocity :=
  if on_time_axis fieldset t then Ok (UV fieldset t x)
  else Raise TimeExtrapolationError.

(** The integration scheme: from the velocity at the particle and from
    further requests, the position after [dt] seconds.  It is left open. *)
Variable scheme :
  (Z → Position → result Velocity) → Velocity → Position → Z → Z → result Position.

(** Modelled from the spec: a kernel (Kernel, absent from the sources), a
    "per-timestep update function applied to each particle": it updates
    the particle, and may return an error code or raise. *)
Definition Kernel : Type :=
  FieldSet → Z → Particle → result (Particle * option ErrorCode).

(** Modelled from the spec: the advection kernel (AdvectionRK4, absent
    from the sources), by which "particles are advected through
    time-varying velocity fields": it requests the velocity at the time and
    position of the particle, then moves the particle by the scheme. *)
Definition AdvectionRK4 : Kernel := λ fieldset dt p,
  v ← request fieldset (time p) (position p);
  x ← scheme (request fieldset) v (position p) (time p) dt;
  Ok (set_position x p, None).

(** Modelled from the spec: the exception the absent engine raises for an
    error code no recovery kernel is given for. *)
Definition error_of (c : ErrorCode) : Exc :=
  match c with
  | ErrorOutOfBounds => OutOfBoundsError
  | ErrorTimeExtrapolation => TimeExtrapolationError
  end.

(** Modelled from the spec: one time step of one particle in
    ParticleSet.execute (absent from the sources): the kernel updates the
    particle and its time advances; kernels "trigger error-driven
    recovery": on an error code, the recovery kernel given for it is
    applied to the particle, and without one the error is raised. *)
Definition step (kernel : Kernel) (recovery : ErrorCode → option (Particle → Particle))
    (fieldset : FieldSet) (dt : Z) (p : Particle) : result Particle :=
  r ← kernel fieldset dt p;
  match r with
  | (p, None) => Ok (set_time (time p + dt) p)
  | (p, Some c) =>
      match recovery c with
      | Some recover => Ok (recover p)
      | None => Raise (error_of c)
      end
  end.

(** What the engine does after a time step is in neither the sources nor
    the specification: whether and how it makes the further steps, and
    how a particle that a recovery kernel has deleted leaves the set.  It
    is left open: [further_steps n] stands for whatever the engine does
    with the set for the [n] steps that remain. *)
Variable further_steps :
  nat → Kernel → (ErrorCode → option (Particle → Particle)) → FieldSet → Z →
  list Particle → result (list Particle).

(** Modelled from the spec: [pset.execute(kernel, runtime=runtime, dt=dt,
    recovery=recovery)] of the same absent engine.  A kernel is a
    "per-timestep update function applied to each particle": when
    [runtime] holds a time step of [dt], the kernel is applied to each
    particle at its time; the engine then goes on as it does. *)
Definition execute (kernel : Kernel)
    (recovery : ErrorCode → option (Particle → Particle))
    (fieldset : FieldSet) (runtime dt : Z) (pset : list Particle)
  : result (list Particle) :=
  match Z.to_nat (runtime / dt) with
  | O => Ok pset
  | S n =>
      pset ← mapM (step kernel recovery fieldset dt) pset;
      further_steps n kernel recovery fieldset dt pset
  end.

(** [pset.execute] without a [recovery] argument. *)
Definition no_recovery : ErrorCode → option (Particle → Particle) := λ _, None.

(** [test_globcurrent_time_extrapolation_error(mode, use_xarray)], on the
    field set it loads and from the position it starts at: one particle,
    one day before the first loaded time, advected for one day in steps of
    five minutes. *)
Definition test_globcurrent_time_extrapolation_error
    (m : Mode) (fieldset : FieldSet) (start : Position) : result (list Particle) :=
  match U_time fieldset with
  | [] => Raise IndexError
  | t0 :: _ =>
      let pset := [ {| mode := m; id := 0; position := start;
                       time := (t0 - 86400)%Z; deleted := false |} ] in
      execute AdvectionRK4 no_recovery fieldset 86400 (5 * 60) pset
  end.

End Engine.

End GlobCurrent.

(** ** Vocabulary of the statements below *)

Section Vocabulary.
Context `{Scipy} `{PyPath}.
Import Np NetCDF.

(** The arrays a grid holds when it is written: coordinates, depth and
    time as one-dimensional arrays, the flow field as two-dimensional
    arrays. *)
Record Fields := {
  f_lon_u : list float;
  f_lat_u : list float;
  f_lon_v : list float;
  f_lat_v : list float;
  f_depth : list float;
  f_time_counter : list float;
  f_U : list (list float);
  f_V : list (list float) }.

(** The instance [self] sees these arrays as its attributes. *)
Definition holds (w : World) (self : ref) (f : Fields) : Prop :=
  lookup_attr w self "lon_u" = Ok (NdArray (Arr1 (f_lon_u f))) ∧
  lookup_attr w self "lat_u" = Ok (NdArray (Arr1 (f_lat_u f))) ∧
  lookup_attr w self "lon_v" = Ok (NdArray (Arr1 (f_lon_v f))) ∧
  lookup_attr w self "lat_v" = Ok (NdArray (Arr1 (f_lat_v f))) ∧
  lookup_attr w self "depth" = Ok (NdArray (Arr1 (f_depth f))) ∧
  lookup_attr w self "time_counter" = Ok (NdArray (Arr1 (f_time_counter f))) ∧
  lookup_attr w self "U" = Ok (NdArray (Arr2 (f_U f))) ∧
  lookup_attr w self "V" = Ok (NdArray (Arr2 (f_V f))).

(** The shapes [write] asks for: no empty coordinate or depth array, and
    [U] and [V] indexed [(x, y)], so that their transposes fit the
    [(y, x)] slices of the file variables. *)
Definition well_shaped (f : Fields) : Prop :=
  0 < length (f_lon_u f) ∧ 0 < length (f_lat_u f) ∧
  0 < length (f_lon_v f) ∧ 0 < length (f_lat_v f) ∧
  0 < length (f_depth f) ∧
  rect (length (f_lon_u f)) (length (f_lat_u f)) (f_U f) ∧
  rect (length (f_lon_v f)) (length (f_lat_v f)) (f_V f).

(** The contents of the list [self._particles] resolves to. *)
Definition particles (w : World) (self : ref) : option (list ref) :=
  match lookup_attr w self "_particles" with
  | Ok (PyList l) => lists w !! l
  | _ => None
  end.

(** The two datasets [write] stores.  The valid ranges of both come from
    [lon_u] and [lat_u]. *)
Definition dataset_U (f : Fields) : Dataset :=
  NEMOGrid.nemo_dataset "depthu" "vozocrtx"
    (f_lon_u f) (f_lat_u f) (f_depth f) (f_time_counter f)
    (default zero (head (f_lon_u f))) (default zero (last (f_lon_u f)))
    (default zero (head (f_lat_u f))) (default zero (last (f_lat_u f)))
    (f_U f).

Definition dataset_V (f : Fields) : Dataset :=
  NEMOGrid.nemo_dataset "depthv" "vomecrty"
    (f_lon_v f) (f_lat_v f) (f_depth f) (f_time_counter f)
    (default zero (head (f_lon_u f))) (default zero (last (f_lon_u f)))
    (default zero (head (f_lat_u f))) (default zero (last (f_lat_u f)))
    (f_V f).

(** The world after [write(filename)]. *)
Definition written (w : World) (filename : string) (f : Fields) : World :=
  let filepath := path_local filename in
  set_fs (<[filepath ++ "_V.nc" := dataset_V f]>
            (<[filepath ++ "_U.nc" := dataset_U f]> (fs w)))
    (set_stdout
       (stdout w ++ [String.append "Generating NEMO grid output: " filepath])%list w).

(** What [__init__] reads from one file: the dataset, its variables
    [nav_lon], [nav_lat] and the velocity, the slice [[0, 0, :, :]] of the
    velocity, the first column of [nav_lat] and the first row of
    [nav_lon]. *)
Record FileData := {
  d_dataset : Dataset;
  d_nav_lon : NcVariable;
  d_nav_lat : NcVariable;
  d_velocity : NcVariable;
  d_slice : list (list float);
  d_lat : list float;
  d_lon : list float }.

Definition reads (w : World) (path vname : string) (r : FileData) : Prop :=
  fs w !! path = Some (d_dataset r) ∧
  getvar (d_dataset r) "nav_lon" = Ok (d_nav_lon r) ∧
  getvar (d_dataset r) "nav_lat" = Ok (d_nav_lat r) ∧
  getvar (d_dataset r) vname = Ok (d_velocity r) ∧
  getitem_00 (d_dataset r) (d_velocity r) = Ok (d_slice r) ∧
  getitem_col0 (d_dataset r) (d_nav_lat r) = Ok (d_lat r) ∧
  getitem_row0 (d_dataset r) (d_nav_lon r) = Ok (d_lon r).

(** The attributes of an instance after [__init__] has read [ru] and [rv]
    and fitted [su] and [sv], on top of the attributes [d] it had. *)
Definition initialised (ru rv : FileData) (su sv : Spline)
    (d : gmap string Value) : gmap string Value :=
  <["interp_v" := PySpline sv]> (
  <["interp_u" := PySpline su]> (
  <["V" := NdArray (Arr2 (nan_to_zero (d_slice rv)))]> (
  <["U" := NdArray (Arr2 (nan_to_zero (d_slice ru)))]> (
  <["V" := NdArray (Arr2 (d_slice rv))]> (
  <["U" := NdArray (Arr2 (d_slice ru))]> (
  <["lat_v" := NcVar (d_dataset rv) (d_nav_lat rv)]> (
  <["lon_v" := NcVar (d_dataset rv) (d_nav_lon rv)]> (
  <["lat_u" := NcVar (d_dataset ru) (d_nav_lat ru)]> (
  <["lon_u" := NcVar (d_dataset ru) (d_nav_lon ru)]> (
  <["dset_v" := PyDataset (d_dataset rv)]> (
  <["dset_u" := PyDataset (d_dataset ru)]> d))))))))))).

(** What [__init__] reads from the two files [write] has stored. *)
Definition read_back_U (f : Fields) : FileData :=
  {| d_dataset := dataset_U f;
     d_nav_lon := NEMOGrid.file_nav_lon (f_lon_u f) (f_lat_u f)
                    (default zero (head (f_lon_u f))) (default zero (last (f_lon_u f)));
     d_nav_lat := NEMOGrid.file_nav_lat (f_lon_u f) (f_lat_u f)
                    (default zero (head (f_lat_u f))) (default zero (last (f_lat_u f)));
     d_velocity := NEMOGrid.file_velocity "depthu" (f_lon_u f) (f_lat_u f) (f_U f);
     d_slice := astype_array float32 (transpose (f_U f));
     d_lat := astype float32 <$> f_lat_u f;
     d_lon := astype float32 <$> f_lon_u f |}.

Definition read_back_V (f : Fields) : FileData :=
  {| d_dataset := dataset_V f;
     d_nav_lon := NEMOGrid.file_nav_lon (f_lon_v f) (f_lat_v f)
                    (default zero (head (f_lon_u f))) (default zero (last (f_lon_u f)));
     d_nav_lat := NEMOGrid.file_nav_lat (f_lon_v f) (f_lat_v f)
                    (default zero (head (f_lat_u f))) (default zero (last (f_lat_u f)));
     d_velocity := NEMOGrid.file_velocity "depthv" (f_lon_v f) (f_lat_v f) (f_V f);
     d_slice := astype_array float32 (transpose (f_V f));
     d_lat := astype float32 <$> f_lat_v f;
     d_lon := astype float32 <$> f_lon_v f |}.

(** Every entry of a two-dimensional array satisfies [P]. *)
Definition all_entries (P : float → Prop) (a : list (list float)) : Prop :=
  Forall (Forall P) a.

End Vocabulary.

(** ** What a statement leaves unchanged *)

Section Frames.
Context `{Scipy} `{PyPath}.

(** The world a statement leaves is related by [R] to the world it
    started in, whether it returns or raises. *)
Definition preserves {A} (R : World → World → Prop) (m : M A) : Prop :=
  ∀ w, R w (fst (m w)).

(** The attribute [name] that the object [o] has of its own, if any. *)
Definition own_attr (w : World) (o : ref) (name : string) : option Value :=
  objects w !! o ≫= λ d, d !! name.

(** Nothing but the files at [paths] differs. *)
Definition same_but_files (paths : list string) (w w' : World) : Prop :=
  objects w' = objects w ∧ lists w' = lists w ∧ class_dict w' = class_dict w ∧
  stdout w' = stdout w ∧
  ∀ p, p ∉ paths → fs w' !! p = fs w !! p.

(** Nothing but the attributes [names] of the object [self] differs. *)
Definition same_but_attrs (self : ref) (names : list string) (w w' : World) : Prop :=
  fs w' = fs w ∧ stdout w' = stdout w ∧ lists w' = lists w ∧
  class_dict w' = class_dict w ∧
  dom (objects w') = dom (objects w) ∧
  ∀ o n, o ≠ self ∨ n ∉ names → own_attr w' o n = own_attr w o n.

(** The attributes [__init__] assigns. *)
Definition init_attrs : list string :=
  ["dset_u"; "dset_v"; "lon_u"; "lat_u"; "lon_v"; "lat_v"; "U"; "V";
   "interp_u"; "interp_v"].

(** The line [write(filename)] prints. *)
Definition write_line (filename : string) : string :=
  String.append "Generating NEMO grid output: " (path_local filename).

End Frames.

(** ** A small grid, for the examples *)

Module Demo.
Import Np NetCDF.

(** A stand-in for SciPy: a spline is the data it was fitted to, and
    evaluates to the first entry of the data. *)
Definition scipy : Scipy :=
  {| Spline := list (list float);
     RectBivariateSpline := λ x y z kx ky, Ok z;
     ev := λ s x y, nth 0 (nth 0 s []) zero |}.

(** Absolute, normalised paths: [path.local] leaves them as they are. *)
Definition pypath : PyPath := {| path_local := λ s, s |}.

#[local] Existing Instance scipy.
#[local] Existing Instance pypath.

(** The float32 number [z], for an integer [z]. *)
Definition f32 (z : Z) : float := binary_normalize 24 128 z 0 false.

(** [0.1] as a float64 number. *)
Definition tenth : float := S754_finite false 7205759403792794 (-56).

(** Two longitudes and three latitudes; [U] and [V] indexed [(x, y)]. *)
Definition fields (u00 : float) : Fields :=
  {| f_lon_u := [f32 0; f32 1];
     f_lat_u := [f32 0; f32 1; f32 2];
     f_lon_v := [f32 10; f32 11];
     f_lat_v := [f32 10; f32 11; f32 12];
     f_depth := [f32 0];
     f_time_counter := [f32 0];
     f_U := [[u00; f32 2; f32 3]; [f32 4; f32 5; f32 6]];
     f_V := [[f32 7; f32 8; f32 9]; [f32 10; f32 11; f32 12]] |}.

Definition attributes (f : Fields) : gmap string Value :=
  <["lon_u" := NdArray (Arr1 (f_lon_u f))]> (
  <["lat_u" := NdArray (Arr1 (f_lat_u f))]> (
  <["lon_v" := NdArray (Arr1 (f_lon_v f))]> (
  <["lat_v" := NdArray (Arr1 (f_lat_v f))]> (
  <["depth" := NdArray (Arr1 (f_depth f))]> (
  <["time_counter" := NdArray (Arr1 (f_time_counter f))]> (
  <["U" := NdArray (Arr2 (f_U f))]> (
  <["V" := NdArray (Arr2 (f_V f))]> ∅))))))).

(** The class with its empty particle list (object 1), an instance
    holding the fields (object 2) and an instance without attributes of
    its own (object 3); no file yet. *)
Definition world (f : Fields) : World :=
  {| fs := ∅; stdout := []; lists := {[ 1%positive := [] ]};
     objects := <[2%positive := attributes f]> (<[3%positive := ∅]> ∅);
     class_dict := NEMOGrid.class_body 1%positive |}.

(** The world after object 2 has written its fields to [/data/nemo]. *)
Definition world_written (f : Fields) : World :=
  fst (NEMOGrid.write 2%positive "/data/nemo" (world f)).

(** The world after object 3 has then been initialised from these
    files. *)
Definition world_read (f : Fields) : World :=
  fst (NEMOGrid.__init__ 3%positive (Some "/data/nemo") None (world_written f)).

(** The first world, where object 2 has been given a particle list of its
    own (object 5), holding particle 9. *)
Definition world_own_list (f : Fields) : World :=
  set_lists (<[5%positive := [9%positive]]> (lists (world f)))
    (set_objects
       (<[2%positive := <["_particles" := PyList 5%positive]> (attributes f)]>
          (objects (world f)))
       (world f)).

(** The first world, where object 3 has been given the two interpolators
    [su] and [sv]. *)
Definition world_splines (f : Fields) (su sv : list (list float)) : World :=
  set_objects
    (<[3%positive := <["interp_v" := PySpline sv]> (<["interp_u" := PySpline su]> ∅)]>
       (objects (world f)))
    (world f).

(** The first world after particle 7 has been added to the list of the
    class. *)
Definition world_with_particle (f : Fields) : World :=
  set_lists (<[1%positive := [7%positive]]> (lists (world f))) (world f).

End Demo.

(** * Properties *)

(** ** Arrays *)

Section ArrayFacts.
Import Np.

Lemma fmap_nth_seq {A B} (f : A → B) (l : list A) (d : A) :
  (λ i, f (nth i l d)) <$> seq 0 (length l) = f <$> l.
Proof.
  apply list_eq. intros i.
  rewrite !list_lookup_fmap.
  destruct (decide (i < length l)) as [Hi | Hi].
  - rewrite lookup_seq_lt by done. simpl.
    destruct (lookup_lt_is_Some_2 l i Hi) as [a Ha].
    rewrite Ha. simpl. f_equal. f_equal. by apply nth_lookup_Some with (d := d) in Ha.
  - rewrite lookup_seq_ge by lia. rewrite lookup_ge_None_2 by lia. done.
Qed.

Lemma rectb_spec n m a : rectb n m a = true ↔ rect n m a.
Proof.
  unfold rectb, rect. rewrite andb_true_iff, bool_decide_eq_true, forallb_forall.
  rewrite Forall_forall. setoid_rewrite <- list_elem_of_In.
  setoid_rewrite bool_decide_eq_true. done.
Qed.

(** The transpose of an [(n, m)] array with [n > 0] is an [(m, n)] array. *)
Lemma transpose_rect n m a : 0 < n → rect n m a → rect m n (transpose a).
Proof.
  intros Hn [Hlen Hall]. destruct a as [|r a]; simpl in *; [lia|].
  split.
  - rewrite length_fmap, length_seq. by inversion Hall.
  - apply Forall_fmap, Forall_forall. intros j _. simpl.
    by rewrite length_fmap.
Qed.

Lemma transpose_nth n m a i j :
  rect n m a → i < m → j < n →
  nth j (nth i (transpose a) []) zero = nth i (nth j a []) zero.
Proof.
  intros [Hlen Hall] Hi Hj. destruct a as [|r a]; simpl in Hlen; [lia|].
  unfold transpose.
  assert (length r = m) as Hr by by inversion Hall.
  rewrite Hr.
  set (b := r :: a) in *.
  assert (nth i ((λ j0, (λ row : list float, nth j0 row zero) <$> b) <$> seq 0 m) []
          = (λ row : list float, nth i row zero) <$> b) as ->.
  { apply nth_lookup_Some with (d := []) (i := i).
    rewrite list_lookup_fmap, lookup_seq_lt by done. done. }
  destruct (lookup_lt_is_Some_2 b j) as [row Hrow]; [simpl; lia|].
  rewrite (nth_lookup_Some b j [] row Hrow).
  apply nth_lookup_Some. by rewrite list_lookup_fmap, Hrow.
Qed.

Lemma nan_to_zero_no_nan a :
  Forall (Forall (λ v, isnan v = false)) (nan_to_zero a).
Proof.
  unfold nan_to_zero. apply Forall_fmap, Forall_forall. intros row _. simpl.
  apply Forall_fmap, Forall_forall. intros v _. simpl.
  by destruct (isnan v) eqn:E.
Qed.

Lemma nan_to_zero_pointwise a :
  Forall2 (Forall2 (λ v v', v' = if isnan v then zero else v)) a (nan_to_zero a).
Proof.
  unfold nan_to_zero. apply Forall2_fmap_r, Forall_Forall2_diag, Forall_forall.
  intros row _. apply Forall2_fmap_r, Forall_Forall2_diag, Forall_forall. done.
Qed.

Lemma nan_to_zero_id a :
  Forall (Forall (λ v, isnan v = false)) a → nan_to_zero a = a.
Proof.
  intros Ha. unfold nan_to_zero.
  rewrite <- (list_fmap_id a) at 2. apply Forall_fmap_ext.
  eapply Forall_impl; [exact Ha|]. intros row Hrow. simpl.
  rewrite <- (list_fmap_id row) at 2. apply Forall_fmap_ext.
  eapply Forall_impl; [exact Hrow|]. intros v Hv. simpl. by rewrite Hv.
Qed.

End ArrayFacts.

(** ** Conversions never produce NaN *)

Section Rounding.
Import Np.

Lemma iter_pos_invariant {A} (P : A → Prop) (f : A → A) :
  (∀ a, P a → P (f a)) → ∀ p a, P a → P (SpecFloat.iter_pos f p a).
Proof.
  intros Hf. induction p as [p IH | p IH |]; intros a Ha; simpl; auto.
Qed.

Lemma shr_1_nonneg mrs : (0 ≤ shr_m mrs)%Z → (0 ≤ shr_m (shr_1 mrs))%Z.
Proof.
  destruct mrs as [m r s]. simpl.
  destruct m as [|p|p]; [done| |lia].
  intros _. by destruct p.
Qed.

Lemma shr_fexp_nonneg p emx m e l :
  (0 ≤ m)%Z → (0 ≤ shr_m (fst (shr_fexp p emx m e l)))%Z.
Proof.
  intros Hm. unfold shr_fexp, shr.
  assert (0 ≤ shr_m (shr_record_of_loc m l))%Z as H0
    by (by destruct l as [|[]]).
  destruct (fexp p emx (Zdigits2 m + e) - e)%Z; simpl; try done.
  apply (iter_pos_invariant (λ mrs, (0 ≤ shr_m mrs)%Z)); [apply shr_1_nonneg | done].
Qed.

Lemma round_nearest_even_nonneg m l :
  (0 ≤ m)%Z → (0 ≤ round_nearest_even m l)%Z.
Proof.
  intros Hm. destruct l as [|[]]; simpl; try done; [|lia].
  destruct (Z.even m); lia.
Qed.

Lemma binary_round_not_nan p emx s m e :
  isnan (binary_round p emx s m e) = false.
Proof.
  unfold binary_round.
  destruct (shl_align m e (fexp p emx (Z.pos (digits2_pos m) + e))) as [mz ez].
  unfold binary_round_aux.
  pose proof (shr_fexp_nonneg p emx (Z.pos mz) ez loc_Exact) as H1.
  destruct (shr_fexp p emx (Z.pos mz) ez loc_Exact) as [mrs' e'].
  simpl in H1.
  pose proof (shr_fexp_nonneg p emx
    (round_nearest_even (shr_m mrs') (loc_of_shr_record mrs')) e' loc_Exact) as H2.
  destruct (shr_fexp p emx _ e' loc_Exact) as [mrs'' e''].
  simpl in H2.
  assert (0 ≤ shr_m mrs'')%Z as H3
    by (apply H2, round_nearest_even_nonneg, H1; lia).
  destruct (shr_m mrs''); [done| |lia].
  by destruct (_ <=? _)%Z.
Qed.

Lemma astype_not_nan t v : isnan v = false → isnan (astype t v) = false.
Proof.
  destruct v; simpl; try done. intros _. apply binary_round_not_nan.
Qed.

End Rounding.

(** ** Datasets *)

Section DatasetFacts.
Import Np NetCDF.

Implicit Types (D : gmap string Dimension) (V : gmap string NcVariable).

Lemma lookup_write_region t region f d ix :
  write_region t region f d !! ix
  = if decide (ix ∈ region) then Some (astype t (f ix)) else d !! ix.
Proof.
  induction region as [|r region IH].
  - done.
  - change (write_region t (r :: region) f d)
      with (<[r := astype t (f r)]> (write_region t region f d)).
    destruct (decide (r = ix)) as [-> | Hne].
    + rewrite lookup_insert_eq. rewrite decide_True; [done|]. apply list_elem_of_here.
    + rewrite lookup_insert_ne by done. rewrite IH.
      destruct (decide (ix ∈ region)) as [Hin | Hin].
      * rewrite decide_True; [done|]. by apply list_elem_of_further.
      * rewrite decide_False; [done|]. intros [? | ?]%elem_of_cons; congruence.
Qed.

Lemma write_region_app t r1 r2 f d :
  write_region t r1 f (write_region t r2 f d) = write_region t (r1 ++ r2)%list f d.
Proof. unfold write_region. by rewrite foldr_app. Qed.

Lemma elem_of_region_00 ny nx ix :
  ix ∈ region_00 ny nx ↔ ∃ i j, ix = [0; 0; i; j] ∧ i < ny ∧ j < nx.
Proof.
  unfold region_00. rewrite list_elem_of_join. split.
  - intros (l & Hix & Hl).
    apply list_elem_of_fmap in Hl as (i & -> & Hi).
    apply list_elem_of_fmap in Hix as (j & -> & Hj).
    apply elem_of_seq in Hi, Hj. exists i, j. split; [done|lia].
  - intros (i & j & -> & Hi & Hj).
    exists ((λ j, [0; 0; i; j]) <$> seq 0 nx). split.
    + apply list_elem_of_fmap. exists j. split; [done|]. apply elem_of_seq. lia.
    + apply list_elem_of_fmap. exists i. split; [done|]. apply elem_of_seq. lia.
Qed.

Lemma createDimension_ok name size D V :
  D !! name = None →
  createDimension name size {| dimensions := D; variables := V |}
  = Ok {| dimensions :=
            <[name := match size with
                      | Some n => {| dim_size := n; unlimited := false |}
                      | None => {| dim_size := 0; unlimited := true |}
                      end]> D;
          variables := V |}.
Proof. intros HD. unfold createDimension. simpl. by rewrite HD. Qed.

Lemma createVariable_ok name t dims D V :
  V !! name = None →
  Forall (λ d, is_Some (D !! d)) dims →
  createVariable name t dims {| dimensions := D; variables := V |}
  = Ok {| dimensions := D;
          variables := <[name := {| datatype := t; var_dims := dims;
                                    data := ∅; ncattrs := ∅ |}]> V |}.
Proof.
  intros HV Hdims. unfold createVariable. simpl. rewrite HV.
  assert (forallb (λ d, bool_decide (is_Some (D !! d))) dims = true) as ->; [|done].
  apply forallb_forall. intros d Hd%list_elem_of_In.
  apply bool_decide_eq_true. by eapply Forall_forall in Hdims.
Qed.

Lemma setncattr_ok name attr value v D V :
  V !! name = Some v →
  setncattr name attr value {| dimensions := D; variables := V |}
  = Ok {| dimensions := D;
          variables := <[name := {| datatype := datatype v; var_dims := var_dims v;
                                    data := data v;
                                    ncattrs := <[attr := value]> (ncattrs v) |}]> V |}.
Proof. intros HV. unfold setncattr, getvar. simpl. by rewrite HV. Qed.

End DatasetFacts.

Section SetitemFacts.
Import Np NetCDF.

Implicit Types (D : gmap string Dimension) (V : gmap string NcVariable).

Lemma elem_of_rows ys n ix :
  ix ∈ Region.rows ys n ↔ ∃ y j, ix = [y; j] ∧ y ∈ ys ∧ j < n.
Proof.
  unfold Region.rows. rewrite list_elem_of_join. split.
  - intros (l & Hix & Hl).
    apply list_elem_of_fmap in Hl as (y & -> & Hy).
    apply list_elem_of_fmap in Hix as (j & -> & Hj).
    rewrite elem_of_reverse in Hy. apply elem_of_seq in Hj. exists y, j. split; [done|].
    split; [done|lia].
  - intros (y & j & -> & Hy & Hj).
    exists ((λ j, [y; j]) <$> seq 0 n). split.
    + apply list_elem_of_fmap. exists j. split; [done|]. apply elem_of_seq. lia.
    + apply list_elem_of_fmap. exists y. split; [done|]. by apply elem_of_reverse.
Qed.

Lemma elem_of_cols xs n ix :
  ix ∈ Region.cols xs n ↔ ∃ i x, ix = [i; x] ∧ x ∈ xs ∧ i < n.
Proof.
  unfold Region.cols. rewrite list_elem_of_join. split.
  - intros (l & Hix & Hl).
    apply list_elem_of_fmap in Hl as (x & -> & Hx).
    apply list_elem_of_fmap in Hix as (i & -> & Hi).
    rewrite elem_of_reverse in Hx. apply elem_of_seq in Hi. exists i, x. split; [done|].
    split; [done|lia].
  - intros (i & x & -> & Hx & Hi).
    exists ((λ i, [i; x]) <$> seq 0 n). split.
    + apply list_elem_of_fmap. exists i. split; [done|]. apply elem_of_seq. lia.
    + apply list_elem_of_fmap. exists x. split; [done|]. by apply elem_of_reverse.
Qed.

Lemma rows_cons y ys n :
  Region.rows (y :: ys) n = (Region.rows ys n ++ ((λ j, [y; j]) <$> seq 0 n))%list.
Proof.
  unfold Region.rows. rewrite reverse_cons, fmap_app, join_app. simpl.
  by rewrite app_nil_r.
Qed.

Lemma cols_cons x xs n :
  Region.cols (x :: xs) n = (Region.cols xs n ++ ((λ i, [i; x]) <$> seq 0 n))%list.
Proof.
  unfold Region.cols. rewrite reverse_cons, fmap_app, join_app. simpl.
  by rewrite app_nil_r.
Qed.

Lemma set_data_id v : set_data (data v) v = v.
Proof. by destruct v. Qed.

Lemma ensure_index_lt d i dim D V :
  D !! d = Some dim → i < dim_size dim →
  ensure_index d i {| dimensions := D; variables := V |}
  = Ok {| dimensions := D; variables := V |}.
Proof.
  intros Hd Hi. unfold ensure_index. simpl. rewrite Hd.
  by rewrite bool_decide_eq_true_2.
Qed.

Lemma ensure_index_grow d i dim D V :
  D !! d = Some dim → ¬ i < dim_size dim → unlimited dim = true →
  ensure_index d i {| dimensions := D; variables := V |}
  = Ok {| dimensions := <[d := {| dim_size := S i; unlimited := true |}]> D;
          variables := V |}.
Proof.
  intros Hd Hi Hu. unfold ensure_index. simpl. rewrite Hd.
  rewrite bool_decide_eq_false_2 by done. by rewrite Hu.
Qed.

Lemma setitem_row_ok name y a v dy dx dimy dimx D V :
  V !! name = Some v → var_dims v = [dy; dx] →
  D !! dy = Some dimy → y < dim_size dimy →
  D !! dx = Some dimx → dim_size dimx = length a →
  setitem_row name y a {| dimensions := D; variables := V |}
  = Ok {| dimensions := D;
          variables :=
            <[name := set_data
                        (write_region (datatype v) ((λ j, [y; j]) <$> seq 0 (length a))
                           (λ ix, nth (nth 1 ix 0) a zero) (data v)) v]> V |}.
Proof.
  intros HV Hdims Hdy Hy Hdx Hx.
  unfold setitem_row, getvar. simpl. rewrite HV. simpl. rewrite Hdims.
  unfold ensure_index. simpl. rewrite Hdy.
  rewrite bool_decide_eq_true_2 by done. simpl.
  unfold ensure_length. simpl. rewrite Hdx.
  rewrite bool_decide_eq_true_2 by done. done.
Qed.

Lemma setitem_col_ok name x a v dy dx dimy dimx D V :
  V !! name = Some v → var_dims v = [dy; dx] →
  D !! dy = Some dimy → dim_size dimy = length a →
  D !! dx = Some dimx → x < dim_size dimx →
  setitem_col name x a {| dimensions := D; variables := V |}
  = Ok {| dimensions := D;
          variables :=
            <[name := set_data
                        (write_region (datatype v) ((λ i, [i; x]) <$> seq 0 (length a))
                           (λ ix, nth (hd 0 ix) a zero) (data v)) v]> V |}.
Proof.
  intros HV Hdims Hdy Hy Hdx Hx.
  unfold setitem_col, getvar. simpl. rewrite HV. simpl. rewrite Hdims.
  unfold ensure_length. simpl. rewrite Hdy.
  rewrite bool_decide_eq_true_2 by done. simpl.
  unfold ensure_index. simpl. rewrite Hdx.
  rewrite bool_decide_eq_true_2 by done. done.
Qed.

(** [v[:] = a] on a fixed dimension of the length of [a]. *)
Lemma setitem_all_fixed name a v d dim D V :
  V !! name = Some v → var_dims v = [d] →
  D !! d = Some dim → dim_size dim = length a →
  setitem_all name a {| dimensions := D; variables := V |}
  = Ok {| dimensions := D;
          variables :=
            <[name := set_data
                        (write_region (datatype v) ((λ i, [i]) <$> seq 0 (length a))
                           (λ ix, nth (hd 0 ix) a zero) (data v)) v]> V |}.
Proof.
  intros HV Hdims Hd Hlen.
  unfold setitem_all, getvar. simpl. rewrite HV. simpl. rewrite Hdims.
  unfold ensure_length. simpl. rewrite Hd.
  rewrite bool_decide_eq_true_2 by done. done.
Qed.

(** [v[:] = a] on an unlimited dimension that is still empty: it grows to
    the length of [a]. *)
Lemma setitem_all_unlimited name a v d D V :
  V !! name = Some v → var_dims v = [d] →
  D !! d = Some {| dim_size := 0; unlimited := true |} →
  setitem_all name a {| dimensions := D; variables := V |}
  = Ok {| dimensions := <[d := {| dim_size := length a; unlimited := true |}]> D;
          variables :=
            <[name := set_data
                        (write_region (datatype v) ((λ i, [i]) <$> seq 0 (length a))
                           (λ ix, nth (hd 0 ix) a zero) (data v)) v]> V |}.
Proof.
  intros HV Hdims Hd.
  unfold setitem_all, getvar. simpl. rewrite HV. simpl. rewrite Hdims.
  unfold ensure_length. simpl. rewrite Hd. simpl.
  case_bool_decide as Hlen; simpl.
  - rewrite Hlen. by rewrite insert_id.
  - by rewrite Nat.max_0_r.
Qed.

(** [v[0, 0, :, :] = a]: the unlimited leading dimension holds at least
    one entry afterwards. *)
Lemma setitem_00_ok name a v dt dz dy dx nt dimz dimy dimx D V :
  V !! name = Some v → var_dims v = [dt; dz; dy; dx] →
  D !! dt = Some {| dim_size := nt; unlimited := true |} →
  dz ≠ dt → dy ≠ dt → dx ≠ dt →
  D !! dz = Some dimz → 0 < dim_size dimz →
  D !! dy = Some dimy → D !! dx = Some dimx →
  rect (dim_size dimy) (dim_size dimx) a →
  setitem_00 name a {| dimensions := D; variables := V |}
  = Ok {| dimensions := <[dt := {| dim_size := max nt 1; unlimited := true |}]> D;
          variables :=
            <[name := set_data
                        (write_region (datatype v)
                           (region_00 (dim_size dimy) (dim_size dimx))
                           (λ ix, nth (nth 3 ix 0) (nth (nth 2 ix 0) a []) zero)
                           (data v)) v]> V |}.
Proof.
  intros HV Hdims Hdt Hzt Hyt Hxt Hdz Hz Hdy Hdx Hrect.
  apply rectb_spec in Hrect.
  unfold setitem_00, getvar. simpl. rewrite HV. simpl. rewrite Hdims.
  destruct (decide (0 < nt)) as [Hnt | Hnt].
  - assert (max nt 1 = nt) as -> by lia. rewrite insert_id by done.
    rewrite (ensure_index_lt dt 0 _ D V Hdt) by done. simpl.
    rewrite (ensure_index_lt dz 0 _ D V Hdz) by done. simpl.
    unfold dim_len. simpl. rewrite Hdy, Hdx. simpl. by rewrite Hrect.
  - assert (max nt 1 = 1) as -> by lia.
    rewrite (ensure_index_grow dt 0 _ D V Hdt) by (simpl; done || lia). simpl.
    erewrite ensure_index_lt; [|by rewrite lookup_insert_ne|done]. simpl.
    unfold dim_len. simpl. rewrite !lookup_insert_ne by done.
    rewrite Hdy, Hdx. simpl. by rewrite Hrect.
Qed.

End SetitemFacts.

(** ** Running statements *)

Section Steps.
Context `{Scipy}.
Import Np NetCDF.

Lemma bind_assoc_at {A B C} (m : M A) (f : A → M B) (g : B → M C) w :
  ((m ≫= f) ≫= g) w = (m ≫= λ a, f a ≫= g) w.
Proof. unfold mbind, M_bind. by destruct (m w) as [w' [a|e]]. Qed.

Lemma bind_lift {A B} (r : result A) (a : A) (k : A → M B) w :
  r = Ok a → (lift r ≫= k) w = k a w.
Proof. by intros ->. Qed.

Lemma bind_getattr {B} self name v (k : Value → M B) F w :
  lookup_attr w self name = Ok v →
  (getattr self name ≫= k) (set_fs F w) = k v (set_fs F w).
Proof.
  intros Hv. unfold mbind, M_bind, getattr.
  change (lookup_attr (set_fs F w) self name) with (lookup_attr w self name).
  by rewrite Hv.
Qed.

Lemma bind_call {B} h op ds ds' (k : unit → M B) F w :
  op ds = Ok ds' →
  (call h op ≫= k) (set_fs (<[h := ds]> F) w) = k () (set_fs (<[h := ds']> F) w).
Proof.
  intros Hop. unfold mbind, M_bind, call. simpl.
  rewrite lookup_insert_eq, Hop. unfold set_fs. simpl.
  by rewrite insert_insert_eq.
Qed.

Lemma rows_loop {B} self attr lon h name F w (k : unit → M B) :
  lookup_attr w self attr = Ok (NdArray (Arr1 lon)) →
  ∀ ys V v D dy dx dimy dimx,
    V !! name = Some v → var_dims v = [dy; dx] →
    D !! dy = Some dimy → Forall (λ y, y < dim_size dimy) ys →
    D !! dx = Some dimx → dim_size dimx = length lon →
    (for_each ys (λ y, v ← getattr self attr; a ← lift (array1 v);
                        call h (setitem_row name y a)) ≫= k)
      (set_fs (<[h := {| dimensions := D; variables := V |}]> F) w)
    = k () (set_fs (<[h := {| dimensions := D;
                               variables :=
                                 <[name := set_data
                                      (write_region (datatype v)
                                         (Region.rows ys (length lon))
                                         (λ ix, nth (nth 1 ix 0) lon zero) (data v)) v]> V
                            |}]> F) w).
Proof.
  intros Hattr ys. induction ys as [|y ys IH];
    intros V v D dy dx dimy dimx HV Hdims Hdy Hys Hdx Hlen.
  - simpl. change (Region.rows [] (length lon)) with (@nil (list nat)). simpl.
    rewrite set_data_id, (insert_id V name v) by done. done.
  - apply Forall_cons in Hys as [Hy Hys].
    simpl for_each. rewrite bind_assoc_at, bind_assoc_at.
    rewrite (bind_getattr _ _ _ _ _ _ Hattr).
    rewrite bind_assoc_at. rewrite (bind_lift _ lon) by done.
    erewrite bind_call; [|by eapply setitem_row_ok].
    erewrite IH; [|by rewrite lookup_insert_eq|done..].
    rewrite insert_insert_eq. simpl.
    rewrite write_region_app, <- rows_cons. done.
Qed.

Lemma cols_loop {B} self attr lat h name F w (k : unit → M B) :
  lookup_attr w self attr = Ok (NdArray (Arr1 lat)) →
  ∀ xs V v D dy dx dimy dimx,
    V !! name = Some v → var_dims v = [dy; dx] →
    D !! dy = Some dimy → dim_size dimy = length lat →
    D !! dx = Some dimx → Forall (λ x, x < dim_size dimx) xs →
    (for_each xs (λ x, v ← getattr self attr; a ← lift (array1 v);
                        call h (setitem_col name x a)) ≫= k)
      (set_fs (<[h := {| dimensions := D; variables := V |}]> F) w)
    = k () (set_fs (<[h := {| dimensions := D;
                               variables :=
                                 <[name := set_data
                                      (write_region (datatype v)
                                         (Region.cols xs (length lat))
                                         (λ ix, nth (hd 0 ix) lat zero) (data v)) v]> V
                            |}]> F) w).
Proof.
  intros Hattr xs. induction xs as [|x xs IH];
    intros V v D dy dx dimy dimx HV Hdims Hdy Hlen Hdx Hxs.
  - simpl. change (Region.cols [] (length lat)) with (@nil (list nat)). simpl.
    rewrite set_data_id, (insert_id V name v) by done. done.
  - apply Forall_cons in Hxs as [Hx Hxs].
    simpl for_each. rewrite bind_assoc_at, bind_assoc_at.
    rewrite (bind_getattr _ _ _ _ _ _ Hattr).
    rewrite bind_assoc_at. rewrite (bind_lift _ lat) by done.
    erewrite bind_call; [|by eapply setitem_col_ok].
    erewrite IH; [|by rewrite lookup_insert_eq|done..].
    rewrite insert_insert_eq. simpl.
    rewrite write_region_app, <- cols_cons. done.
Qed.

End Steps.

(** ** What [write] leaves in one file *)

Section WriteFile.
Context `{Scipy} `{PyPath}.
Import Np NetCDF.

Lemma bind_Dataset_w {B} path (k : string → M B) w :
  (Dataset_w path ≫= k) w
  = k path (set_fs (<[path := {| dimensions := ∅; variables := ∅ |}]> (fs w)) w).
Proof. done. Qed.

Lemma bind_close {B} h (k : unit → M B) w : (close h ≫= k) w = k () w.
Proof. done. Qed.

Variables (self : ref) (w : World).
Variables (path zname vname lon lat field : string).
Variables (lonv latv depthv tcv : list float) (fieldv : list (list float)).
Variables (vlonu vlatu : Value) (lon_min lon_max lat_min lat_max : float).

Hypothesis Hlon : lookup_attr w self lon = Ok (NdArray (Arr1 lonv)).
Hypothesis Hlat : lookup_attr w self lat = Ok (NdArray (Arr1 latv)).
Hypothesis Hdepth : lookup_attr w self "depth" = Ok (NdArray (Arr1 depthv)).
Hypothesis Htc : lookup_attr w self "time_counter" = Ok (NdArray (Arr1 tcv)).
Hypothesis Hfield : lookup_attr w self field = Ok (NdArray (Arr2 fieldv)).
Hypothesis Hlonu : lookup_attr w self "lon_u" = Ok vlonu.
Hypothesis Hlatu : lookup_attr w self "lat_u" = Ok vlatu.
Hypothesis Hlon_min : first vlonu = Ok lon_min.
Hypothesis Hlon_max : last_ vlonu = Ok lon_max.
Hypothesis Hlat_min : first vlatu = Ok lat_min.
Hypothesis Hlat_max : last_ vlatu = Ok lat_max.
Hypothesis Hnonempty : 0 < length lonv.
Hypothesis Hdepth_nonempty : 0 < length depthv.
Hypothesis Hrect : rect (length lonv) (length latv) fieldv.
Hypothesis Hzname : zname ∉ ["x"; "y"; "time_counter"; "nav_lon"; "nav_lat"].
Hypothesis Hvname : vname ∉ ["nav_lon"; "nav_lat"; "time_counter"; zname].

Local Ltac lk :=
  repeat (rewrite lookup_insert_eq || rewrite lookup_insert_ne by done);
  try done; eauto.

Local Ltac solve_dims := repeat constructor; lk.

Lemma write_file_run (k : M unit) :
  NEMOGrid.write_file_then self path zname vname lon lat field k w
  = k (set_fs (<[path := NEMOGrid.nemo_dataset zname vname lonv latv depthv tcv
                           lon_min lon_max lat_min lat_max fieldv]> (fs w)) w).
Proof.
  assert (zname ≠ "x" ∧ zname ≠ "y" ∧ zname ≠ "time_counter"
          ∧ zname ≠ "nav_lon" ∧ zname ≠ "nav_lat") as (Hz1 & Hz2 & Hz3 & Hz4 & Hz5)
    by (repeat split; intros ->; apply Hzname; repeat constructor).
  assert (vname ≠ "nav_lon" ∧ vname ≠ "nav_lat" ∧ vname ≠ "time_counter"
          ∧ vname ≠ zname) as (Hv1 & Hv2 & Hv3 & Hv4)
    by (repeat split; intros ->; apply Hvname; repeat constructor).
  unfold NEMOGrid.write_file_then.
  rewrite bind_Dataset_w.
  rewrite (bind_getattr _ _ _ _ _ _ Hlon), (bind_lift _ (length lonv)) by done.
  erewrite bind_call; [|by apply createDimension_ok].
  rewrite (bind_getattr _ _ _ _ _ _ Hlat), (bind_lift _ (length latv)) by done.
  erewrite bind_call; [|by apply createDimension_ok].
  rewrite (bind_getattr _ _ _ _ _ _ Hdepth), (bind_lift _ (length depthv)) by done.
  erewrite bind_call;
    [|apply createDimension_ok; by rewrite !lookup_insert_ne by done].
  erewrite bind_call;
    [|apply createDimension_ok; by rewrite !lookup_insert_ne by done].
  erewrite bind_call; [|apply createVariable_ok; [done|solve_dims]].
  erewrite bind_call; [|apply createVariable_ok; [lk|solve_dims]].
  erewrite bind_call; [|apply createVariable_ok; [lk|solve_dims]].
  erewrite bind_call; [|apply createVariable_ok; [lk|solve_dims]].
  erewrite bind_call; [|apply createVariable_ok; [lk|solve_dims]].
  rewrite (bind_getattr _ _ _ _ _ _ Hlat), (bind_lift _ (length latv)) by done.
  erewrite (rows_loop _ _ _ _ _ _ _ _ Hlon) with (dy := "y") (dx := "x");
    [|lk|done|lk|by apply Forall_seq; intros; simpl; lia|lk|done].
  rewrite (bind_getattr _ _ _ _ _ _ Hlonu), (bind_lift _ lon_min) by done.
  erewrite bind_call; [|apply setncattr_ok; lk].
  rewrite (bind_getattr _ _ _ _ _ _ Hlonu), (bind_lift _ lon_max) by done.
  erewrite bind_call; [|apply setncattr_ok; lk].
  rewrite (bind_getattr _ _ _ _ _ _ Hlon), (bind_lift _ (length lonv)) by done.
  erewrite (cols_loop _ _ _ _ _ _ _ _ Hlat) with (dy := "y") (dx := "x");
    [|lk|done|lk|done|lk|by apply Forall_seq; intros; simpl; lia].
  rewrite (bind_getattr _ _ _ _ _ _ Hlatu), (bind_lift _ lat_min) by done.
  erewrite bind_call; [|apply setncattr_ok; lk].
  rewrite (bind_getattr _ _ _ _ _ _ Hlatu), (bind_lift _ lat_max) by done.
  erewrite bind_call; [|apply setncattr_ok; lk].
  rewrite (bind_getattr _ _ _ _ _ _ Hdepth), (bind_lift _ depthv) by done.
  erewrite bind_call; [|eapply setitem_all_fixed; [lk|done|lk|done]].
  rewrite (bind_getattr _ _ _ _ _ _ Htc), (bind_lift _ tcv) by done.
  erewrite bind_call; [|eapply setitem_all_unlimited; [lk|done|lk]].
  rewrite (bind_getattr _ _ _ _ _ _ Hfield), (bind_lift _ (transpose fieldv)) by done.
  erewrite bind_call;
    [|eapply (setitem_00_ok _ _ _ "time_counter" zname "y" "x");
      [lk|done|lk|done|done|done|lk|done|lk|lk|by apply (transpose_rect (length lonv))]].
  rewrite bind_close.
  do 3 f_equal.
  unfold NEMOGrid.nemo_dataset, NEMOGrid.file_velocity, NEMOGrid.file_time_counter,
    NEMOGrid.file_depth, NEMOGrid.file_nav_lat, NEMOGrid.file_nav_lon, set_data.
  simpl. f_equal.
  - by rewrite !insert_insert_eq.
  - apply map_eq. intros i.
    destruct (decide (i = vname)) as [-> | ?]; [by lk|].
    destruct (decide (i = "time_counter")) as [-> | ?]; [by lk|].
    destruct (decide (i = zname)) as [-> | ?]; [by lk|].
    destruct (decide (i = "nav_lat")) as [-> | ?]; [by lk|].
    destruct (decide (i = "nav_lon")) as [-> | ?]; by lk.
Qed.

End WriteFile.

(** ** What [write] does *)

Section WriteFacts.
Context `{Scipy} `{PyPath}.
Import Np NetCDF.

Local Ltac solve_not_elem :=
  repeat (apply not_elem_of_cons; split; [done|]); apply not_elem_of_nil.

Lemma write_unfold self filename :
  NEMOGrid.write self filename
  = (print ("Generating NEMO grid output: " ++ path_local filename);;
     NEMOGrid.write_file_then self (path_local filename ++ "_U.nc")
       "depthu" "vozocrtx" "lon_u" "lat_u" "U"
       (NEMOGrid.write_file_then self (path_local filename ++ "_V.nc")
          "depthv" "vomecrty" "lon_v" "lat_v" "V" (mret ()))).
Proof. reflexivity. Qed.

Lemma first_nonempty a :
  0 < length a → first (NdArray (Arr1 a)) = Ok (default zero (head a)).
Proof. destruct a; simpl; [lia|done]. Qed.

Lemma last_nonempty a :
  0 < length a → last_ (NdArray (Arr1 a)) = Ok (default zero (last a)).
Proof.
  intros Ha. unfold last_. simpl.
  destruct (last a) eqn:E; [done|].
  apply last_None in E. subst. simpl in Ha. lia.
Qed.

Lemma holds_set_fs F w self f : holds w self f → holds (set_fs F w) self f.
Proof. done. Qed.

Lemma holds_set_stdout o w self f : holds w self f → holds (set_stdout o w) self f.
Proof. done. Qed.

(** [write] succeeds on a well-shaped grid, and leaves the world
    [written]. *)
Lemma write_run w self filename f :
  holds w self f → well_shaped f →
  NEMOGrid.write self filename w = (written w filename f, Ok ()).
Proof.
  intros Hholds (Hxu & Hyu & Hxv & Hyv & Hz & HU & HV).
  rewrite write_unfold.
  change ((print ?l ;; ?k) w) with (k (set_stdout (stdout w ++ [l])%list w)).
  match goal with |- context [set_stdout ?o w] =>
    apply (holds_set_stdout o) in Hholds end.
  destruct Hholds as (Hlonu & Hlatu & Hlonv & Hlatv & Hdepth & Htc & HUa & HVa).
  erewrite write_file_run; try eassumption;
    [|by apply first_nonempty|by apply last_nonempty
     |by apply first_nonempty|by apply last_nonempty|solve_not_elem..].
  erewrite write_file_run; try eassumption;
    [|by apply first_nonempty|by apply last_nonempty
     |by apply first_nonempty|by apply last_nonempty|solve_not_elem..].
  done.
Qed.

Lemma U_V_paths_differ (p : string) : p ++ "_U.nc" ≠ p ++ "_V.nc".
Proof. induction p as [|c p IH]; simpl; [done|]. intros [=]. done. Qed.

End WriteFacts.

(** ** Reading a written file back *)

Section ReadBack.
Import Np NetCDF.

Lemma fmap_seq_ext {B} (f g : nat → B) n :
  (∀ i, i < n → f i = g i) → f <$> seq 0 n = g <$> seq 0 n.
Proof.
  intros Hfg. apply Forall_fmap_ext, Forall_forall.
  intros i Hi%elem_of_seq. apply Hfg. lia.
Qed.

Lemma fmap_nth_rect {B} (f : float → B) n m (a : list (list float)) :
  rect n m a →
  (λ i, (λ j, f (nth j (nth i a []) zero)) <$> seq 0 m) <$> seq 0 n
  = fmap f <$> a.
Proof.
  intros [Hn Hm]. subst n.
  rewrite (fmap_nth_seq (λ r, (λ j, f (nth j r zero)) <$> seq 0 m) a []).
  apply Forall_fmap_ext. eapply Forall_impl; [exact Hm|].
  intros r Hr. simpl in *. subst m. apply fmap_nth_seq.
Qed.

Variables (zname vname : string).
Variables (lon lat depth tc : list float) (field : list (list float)).
Variables (lon_min lon_max lat_min lat_max : float).

Hypothesis Hzname : zname ∉ ["x"; "y"; "time_counter"; "nav_lon"; "nav_lat"].
Hypothesis Hvname : vname ∉ ["nav_lon"; "nav_lat"; "time_counter"; zname].

Let ds := NEMOGrid.nemo_dataset zname vname lon lat depth tc
            lon_min lon_max lat_min lat_max field.

Let nav_lon := NEMOGrid.file_nav_lon lon lat lon_min lon_max.
Let nav_lat := NEMOGrid.file_nav_lat lon lat lat_min lat_max.
Let velocity := NEMOGrid.file_velocity zname lon lat field.

Local Ltac names :=
  assert (zname ≠ "x" ∧ zname ≠ "y" ∧ zname ≠ "time_counter"
          ∧ zname ≠ "nav_lon" ∧ zname ≠ "nav_lat") as (Hz1 & Hz2 & Hz3 & Hz4 & Hz5)
    by (repeat split; intros ->; apply Hzname; repeat constructor);
  assert (vname ≠ "nav_lon" ∧ vname ≠ "nav_lat" ∧ vname ≠ "time_counter"
          ∧ vname ≠ zname) as (Hv1 & Hv2 & Hv3 & Hv4)
    by (repeat split; intros ->; apply Hvname; repeat constructor).

Local Ltac lk :=
  repeat (rewrite lookup_insert_eq || rewrite lookup_insert_ne by done);
  try done; eauto.

Lemma nemo_getvar_nav_lon : getvar ds "nav_lon" = Ok nav_lon.
Proof. names. unfold getvar, ds, NEMOGrid.nemo_dataset. simpl. by lk. Qed.

Lemma nemo_getvar_nav_lat : getvar ds "nav_lat" = Ok nav_lat.
Proof. names. unfold getvar, ds, NEMOGrid.nemo_dataset. simpl. by lk. Qed.

Lemma nemo_getvar_velocity : getvar ds vname = Ok velocity.
Proof. names. unfold getvar, ds, NEMOGrid.nemo_dataset. simpl. by lk. Qed.

Lemma nemo_variables :
  dom (variables ds) = {[ "nav_lon"; "nav_lat"; zname; "time_counter"; vname ]}.
Proof.
  unfold ds, NEMOGrid.nemo_dataset. simpl.
  rewrite !dom_insert_L, dom_empty_L. apply set_eq. intros i.
  rewrite !elem_of_union, !elem_of_singleton, elem_of_empty. tauto.
Qed.

Lemma nemo_dim_len_x : dim_len ds "x" = length lon.
Proof. names. unfold dim_len, ds, NEMOGrid.nemo_dataset. simpl. by lk. Qed.

Lemma nemo_dim_len_y : dim_len ds "y" = length lat.
Proof. names. unfold dim_len, ds, NEMOGrid.nemo_dataset. simpl. by lk. Qed.

Lemma nemo_dim_len_z : dim_len ds zname = length depth.
Proof. names. unfold dim_len, ds, NEMOGrid.nemo_dataset. simpl. by lk. Qed.

Lemma nemo_dim_len_t : dim_len ds "time_counter" = max (length tc) 1.
Proof. names. unfold dim_len, ds, NEMOGrid.nemo_dataset. simpl. by lk. Qed.

(** The entries of [nav_lon] are the longitudes, as float32, on every
    row. *)
Lemma nemo_read_nav_lon i j :
  i < length lat → j < length lon →
  read nav_lon [i; j] = astype float32 (nth j lon zero).
Proof.
  intros Hi Hj. unfold read. simpl. rewrite lookup_write_region.
  rewrite decide_True; [done|].
  apply elem_of_rows. exists i, j. split; [done|]. split; [|done].
  apply elem_of_seq. lia.
Qed.

(** The entries of [nav_lat] are the latitudes, as float32, on every
    column. *)
Lemma nemo_read_nav_lat i j :
  i < length lat → j < length lon →
  read nav_lat [i; j] = astype float32 (nth i lat zero).
Proof.
  intros Hi Hj. unfold read. simpl. rewrite lookup_write_region.
  rewrite decide_True; [done|].
  apply elem_of_cols. exists i, j. split; [done|]. split; [|done].
  apply elem_of_seq. lia.
Qed.

Lemma nemo_read_velocity i j :
  i < length lat → j < length lon →
  read velocity [0; 0; i; j]
  = astype float32 (nth j (nth i (transpose field) []) zero).
Proof.
  intros Hi Hj. unfold read. simpl. rewrite lookup_write_region.
  rewrite decide_True; [done|].
  apply elem_of_region_00. by exists i, j.
Qed.

Lemma nemo_getitem_col0 :
  0 < length lon → getitem_col0 ds nav_lat = Ok (astype float32 <$> lat).
Proof.
  intros Hx. unfold getitem_col0, shape.
  change (var_dims nav_lat) with ["y"; "x"]. simpl.
  rewrite nemo_dim_len_x, nemo_dim_len_y.
  rewrite bool_decide_eq_true_2 by done. f_equal.
  rewrite <- (fmap_nth_seq (astype float32) lat zero).
  apply fmap_seq_ext. intros i Hi. by apply nemo_read_nav_lat.
Qed.

Lemma nemo_getitem_row0 :
  0 < length lat → getitem_row0 ds nav_lon = Ok (astype float32 <$> lon).
Proof.
  intros Hy. unfold getitem_row0, shape.
  change (var_dims nav_lon) with ["y"; "x"]. simpl.
  rewrite nemo_dim_len_x, nemo_dim_len_y.
  rewrite bool_decide_eq_true_2 by done. f_equal.
  rewrite <- (fmap_nth_seq (astype float32) lon zero).
  apply fmap_seq_ext. intros j Hj. by apply nemo_read_nav_lon.
Qed.

(** The slice [[0, 0, :, :]] of the velocity is the transpose of the
    field, as float32. *)
Lemma nemo_getitem_00 :
  0 < length lon → 0 < length depth →
  rect (length lon) (length lat) field →
  getitem_00 ds velocity = Ok (astype_array float32 (transpose field)).
Proof.
  intros Hx Hz Hrect. unfold getitem_00, shape.
  change (var_dims velocity) with ["time_counter"; zname; "y"; "x"]. simpl.
  rewrite nemo_dim_len_x, nemo_dim_len_y, nemo_dim_len_z, nemo_dim_len_t.
  rewrite !bool_decide_eq_true_2 by lia. simpl. f_equal. unfold astype_array.
  rewrite <- (fmap_nth_rect (astype float32) (length lat) (length lon))
    by by apply (transpose_rect (length lon)).
  apply fmap_seq_ext. intros i Hi. apply fmap_seq_ext. intros j Hj.
  by apply nemo_read_velocity.
Qed.

End ReadBack.

(** ** What [__init__] does *)

Section InitFacts.
Context `{Scipy} `{PyPath}.
Import Np NetCDF.

Implicit Types (w : World) (d : gmap string Value) (O : gmap ref (gmap string Value)).

Lemma bind_Dataset_r {B} p ds (k : Value → M B) w :
  fs w !! p = Some ds → (Dataset_r p ≫= k) w = k (PyDataset ds) w.
Proof. intros Hp. unfold mbind, M_bind, Dataset_r. by rewrite Hp. Qed.

Lemma bind_Dataset_r_inv {B} p (k : Value → M B) w w' b :
  (Dataset_r p ≫= k) w = (w', Ok b) →
  ∃ ds, fs w !! p = Some ds ∧ k (PyDataset ds) w = (w', Ok b).
Proof.
  unfold mbind, M_bind, Dataset_r. destruct (fs w !! p) as [ds|]; [|done]. eauto.
Qed.

Lemma bind_lift_inv {A B} (r : result A) (k : A → M B) w w' b :
  (lift r ≫= k) w = (w', Ok b) → ∃ a, r = Ok a ∧ k a w = (w', Ok b).
Proof. unfold mbind, M_bind, lift. destruct r as [a|e]; [|done]. eauto. Qed.

Lemma bind_setattr_first {B} self name v d (k : unit → M B) w :
  objects w !! self = Some d →
  (setattr self name v ≫= k) w
  = k () (set_objects (<[self := <[name := v]> d]> (objects w)) w).
Proof. intros Hd. unfold mbind, M_bind, setattr. by rewrite Hd. Qed.

Lemma bind_setattr_first_inv {B} self name v (k : unit → M B) w w' b :
  (setattr self name v ≫= k) w = (w', Ok b) →
  ∃ d, objects w !! self = Some d.
Proof.
  unfold mbind, M_bind, setattr. destruct (objects w !! self) as [d|]; [|done]. eauto.
Qed.

Lemma bind_setattr {B} self name v d (k : unit → M B) O w :
  (setattr self name v ≫= k) (set_objects (<[self := d]> O) w)
  = k () (set_objects (<[self := <[name := v]> d]> O) w).
Proof.
  unfold mbind, M_bind, setattr. simpl. rewrite lookup_insert_eq.
  unfold set_objects. simpl. by rewrite insert_insert_eq.
Qed.

Lemma run_setattr self name v d O w :
  setattr self name v (set_objects (<[self := d]> O) w)
  = (set_objects (<[self := <[name := v]> d]> O) w, Ok ()).
Proof.
  unfold setattr. simpl. rewrite lookup_insert_eq.
  unfold set_objects. simpl. by rewrite insert_insert_eq.
Qed.

Lemma bind_getattr_own {B} self name v d (k : Value → M B) O w :
  d !! name = Some v →
  (getattr self name ≫= k) (set_objects (<[self := d]> O) w)
  = k v (set_objects (<[self := d]> O) w).
Proof.
  intros Hv. unfold mbind, M_bind, getattr, lookup_attr. simpl.
  by rewrite lookup_insert_eq, Hv.
Qed.

Lemma subscript_inv ds name v :
  subscript (PyDataset ds) name = Ok v →
  ∃ var, getvar ds name = Ok var ∧ v = NcVar ds var.
Proof.
  unfold subscript. destruct (getvar ds name) as [var|] eqn:Hvar; [|done].
  intros [= <-]. eauto.
Qed.

Lemma subscript_index_00_inv ds name v :
  subscript (PyDataset ds) name ≫= index_00 = Ok v →
  ∃ var a, getvar ds name = Ok var ∧ getitem_00 ds var = Ok a
           ∧ v = NdArray (Arr2 a).
Proof.
  unfold subscript. destruct (getvar ds name) as [var|] eqn:Hvar; [|done]. simpl.
  destruct (getitem_00 ds var) as [a|] eqn:Ha; simpl; [|done].
  intros [= <-]. eauto.
Qed.

Lemma subscript_ok ds name var :
  getvar ds name = Ok var → subscript (PyDataset ds) name = Ok (NcVar ds var).
Proof. intros Hv. unfold subscript. by rewrite Hv. Qed.

Lemma subscript_index_00_ok ds name var a :
  getvar ds name = Ok var → getitem_00 ds var = Ok a →
  subscript (PyDataset ds) name ≫= index_00 = Ok (NdArray (Arr2 a)).
Proof. intros Hv Ha. unfold subscript. rewrite Hv. simpl. by rewrite Ha. Qed.

Local Ltac lk :=
  repeat (rewrite lookup_insert_eq || rewrite lookup_insert_ne by done);
  try done; eauto.

Lemma truthy_nonempty f : f ≠ EmptyString → NEMOGrid.truthy (Some f) = Some f.
Proof. intros Hf. unfold NEMOGrid.truthy. by rewrite bool_decide_eq_false_2. Qed.

(** A successful [__init__] has read both files, cleaned the slices and
    fitted the two splines to them. *)
Lemma init_inv self f degree w w' :
  f ≠ EmptyString →
  NEMOGrid.__init__ self (Some f) degree w = (w', Ok ()) →
  ∃ d ru rv su sv,
    objects w !! self = Some d ∧
    reads w (f ++ "_U.nc") "vozocrtx" ru ∧
    reads w (f ++ "_V.nc") "vomecrty" rv ∧
    RectBivariateSpline (d_lat ru) (d_lon ru) (nan_to_zero (d_slice ru))
      (default 3%Z degree) (default 3%Z degree) = Ok su ∧
    RectBivariateSpline (d_lat rv) (d_lon rv) (nan_to_zero (d_slice rv))
      (default 3%Z degree) (default 3%Z degree) = Ok sv ∧
    w' = set_objects (<[self := initialised ru rv su sv d]> (objects w)) w.
Proof.
  intros Hf Hrun. unfold NEMOGrid.__init__ in Hrun.
  rewrite truthy_nonempty in Hrun by done.
  apply bind_Dataset_r_inv in Hrun as (dsu & Hfu & Hrun).
  pose proof (bind_setattr_first_inv _ _ _ _ _ _ _ Hrun) as [d Hd].
  rewrite (bind_setattr_first _ _ _ _ _ _ Hd) in Hrun.
  apply bind_Dataset_r_inv in Hrun as (dsv & Hfv & Hrun). simpl in Hfv.
  rewrite bind_setattr in Hrun.
  erewrite bind_getattr_own in Hrun by lk.
  apply bind_lift_inv in Hrun as (? & (vlonu & Hlonu & ->)%subscript_inv & Hrun).
  rewrite bind_setattr in Hrun.
  erewrite bind_getattr_own in Hrun by lk.
  apply bind_lift_inv in Hrun as (? & (vlatu & Hlatu & ->)%subscript_inv & Hrun).
  rewrite bind_setattr in Hrun.
  erewrite bind_getattr_own in Hrun by lk.
  apply bind_lift_inv in Hrun as (? & (vlonv & Hlonv & ->)%subscript_inv & Hrun).
  rewrite bind_setattr in Hrun.
  erewrite bind_getattr_own in Hrun by lk.
  apply bind_lift_inv in Hrun as (? & (vlatv & Hlatv & ->)%subscript_inv & Hrun).
  rewrite bind_setattr in Hrun.
  erewrite bind_getattr_own in Hrun by lk.
  apply bind_lift_inv in Hrun
    as (? & (vu & rawU & Hvu & HrawU & ->)%subscript_index_00_inv & Hrun).
  rewrite bind_setattr in Hrun.
  erewrite bind_getattr_own in Hrun by lk.
  apply bind_lift_inv in Hrun
    as (? & (vv & rawV & Hvv & HrawV & ->)%subscript_index_00_inv & Hrun).
  rewrite bind_setattr in Hrun.
  erewrite bind_getattr_own in Hrun by lk.
  apply bind_lift_inv in Hrun as (? & [= <-] & Hrun).
  rewrite bind_setattr in Hrun.
  erewrite bind_getattr_own in Hrun by lk.
  apply bind_lift_inv in Hrun as (? & [= <-] & Hrun).
  rewrite bind_setattr in Hrun.
  erewrite bind_getattr_own in Hrun by lk.
  apply bind_lift_inv in Hrun as (latu & Hlatu0 & Hrun).
  erewrite bind_getattr_own in Hrun by lk.
  apply bind_lift_inv in Hrun as (lonu & Hlonu0 & Hrun).
  erewrite bind_getattr_own in Hrun by lk.
  apply bind_lift_inv in Hrun as (? & [= <-] & Hrun).
  apply bind_lift_inv in Hrun as (su & Hsu & Hrun).
  rewrite bind_setattr in Hrun.
  erewrite bind_getattr_own in Hrun by lk.
  apply bind_lift_inv in Hrun as (latv & Hlatv0 & Hrun).
  erewrite bind_getattr_own in Hrun by lk.
  apply bind_lift_inv in Hrun as (lonv & Hlonv0 & Hrun).
  erewrite bind_getattr_own in Hrun by lk.
  apply bind_lift_inv in Hrun as (? & [= <-] & Hrun).
  apply bind_lift_inv in Hrun as (sv & Hsv & Hrun).
  rewrite run_setattr in Hrun. injection Hrun as <-.
  exists d,
    {| d_dataset := dsu; d_nav_lon := vlonu; d_nav_lat := vlatu; d_velocity := vu;
       d_slice := rawU; d_lat := latu; d_lon := lonu |},
    {| d_dataset := dsv; d_nav_lon := vlonv; d_nav_lat := vlatv; d_velocity := vv;
       d_slice := rawV; d_lat := latv; d_lon := lonv |}, su, sv.
  repeat split; done.
Qed.

(** Conversely, [__init__] succeeds when the files hold what it asks
    for and the splines can be fitted. *)
Lemma init_ok self f degree w d ru rv su sv :
  f ≠ EmptyString →
  objects w !! self = Some d →
  reads w (f ++ "_U.nc") "vozocrtx" ru →
  reads w (f ++ "_V.nc") "vomecrty" rv →
  RectBivariateSpline (d_lat ru) (d_lon ru) (nan_to_zero (d_slice ru))
    (default 3%Z degree) (default 3%Z degree) = Ok su →
  RectBivariateSpline (d_lat rv) (d_lon rv) (nan_to_zero (d_slice rv))
    (default 3%Z degree) (default 3%Z degree) = Ok sv →
  NEMOGrid.__init__ self (Some f) degree w
  = (set_objects (<[self := initialised ru rv su sv d]> (objects w)) w, Ok ()).
Proof.
  intros Hf Hd (Hfu & Hlonu & Hlatu & Hvu & HrawU & Hlatu0 & Hlonu0)
    (Hfv & Hlonv & Hlatv & Hvv & HrawV & Hlatv0 & Hlonv0) Hsu Hsv.
  unfold NEMOGrid.__init__. rewrite truthy_nonempty by done.
  rewrite (bind_Dataset_r _ _ _ _ Hfu), (bind_setattr_first _ _ _ _ _ _ Hd).
  rewrite (bind_Dataset_r _ (d_dataset rv)) by exact Hfv. rewrite bind_setattr.
  erewrite bind_getattr_own by lk.
  erewrite bind_lift by (by apply subscript_ok). rewrite bind_setattr.
  erewrite bind_getattr_own by lk.
  erewrite bind_lift by (by apply subscript_ok). rewrite bind_setattr.
  erewrite bind_getattr_own by lk.
  erewrite bind_lift by (by apply subscript_ok). rewrite bind_setattr.
  erewrite bind_getattr_own by lk.
  erewrite bind_lift by (by apply subscript_ok). rewrite bind_setattr.
  erewrite bind_getattr_own by lk.
  erewrite bind_lift by (by eapply subscript_index_00_ok). rewrite bind_setattr.
  erewrite bind_getattr_own by lk.
  erewrite bind_lift by (by eapply subscript_index_00_ok). rewrite bind_setattr.
  erewrite bind_getattr_own by lk.
  erewrite bind_lift by done. rewrite bind_setattr.
  erewrite bind_getattr_own by lk.
  erewrite bind_lift by done. rewrite bind_setattr.
  erewrite bind_getattr_own by lk. erewrite bind_lift by exact Hlatu0.
  erewrite bind_getattr_own by lk. erewrite bind_lift by exact Hlonu0.
  erewrite bind_getattr_own by lk. erewrite bind_lift by done.
  erewrite bind_lift by exact Hsu. rewrite bind_setattr.
  erewrite bind_getattr_own by lk. erewrite bind_lift by exact Hlatv0.
  erewrite bind_getattr_own by lk. erewrite bind_lift by exact Hlonv0.
  erewrite bind_getattr_own by lk. erewrite bind_lift by done.
  erewrite bind_lift by exact Hsv.
  by rewrite run_setattr.
Qed.

(** The attributes [__init__] has set. *)
Lemma initialised_attr ru rv su sv d O w self :
  let w' := set_objects (<[self := initialised ru rv su sv d]> O) w in
  lookup_attr w' self "U" = Ok (NdArray (Arr2 (nan_to_zero (d_slice ru)))) ∧
  lookup_attr w' self "V" = Ok (NdArray (Arr2 (nan_to_zero (d_slice rv)))) ∧
  lookup_attr w' self "interp_u" = Ok (PySpline su) ∧
  lookup_attr w' self "interp_v" = Ok (PySpline sv) ∧
  lookup_attr w' self "lon_u" = Ok (NcVar (d_dataset ru) (d_nav_lon ru)) ∧
  lookup_attr w' self "lat_u" = Ok (NcVar (d_dataset ru) (d_nav_lat ru)) ∧
  lookup_attr w' self "lon_v" = Ok (NcVar (d_dataset rv) (d_nav_lon rv)) ∧
  lookup_attr w' self "lat_v" = Ok (NcVar (d_dataset rv) (d_nav_lat rv)).
Proof.
  simpl. unfold lookup_attr, initialised. simpl. rewrite lookup_insert_eq.
  repeat split; by lk.
Qed.

End InitFacts.

(** ** Reading back what [write] has stored *)

Section RoundTrip.
Context `{Scipy} `{PyPath}.
Import Np NetCDF.

Local Ltac solve_not_elem :=
  repeat (apply not_elem_of_cons; split; [done|]); apply not_elem_of_nil.

Lemma written_fs_U w filename f :
  fs (written w filename f) !! (path_local filename ++ "_U.nc") = Some (dataset_U f).
Proof.
  unfold written. simpl.
  rewrite lookup_insert_ne by (intros E; by eapply U_V_paths_differ).
  by rewrite lookup_insert_eq.
Qed.

Lemma written_fs_V w filename f :
  fs (written w filename f) !! (path_local filename ++ "_V.nc") = Some (dataset_V f).
Proof. unfold written. simpl. by rewrite lookup_insert_eq. Qed.

Lemma written_reads_U w filename f :
  well_shaped f →
  reads (written w filename f) (path_local filename ++ "_U.nc") "vozocrtx"
    (read_back_U f).
Proof.
  intros (Hxu & Hyu & Hxv & Hyv & Hz & HU & HV).
  unfold reads, read_back_U, dataset_U. simpl. split_and!.
  - apply written_fs_U.
  - apply nemo_getvar_nav_lon; solve_not_elem.
  - apply nemo_getvar_nav_lat; solve_not_elem.
  - apply nemo_getvar_velocity; solve_not_elem.
  - apply nemo_getitem_00; try done; solve_not_elem.
  - apply nemo_getitem_col0; try done; solve_not_elem.
  - apply nemo_getitem_row0; try done; solve_not_elem.
Qed.

Lemma written_reads_V w filename f :
  well_shaped f →
  reads (written w filename f) (path_local filename ++ "_V.nc") "vomecrty"
    (read_back_V f).
Proof.
  intros (Hxu & Hyu & Hxv & Hyv & Hz & HU & HV).
  unfold reads, read_back_V, dataset_V. simpl. split_and!.
  - apply written_fs_V.
  - apply nemo_getvar_nav_lon; solve_not_elem.
  - apply nemo_getvar_nav_lat; solve_not_elem.
  - apply nemo_getvar_velocity; solve_not_elem.
  - apply nemo_getitem_00; try done; solve_not_elem.
  - apply nemo_getitem_col0; try done; solve_not_elem.
  - apply nemo_getitem_row0; try done; solve_not_elem.
Qed.

(** What a file holds determines what [__init__] reads from it. *)
Lemma reads_inj w path vname r r' :
  reads w path vname r → reads w path vname r' → r = r'.
Proof.
  intros (H1 & H2 & H3 & H4 & H5 & H6 & H7) (H1' & H2' & H3' & H4' & H5' & H6' & H7').
  destruct r, r'; simpl in *.
  rewrite H1 in H1'. injection H1' as ->.
  rewrite H2 in H2'. injection H2' as ->.
  rewrite H3 in H3'. injection H3' as ->.
  rewrite H4 in H4'. injection H4' as ->.
  rewrite H5 in H5'. injection H5' as ->.
  rewrite H6 in H6'. injection H6' as ->.
  rewrite H7 in H7'. injection H7' as ->.
  done.
Qed.

Lemma all_entries_transpose (P : float → Prop) a :
  P zero → all_entries P a → all_entries P (transpose a).
Proof.
  intros Hzero Ha. unfold all_entries, transpose in *. destruct a as [|r a]; [done|].
  apply Forall_fmap, Forall_forall. intros j _. unfold compose.
  apply Forall_fmap. eapply Forall_impl; [exact Ha|].
  intros row Hrow. unfold compose.
  destruct (nth_in_or_default j row zero) as [Hin | ->]; [|done].
  eapply Forall_forall in Hrow; [exact Hrow|]. by apply list_elem_of_In.
Qed.

Lemma all_entries_astype t a :
  all_entries (λ v, isnan v = false) a →
  all_entries (λ v, isnan v = false) (astype_array t a).
Proof.
  intros Ha. unfold all_entries, astype_array in *.
  apply Forall_fmap. eapply Forall_impl; [exact Ha|].
  intros row Hrow. simpl. apply Forall_fmap.
  eapply Forall_impl; [exact Hrow|]. intros v Hv. by apply astype_not_nan.
Qed.

Lemma array_equal_astype t a :
  all_entries (λ v, equal (astype t v) v = true) a →
  array_equal (astype_array t a) a.
Proof.
  intros Ha. unfold all_entries, astype_array, array_equal in *.
  apply Forall2_fmap_l, Forall_Forall2_diag.
  eapply Forall_impl; [exact Ha|]. intros row Hrow. simpl.
  by apply Forall2_fmap_l, Forall_Forall2_diag.
Qed.

(** The cleaned slice read back from a file written from a field without
    NaN is the transpose of the field, converted to float32. *)
Lemma clean_read_back a :
  all_entries (λ v, isnan v = false) a →
  nan_to_zero (astype_array float32 (transpose a))
  = astype_array float32 (transpose a).
Proof.
  intros Ha. apply nan_to_zero_id, all_entries_astype.
  by apply all_entries_transpose.
Qed.

End RoundTrip.

(** * The claims *)

Section Claims.
Context `{Scipy} `{PyPath}.
Import Np NetCDF.

Local Ltac solve_not_elem :=
  repeat (apply not_elem_of_cons; split; [done|]); apply not_elem_of_nil.

(** C5.  After [__init__] with a filename, the stored [U] and [V] are the
    slices [[0, 0, :, :]] read from the files with every NaN entry
    replaced by [0.] and every other entry kept; they contain no NaN; and
    the interpolators are fitted to these cleaned arrays. *)
Theorem init_replaces_nan self f degree w w' :
  f ≠ EmptyString →
  NEMOGrid.__init__ self (Some f) degree w = (w', Ok ()) →
  ∃ ru rv U V su sv,
    reads w (f ++ "_U.nc") "vozocrtx" ru ∧
    reads w (f ++ "_V.nc") "vomecrty" rv ∧
    lookup_attr w' self "U" = Ok (NdArray (Arr2 U)) ∧
    lookup_attr w' self "V" = Ok (NdArray (Arr2 V)) ∧
    Forall2 (Forall2 (λ v v', v' = if isnan v then zero else v)) (d_slice ru) U ∧
    Forall2 (Forall2 (λ v v', v' = if isnan v then zero else v)) (d_slice rv) V ∧
    Forall (Forall (λ v, isnan v = false)) U ∧
    Forall (Forall (λ v, isnan v = false)) V ∧
    RectBivariateSpline (d_lat ru) (d_lon ru) U
      (default 3%Z degree) (default 3%Z degree) = Ok su ∧
    RectBivariateSpline (d_lat rv) (d_lon rv) V
      (default 3%Z degree) (default 3%Z degree) = Ok sv ∧
    lookup_attr w' self "interp_u" = Ok (PySpline su) ∧
    lookup_attr w' self "interp_v" = Ok (PySpline sv).
Proof.
  intros Hf Hrun.
  apply init_inv in Hrun as (d & ru & rv & su & sv & Hd & Hru & Hrv & Hsu & Hsv & ->);
    [|done].
  destruct (initialised_attr ru rv su sv d (objects w) w self)
    as (HU & HV & Hiu & Hiv & _).
  exists ru, rv, (nan_to_zero (d_slice ru)), (nan_to_zero (d_slice rv)), su, sv.
  split_and!; try done;
    auto using nan_to_zero_pointwise, nan_to_zero_no_nan.
Qed.

(** C7.  After [__init__] with a filename, [eval(x, y)] returns the pair
    [(u, v)] of the values at [(y, x)] of the splines fitted over the
    first column of [nav_lat] and the first row of [nav_lon] to the
    cleaned [U] and [V], with the constructor's degree (3 when it is left
    out) on both axes. *)
Theorem eval_interpolates self f degree w w' :
  f ≠ EmptyString →
  NEMOGrid.__init__ self (Some f) degree w = (w', Ok ()) →
  ∃ ru rv su sv,
    reads w (f ++ "_U.nc") "vozocrtx" ru ∧
    reads w (f ++ "_V.nc") "vomecrty" rv ∧
    RectBivariateSpline (d_lat ru) (d_lon ru) (nan_to_zero (d_slice ru))
      (default 3%Z degree) (default 3%Z degree) = Ok su ∧
    RectBivariateSpline (d_lat rv) (d_lon rv) (nan_to_zero (d_slice rv))
      (default 3%Z degree) (default 3%Z degree) = Ok sv ∧
    ∀ x y, NEMOGrid.eval self x y w' = (w', Ok (ev su y x, ev sv y x)).
Proof.
  intros Hf Hrun.
  apply init_inv in Hrun as (d & ru & rv & su & sv & Hd & Hru & Hrv & Hsu & Hsv & ->);
    [|done].
  destruct (initialised_attr ru rv su sv d (objects w) w self)
    as (_ & _ & Hiu & Hiv & _).
  exists ru, rv, su, sv. split_and!; try done.
  intros x y. unfold NEMOGrid.eval, mbind, M_bind, getattr, lift.
  by rewrite Hiu, Hiv.
Qed.

(** C8.  [_particles] is bound on the class: for two instances that have
    no [_particles] of their own, [g1.add_particle(p)] appends [p] to the
    one list both see, so that [p] is in [g2._particles] afterwards; the
    attributes of every instance and of the class, the files, the
    output and every other list are unchanged. *)
Theorem add_particle_shared w g1 g2 d1 d2 l ps p :
  objects w !! g1 = Some d1 →
  objects w !! g2 = Some d2 →
  d1 !! "_particles" = None →
  d2 !! "_particles" = None →
  class_dict w !! "_particles" = Some (PyList l) →
  lists w !! l = Some ps →
  ∃ w',
    NEMOGrid.add_particle g1 p w = (w', Ok ()) ∧
    particles w' g1 = Some (ps ++ [p])%list ∧
    particles w' g2 = Some (ps ++ [p])%list ∧
    p ∈ default [] (particles w' g2) ∧
    lookup_attr w' g1 "_particles" = Ok (PyList l) ∧
    lookup_attr w' g2 "_particles" = Ok (PyList l) ∧
    objects w' = objects w ∧
    class_dict w' = class_dict w ∧
    fs w' = fs w ∧
    stdout w' = stdout w ∧
    ∀ l', l' ≠ l → lists w' !! l' = lists w !! l'.
Proof.
  intros Hg1 Hg2 Hd1 Hd2 Hcls Hl.
  assert (∀ g d, objects w !! g = Some d → d !! "_particles" = None →
                 lookup_attr w g "_particles" = Ok (PyList l)) as Hattr.
  { intros g d Hg Hd. unfold lookup_attr. by rewrite Hg, Hd, Hcls. }
  exists (set_lists (<[l := (ps ++ [p])%list]> (lists w)) w).
  assert (∀ g d, objects w !! g = Some d → d !! "_particles" = None →
                 particles (set_lists (<[l := (ps ++ [p])%list]> (lists w)) w) g
                 = Some (ps ++ [p])%list) as Hparts.
  { intros g d Hg Hd. unfold particles.
    change (lookup_attr (set_lists _ w) g "_particles")
      with (lookup_attr w g "_particles").
    rewrite (Hattr g d Hg Hd). simpl. by rewrite lookup_insert_eq. }
  split_and!; try done.
  - unfold NEMOGrid.add_particle, mbind, M_bind, getattr, append.
    by rewrite (Hattr g1 d1 Hg1 Hd1), Hl.
  - by eapply Hparts.
  - by eapply Hparts.
  - rewrite (Hparts g2 d2 Hg2 Hd2). simpl. apply elem_of_app. right. by left.
  - by eapply Hattr.
  - by eapply Hattr.
  - intros l' Hl'. simpl. by rewrite lookup_insert_ne.
Qed.

(** After [write], [__init__] on the same path reads both files, when
    SciPy fits the two splines. *)
Lemma init_after_write w filename f self d degree su sv :
  well_shaped f →
  path_local filename ≠ EmptyString →
  objects (written w filename f) !! self = Some d →
  RectBivariateSpline (d_lat (read_back_U f)) (d_lon (read_back_U f))
    (nan_to_zero (d_slice (read_back_U f)))
    (default 3%Z degree) (default 3%Z degree) = Ok su →
  RectBivariateSpline (d_lat (read_back_V f)) (d_lon (read_back_V f))
    (nan_to_zero (d_slice (read_back_V f)))
    (default 3%Z degree) (default 3%Z degree) = Ok sv →
  NEMOGrid.__init__ self (Some (path_local filename)) degree (written w filename f)
  = (set_objects
       (<[self := initialised (read_back_U f) (read_back_V f) su sv d]>
          (objects (written w filename f)))
       (written w filename f), Ok ()).
Proof.
  intros Hf Hp Hd Hsu Hsv.
  by apply init_ok; auto using written_reads_U, written_reads_V.
Qed.

(** After [write] of fields without NaN, a successful [__init__] on the
    same path holds the transposes of the fields, converted to float32. *)
Lemma init_after_write_fields w filename f self degree w' :
  well_shaped f →
  all_entries (λ v, isnan v = false) (f_U f) →
  all_entries (λ v, isnan v = false) (f_V f) →
  path_local filename ≠ EmptyString →
  NEMOGrid.__init__ self (Some (path_local filename)) degree (written w filename f)
  = (w', Ok ()) →
  lookup_attr w' self "U"
  = Ok (NdArray (Arr2 (astype_array float32 (transpose (f_U f))))) ∧
  lookup_attr w' self "V"
  = Ok (NdArray (Arr2 (astype_array float32 (transpose (f_V f))))).
Proof.
  intros Hshape HU HV Hp Hrun.
  apply init_inv in Hrun
    as (d & ru & rv & su & sv & Hd & Hru & Hrv & Hsu & Hsv & ->); [|done].
  rewrite (reads_inj _ _ _ _ _ Hru (written_reads_U w filename f Hshape)).
  rewrite (reads_inj _ _ _ _ _ Hrv (written_reads_V w filename f Hshape)).
  destruct (initialised_attr (read_back_U f) (read_back_V f) su sv d
              (objects (written w filename f)) (written w filename f) self)
    as (H1 & H2 & _).
  rewrite H1, H2. simpl. by rewrite !clean_read_back.
Qed.

(** C6.  [write(filename)] stores two datasets, in [<path>_U.nc] and
    [<path>_V.nc] for the local path of [filename]; they contain exactly
    the variables [nav_lon], [nav_lat], [depthu] (resp. [depthv]),
    [time_counter] and [vozocrtx] (resp. [vomecrty]); the velocity has the
    dimensions [(time_counter, depth, y, x)]; and [__init__] on that path
    finds the variables it asks for by the same names in these two files:
    it returns when the two splines can be fitted, and its coordinate
    attributes are then the [nav_lon] and [nav_lat] variables of the
    files. *)
Theorem write_layout w self filename f :
  holds w self f → well_shaped f →
  ∃ w',
    NEMOGrid.write self filename w = (w', Ok ()) ∧
    fs w' = <[path_local filename ++ "_V.nc" := dataset_V f]>
              (<[path_local filename ++ "_U.nc" := dataset_U f]> (fs w)) ∧
    dom (variables (dataset_U f))
    = {[ "nav_lon"; "nav_lat"; "depthu"; "time_counter"; "vozocrtx" ]} ∧
    dom (variables (dataset_V f))
    = {[ "nav_lon"; "nav_lat"; "depthv"; "time_counter"; "vomecrty" ]} ∧
    var_dims <$> variables (dataset_U f) !! "vozocrtx"
    = Some ["time_counter"; "depthu"; "y"; "x"] ∧
    var_dims <$> variables (dataset_V f) !! "vomecrty"
    = Some ["time_counter"; "depthv"; "y"; "x"] ∧
    reads w' (path_local filename ++ "_U.nc") "vozocrtx" (read_back_U f) ∧
    reads w' (path_local filename ++ "_V.nc") "vomecrty" (read_back_V f) ∧
    ∀ self' d degree su sv,
      path_local filename ≠ EmptyString →
      objects w' !! self' = Some d →
      RectBivariateSpline (d_lat (read_back_U f)) (d_lon (read_back_U f))
        (nan_to_zero (d_slice (read_back_U f)))
        (default 3%Z degree) (default 3%Z degree) = Ok su →
      RectBivariateSpline (d_lat (read_back_V f)) (d_lon (read_back_V f))
        (nan_to_zero (d_slice (read_back_V f)))
        (default 3%Z degree) (default 3%Z degree) = Ok sv →
      ∃ w'',
        NEMOGrid.__init__ self' (Some (path_local filename)) degree w' = (w'', Ok ()) ∧
        lookup_attr w'' self' "lon_u"
        = Ok (NcVar (dataset_U f) (d_nav_lon (read_back_U f))) ∧
        lookup_attr w'' self' "lat_u"
        = Ok (NcVar (dataset_U f) (d_nav_lat (read_back_U f))) ∧
        lookup_attr w'' self' "lon_v"
        = Ok (NcVar (dataset_V f) (d_nav_lon (read_back_V f))) ∧
        lookup_attr w'' self' "lat_v"
        = Ok (NcVar (dataset_V f) (d_nav_lat (read_back_V f))).
Proof.
  intros Hholds Hshape. exists (written w filename f). split_and!.
  - by apply write_run.
  - done.
  - apply nemo_variables.
  - apply nemo_variables.
  - unfold dataset_U, NEMOGrid.nemo_dataset. simpl. by rewrite lookup_insert_eq.
  - unfold dataset_V, NEMOGrid.nemo_dataset. simpl. by rewrite lookup_insert_eq.
  - by apply written_reads_U.
  - by apply written_reads_V.
  - intros self' d degree su sv Hp Hd Hsu Hsv. eexists. split.
    + by apply init_after_write.
    + destruct (initialised_attr (read_back_U f) (read_back_V f) su sv d
                  (objects w) (written w filename f) self')
        as (_ & _ & _ & _ & H1 & H2 & H3 & H4).
      done.
Qed.

(** C9, as the code has it.  [write] stores the transposes of [U] and
    [V] in float32 variables: for a well-shaped grid whose [U] and [V]
    have no NaN, [write] followed by [__init__] on the written path
    leaves in [U] and [V] the transposes of the originals converted to
    float32, not the originals; they are equal to the transposes
    themselves when every entry of the originals is a float32 value.
    [__init__] returns when the two splines can be fitted. *)
Theorem roundtrip_transposes w self filename f :
  holds w self f → well_shaped f →
  all_entries (λ v, isnan v = false) (f_U f) →
  all_entries (λ v, isnan v = false) (f_V f) →
  path_local filename ≠ EmptyString →
  ∃ w',
    NEMOGrid.write self filename w = (w', Ok ()) ∧
    (∀ self' degree w'',
       NEMOGrid.__init__ self' (Some (path_local filename)) degree w' = (w'', Ok ()) →
       lookup_attr w'' self' "U"
       = Ok (NdArray (Arr2 (astype_array float32 (transpose (f_U f))))) ∧
       lookup_attr w'' self' "V"
       = Ok (NdArray (Arr2 (astype_array float32 (transpose (f_V f)))))) ∧
    (∀ self' d degree su sv,
       objects w' !! self' = Some d →
       RectBivariateSpline (astype float32 <$> f_lat_u f) (astype float32 <$> f_lon_u f)
         (astype_array float32 (transpose (f_U f)))
         (default 3%Z degree) (default 3%Z degree) = Ok su →
       RectBivariateSpline (astype float32 <$> f_lat_v f) (astype float32 <$> f_lon_v f)
         (astype_array float32 (transpose (f_V f)))
         (default 3%Z degree) (default 3%Z degree) = Ok sv →
       ∃ w'',
         NEMOGrid.__init__ self' (Some (path_local filename)) degree w' = (w'', Ok ())) ∧
    (all_entries (λ v, equal (astype float32 v) v = true) (f_U f) →
     array_equal (astype_array float32 (transpose (f_U f))) (transpose (f_U f))) ∧
    (all_entries (λ v, equal (astype float32 v) v = true) (f_V f) →
     array_equal (astype_array float32 (transpose (f_V f))) (transpose (f_V f))).
Proof.
  intros Hholds Hshape HU HV Hp. exists (written w filename f). split_and!.
  - by apply write_run.
  - intros self' degree w'' Hrun. by eapply init_after_write_fields.
  - intros self' d degree su sv Hd Hsu Hsv. eexists.
    apply init_after_write; try done; simpl; by rewrite clean_read_back.
  - intros Hf32. apply array_equal_astype, all_entries_transpose; [done|exact Hf32].
  - intros Hf32. apply array_equal_astype, all_entries_transpose; [done|exact Hf32].
Qed.

(** C10.  In the V file written by [write], the attributes [valid_min]
    and [valid_max] of [nav_lon] and [nav_lat] are [lon_u[0]],
    [lon_u[-1]], [lat_u[0]] and [lat_u[-1]], from the U grid, while the
    values of [nav_lon] and [nav_lat] are those of [lon_v] and [lat_v],
    as float32. *)
Theorem v_file_valid_range w self filename f :
  holds w self f → well_shaped f →
  ∃ w' ds nav_lon nav_lat,
    NEMOGrid.write self filename w = (w', Ok ()) ∧
    fs w' !! (path_local filename ++ "_V.nc") = Some ds ∧
    getvar ds "nav_lon" = Ok nav_lon ∧
    getvar ds "nav_lat" = Ok nav_lat ∧
    ncattrs nav_lon !! "valid_min" = head (f_lon_u f) ∧
    ncattrs nav_lon !! "valid_max" = last (f_lon_u f) ∧
    ncattrs nav_lat !! "valid_min" = head (f_lat_u f) ∧
    ncattrs nav_lat !! "valid_max" = last (f_lat_u f) ∧
    shape ds nav_lon = [length (f_lat_v f); length (f_lon_v f)] ∧
    shape ds nav_lat = [length (f_lat_v f); length (f_lon_v f)] ∧
    ∀ i j lon lat,
      f_lat_v f !! i = Some lat → f_lon_v f !! j = Some lon →
      read nav_lon [i; j] = astype float32 lon ∧
      read nav_lat [i; j] = astype float32 lat.
Proof.
  intros Hholds Hshape.
  destruct (written_reads_V w filename f Hshape) as (Hfs & Hlon & Hlat & _).
  pose proof Hshape as (Hxu & Hyu & _).
  eexists _, _, _, _. split_and!.
  - by apply write_run.
  - exact Hfs.
  - exact Hlon.
  - exact Hlat.
  - simpl. rewrite lookup_insert_ne, lookup_insert_eq by done.
    destruct (f_lon_u f); simpl in *; [lia|done].
  - simpl. rewrite lookup_insert_eq.
    destruct (last (f_lon_u f)) eqn:E; [done|].
    apply last_None in E. rewrite E in Hxu. simpl in Hxu. lia.
  - simpl. rewrite lookup_insert_ne, lookup_insert_eq by done.
    destruct (f_lat_u f); simpl in *; [lia|done].
  - simpl. rewrite lookup_insert_eq.
    destruct (last (f_lat_u f)) eqn:E; [done|].
    apply last_None in E. rewrite E in Hyu. simpl in Hyu. lia.
  - unfold shape. simpl. unfold dataset_V.
    by rewrite nemo_dim_len_x, nemo_dim_len_y by solve_not_elem.
  - unfold shape. simpl. unfold dataset_V.
    by rewrite nemo_dim_len_x, nemo_dim_len_y by solve_not_elem.
  - intros i j lon lat Hi Hj. simpl.
    pose proof (lookup_lt_Some _ _ _ Hi). pose proof (lookup_lt_Some _ _ _ Hj).
    rewrite nemo_read_nav_lon, nemo_read_nav_lat by done.
    by rewrite (nth_lookup_Some _ _ zero _ Hi), (nth_lookup_Some _ _ zero _ Hj).
Qed.

End Claims.

(** ** The expected failure of the GlobCurrent tests *)

Section TimeExtrapolation.
Import GlobCurrent.

Variables Position Velocity : Type.
Variable scheme :
  (Z → Position → result Velocity) → Velocity → Position → Z → Z → result Position.

Lemma off_time_axis_before b t0 rest (uv : Z → Position → Velocity) t :
  (t < t0)%Z →
  on_time_axis Position Velocity {| backend := b; U_time := t0 :: rest; UV := uv |} t
  = false.
Proof.
  intros Ht. unfold on_time_axis. simpl.
  apply andb_false_intro1. by apply Z.leb_gt.
Qed.

Variable further_steps :
  nat → Kernel Position Velocity →
  (ErrorCode → option (Particle Position → Particle Position)) →
  FieldSet Position Velocity → Z →
  list (Particle Position) → result (list (Particle Position)).

Lemma execute_raise kernel recovery (fieldset : FieldSet Position Velocity)
    runtime dt p e :
  (0 < Z.to_nat (runtime / dt)) →
  kernel fieldset dt p = Raise e →
  execute Position Velocity further_steps kernel recovery fieldset runtime dt [p]
  = Raise e.
Proof.
  intros Hn Hk. unfold execute.
  destruct (Z.to_nat (runtime / dt)) as [|n]; [lia|].
  simpl. unfold step. by rewrite Hk.
Qed.

(** C4.  A particle that starts one day before the first time of the
    loaded time axis requests field data outside the axis: executing
    AdvectionRK4 on it raises the time-extrapolation error, for both
    particle modes, both ways of building the field set, every loaded
    time axis and every starting position, and however the engine would
    go on after the first time step. *)
Theorem time_extrapolation_error m b t0 rest uv start :
  test_globcurrent_time_extrapolation_error Position Velocity scheme further_steps m
    {| backend := b; U_time := t0 :: rest; UV := uv |} start
  = Raise TimeExtrapolationError.
Proof.
  unfold test_globcurrent_time_extrapolation_error. simpl U_time.
  apply execute_raise.
  - change (Z.to_nat (86400 / (5 * 60))) with 288. lia.
  - unfold AdvectionRK4, request. simpl time.
    by rewrite off_time_axis_before by lia.
Qed.

End TimeExtrapolation.

(** * The claims on the small grid *)

Module Examples.
Import Np NetCDF Demo.

#[local] Existing Instance Demo.scipy.
#[local] Existing Instance Demo.pypath.

Lemma demo_holds u00 : holds (world (fields u00)) 2%positive (fields u00).
Proof. unfold holds. split_and!; reflexivity. Qed.

Lemma demo_well_shaped u00 : well_shaped (fields u00).
Proof.
  unfold well_shaped, rect. simpl. split_and!; try lia; try reflexivity;
    repeat constructor.
Qed.

Lemma demo_write u00 :
  NEMOGrid.write 2%positive "/data/nemo" (world (fields u00))
  = (world_written (fields u00), Ok ()).
Proof.
  unfold world_written.
  by rewrite (write_run _ _ _ _ (demo_holds u00) (demo_well_shaped u00)).
Qed.

Lemma demo_written u00 :
  world_written (fields u00) = written (world (fields u00)) "/data/nemo" (fields u00).
Proof.
  unfold world_written.
  by rewrite (write_run _ _ _ _ (demo_holds u00) (demo_well_shaped u00)).
Qed.

Lemma demo_init u00 :
  NEMOGrid.__init__ 3%positive (Some "/data/nemo") None (world_written (fields u00))
  = (world_read (fields u00), Ok ()).
Proof.
  unfold world_read. rewrite demo_written.
  change "/data/nemo" with (path_local "/data/nemo").
  by erewrite (init_after_write _ _ _ _ ∅);
    [|apply demo_well_shaped|discriminate|reflexivity..].
Qed.

Lemma demo_init_written u00 :
  NEMOGrid.__init__ 3%positive (Some (path_local "/data/nemo")) None
    (written (world (fields u00)) "/data/nemo" (fields u00))
  = (world_read (fields u00), Ok ()).
Proof. rewrite <- demo_written. exact (demo_init u00). Qed.

Lemma pair_eq_fst {A B} (a a' : A) (b b' : B) : (a, b) = (a', b') → a = a'.
Proof. by intros [= ->]. Qed.

Lemma demo_no_nan (a : list (list float)) :
  forallb (forallb (λ v, negb (isnan v))) a = true →
  all_entries (λ v, isnan v = false) a.
Proof.
  intros Ha. apply Forall_forall. intros row Hrow%list_elem_of_In.
  apply Forall_forall. intros v Hv%list_elem_of_In.
  rewrite forallb_forall in Ha. specialize (Ha row Hrow).
  rewrite forallb_forall in Ha. specialize (Ha v Hv).
  by apply negb_true_iff in Ha.
Qed.

(** A file with a NaN entry is read with a zero in its place. *)
Lemma init_replaces_nan_witness :
  ∃ U, lookup_attr (world_read (fields S754_nan)) 3%positive "U"
       = Ok (NdArray (Arr2 U)) ∧
       Forall (Forall (λ v, isnan v = false)) U.
Proof.
  destruct (init_replaces_nan 3%positive "/data/nemo" None
              (world_written (fields S754_nan)) (world_read (fields S754_nan)))
    as (ru & rv & U & V & su & sv & _ & _ & HU & _ & _ & _ & HnU & _).
  - discriminate.
  - apply demo_init.
  - exists U. split; [exact HU | exact HnU].
Defined.

Lemma eval_interpolates_witness :
  ∃ u v, NEMOGrid.eval 3%positive zero zero (world_read (fields (f32 1)))
         = (world_read (fields (f32 1)), Ok (u, v)).
Proof.
  destruct (eval_interpolates 3%positive "/data/nemo" None
              (world_written (fields (f32 1))) (world_read (fields (f32 1))))
    as (ru & rv & su & sv & _ & _ & _ & _ & Heval).
  - discriminate.
  - apply demo_init.
  - exists (ev su zero zero), (ev sv zero zero). apply Heval.
Defined.

(** Object 2 adds particle 7; object 3 sees it. *)
Lemma add_particle_shared_witness :
  ∃ w', NEMOGrid.add_particle 2%positive 7%positive (world (fields (f32 1)))
        = (w', Ok ()) ∧
        particles w' 3%positive = Some [7%positive].
Proof.
  destruct (add_particle_shared (world (fields (f32 1))) 2%positive 3%positive
              (attributes (fields (f32 1))) ∅ 1%positive [] 7%positive)
    as (w' & Hrun & _ & Hg2 & _); [reflexivity..|].
  exists w'. split; [exact Hrun | exact Hg2].
Defined.

Lemma write_layout_witness :
  ∃ w', NEMOGrid.write 2%positive "/data/nemo" (world (fields (f32 1))) = (w', Ok ()) ∧
        dom (fs w') = {[ "/data/nemo_V.nc"; "/data/nemo_U.nc" ]}.
Proof.
  destruct (write_layout (world (fields (f32 1))) 2%positive "/data/nemo"
              (fields (f32 1)) (demo_holds _) (demo_well_shaped _))
    as (w' & Hrun & Hfs & _).
  exists w'. split; [exact Hrun|]. rewrite Hfs.
  rewrite !dom_insert_L. change (fs (world (fields (f32 1)))) with (∅ : gmap string Dataset).
  rewrite dom_empty_L. by rewrite (right_id_L ∅ (∪)).
Defined.

Lemma roundtrip_transposes_witness :
  lookup_attr (world_read (fields (f32 1))) 3%positive "U"
  = Ok (NdArray (Arr2 (astype_array float32 (transpose (f_U (fields (f32 1))))))).
Proof.
  destruct (roundtrip_transposes (world (fields (f32 1))) 2%positive "/data/nemo"
              (fields (f32 1)) (demo_holds _) (demo_well_shaped _))
    as (w' & Hrun & Hread & _).
  - by apply demo_no_nan.
  - by apply demo_no_nan.
  - discriminate.
  - rewrite demo_write in Hrun. apply pair_eq_fst in Hrun. subst w'.
    destruct (Hread 3%positive None (world_read (fields (f32 1))) (demo_init _))
      as [HU _].
    exact HU.
Defined.

Lemma v_file_valid_range_witness :
  ∃ ds nav_lon,
    fs (world_written (fields (f32 1))) !! "/data/nemo_V.nc" = Some ds ∧
    getvar ds "nav_lon" = Ok nav_lon ∧
    ncattrs nav_lon !! "valid_min" = Some (f32 0) ∧
    read nav_lon [0; 0] = astype float32 (f32 10).
Proof.
  destruct (v_file_valid_range (world (fields (f32 1))) 2%positive "/data/nemo"
              (fields (f32 1)) (demo_holds _) (demo_well_shaped _))
    as (w' & ds & nav_lon & nav_lat & Hrun & Hfs & Hlon & _ & Hmin & _ & _ & _ & _ & _ & Hval).
  rewrite demo_write in Hrun. apply pair_eq_fst in Hrun. subst w'.
  exists ds, nav_lon. split; [exact Hfs|]. split; [exact Hlon|]. split; [exact Hmin|].
  destruct (Hval 0 0 (f32 10) (f32 10) eq_refl eq_refl) as [Hread _].
  exact Hread.
Defined.

(** C9 as stated fails on a float64 field: 0.1 comes back as the float32
    number nearest to it, which is another number. *)
Lemma roundtrip_float64_counterexample :
  all_entries (λ v, isnan v = false) (f_U (fields tenth)) ∧
  all_entries (λ v, isnan v = false) (f_V (fields tenth)) ∧
  NEMOGrid.write 2%positive "/data/nemo" (world (fields tenth))
  = (world_written (fields tenth), Ok ()) ∧
  NEMOGrid.__init__ 3%positive (Some "/data/nemo") None (world_written (fields tenth))
  = (world_read (fields tenth), Ok ()) ∧
  ∃ U, lookup_attr (world_read (fields tenth)) 3%positive "U" = Ok (NdArray (Arr2 U)) ∧
       ¬ array_equal U (transpose (f_U (fields tenth))).
Proof.
  split_and!.
  - by apply demo_no_nan.
  - by apply demo_no_nan.
  - apply demo_write.
  - apply demo_init.
  - destruct (init_after_write_fields (world (fields tenth)) "/data/nemo"
                (fields tenth) 3%positive None (world_read (fields tenth)))
      as [HU _];
      [apply demo_well_shaped|by apply demo_no_nan..|discriminate
      |apply demo_init_written|].
    eexists. split; [exact HU|].
    intros Heq. apply Forall2_cons_1 in Heq as [Heq _].
    apply Forall2_cons_1 in Heq as [Heq _].
    vm_compute in Heq. discriminate.
Qed.

End Examples.

(** * Further properties of NEMOGrid *)

(** ** Frames *)

Section FrameFacts.
Context `{Scipy} `{PyPath}.
Import Np NetCDF.

Lemma same_but_files_refl paths w : same_but_files paths w w.
Proof. by unfold same_but_files. Qed.

Lemma same_but_files_trans paths w1 w2 w3 :
  same_but_files paths w1 w2 → same_but_files paths w2 w3 →
  same_but_files paths w1 w3.
Proof.
  intros (A1 & A2 & A3 & A4 & A5) (B1 & B2 & B3 & B4 & B5).
  unfold same_but_files. split_and!; try congruence.
  intros p Hp. by rewrite B5, A5.
Qed.

Lemma same_but_attrs_refl self names w : same_but_attrs self names w w.
Proof. by unfold same_but_attrs. Qed.

Lemma same_but_attrs_trans self names w1 w2 w3 :
  same_but_attrs self names w1 w2 → same_but_attrs self names w2 w3 →
  same_but_attrs self names w1 w3.
Proof.
  intros (A1 & A2 & A3 & A4 & A5 & A6) (B1 & B2 & B3 & B4 & B5 & B6).
  unfold same_but_attrs. split_and!; try congruence.
  intros o n Hon. by rewrite B6, A6.
Qed.

Section Preserves.
Variable R : World → World → Prop.
Hypothesis R_refl : ∀ w, R w w.
Hypothesis R_trans : ∀ w1 w2 w3, R w1 w2 → R w2 w3 → R w1 w3.

Lemma preserves_bind {A B} (m : M A) (k : A → M B) :
  preserves R m → (∀ a, preserves R (k a)) → preserves R (m ≫= k).
Proof.
  intros Hm Hk w. specialize (Hm w). unfold mbind, M_bind.
  destruct (m w) as [w1 [a|e]]; simpl in *; [|done].
  eapply R_trans; [exact Hm | apply Hk].
Qed.

Lemma preserves_ret {A} (a : A) : preserves R (mret a).
Proof. intros w. apply R_refl. Qed.

Lemma preserves_lift {A} (r : result A) : preserves R (lift r).
Proof. intros w. apply R_refl. Qed.

Lemma preserves_getattr self name : preserves R (getattr self name).
Proof. intros w. apply R_refl. Qed.

Lemma preserves_close h : preserves R (close h).
Proof. intros w. apply R_refl. Qed.

Lemma preserves_Dataset_r path : preserves R (Dataset_r path).
Proof. intros w. unfold Dataset_r. destruct (fs w !! path); apply R_refl. Qed.

Lemma preserves_for_each {A} (l : list A) (body : A → M unit) :
  (∀ a, preserves R (body a)) → preserves R (for_each l body).
Proof.
  intros Hbody. induction l as [|a l IH]; simpl.
  - apply preserves_ret.
  - apply preserves_bind; [apply Hbody | intros _; apply IH].
Qed.

End Preserves.

Lemma preserves_call paths h op :
  h ∈ paths → preserves (same_but_files paths) (call h op).
Proof.
  intros Hh w. unfold call.
  destruct (fs w !! h) as [ds|]; [|apply same_but_files_refl].
  destruct (op ds) as [ds'|e]; [|apply same_but_files_refl].
  unfold same_but_files. simpl. split_and!; try done.
  intros p Hp. rewrite lookup_insert_ne; [done|]. by intros ->.
Qed.

Lemma preserves_Dataset_w_bind {B} paths path (k : string → M B) :
  path ∈ paths →
  preserves (same_but_files paths) (k path) →
  preserves (same_but_files paths) (Dataset_w path ≫= k).
Proof.
  intros Hpath Hk w. rewrite bind_Dataset_w.
  eapply same_but_files_trans; [|apply Hk].
  unfold same_but_files. simpl. split_and!; try done.
  intros p Hp. rewrite lookup_insert_ne; [done|]. by intros ->.
Qed.

Lemma preserves_setattr self names name v :
  name ∈ names → preserves (same_but_attrs self names) (setattr self name v).
Proof.
  intros Hname w. unfold setattr.
  destruct (objects w !! self) as [d|] eqn:Hd; [|apply same_but_attrs_refl].
  unfold same_but_attrs, own_attr. simpl. split_and!; try done.
  - rewrite dom_insert_L. apply elem_of_dom_2 in Hd.
    apply set_eq. intros o. rewrite elem_of_union, elem_of_singleton.
    split; [intros [-> | ?]; done | by right].
  - intros o n [Ho | Hn].
    + by rewrite lookup_insert_ne.
    + destruct (decide (o = self)) as [-> | Ho]; [|by rewrite lookup_insert_ne].
      rewrite lookup_insert_eq, Hd. simpl.
      rewrite lookup_insert_ne; [done|]. by intros ->.
Qed.

End FrameFacts.

(** ** What [write] and [__init__] never touch *)

Section FrameTheorems.
Context `{Scipy} `{PyPath}.
Import Np NetCDF.

Local Ltac frame_files Hpath Hk :=
  repeat first
    [ exact Hk
    | apply (preserves_bind _ (same_but_files_trans _)); [|intros ?]
    | apply (preserves_for_each _ (same_but_files_refl _) (same_but_files_trans _));
      intros ?
    | apply (preserves_getattr _ (same_but_files_refl _))
    | apply (preserves_lift _ (same_but_files_refl _))
    | apply (preserves_close _ (same_but_files_refl _))
    | apply (preserves_ret _ (same_but_files_refl _))
    | apply preserves_call; exact Hpath ].

Lemma preserves_write_file_then paths self path zname vname lon lat field k :
  path ∈ paths →
  preserves (same_but_files paths) k →
  preserves (same_but_files paths)
    (NEMOGrid.write_file_then self path zname vname lon lat field k).
Proof.
  intros Hpath Hk. unfold NEMOGrid.write_file_then.
  apply preserves_Dataset_w_bind; [exact Hpath|].
  frame_files Hpath Hk.
Qed.

Local Ltac frame_attrs self :=
  repeat first
    [ apply (preserves_bind _ (same_but_attrs_trans self init_attrs)); [|intros ?]
    | apply (preserves_getattr _ (same_but_attrs_refl self init_attrs))
    | apply (preserves_lift _ (same_but_attrs_refl self init_attrs))
    | apply (preserves_Dataset_r _ (same_but_attrs_refl self init_attrs))
    | apply (preserves_ret _ (same_but_attrs_refl self init_attrs))
    | apply preserves_setattr; unfold init_attrs;
      repeat (first [apply list_elem_of_here | apply list_elem_of_further]) ].

Lemma preserves_init self filename degree :
  preserves (same_but_attrs self init_attrs) (NEMOGrid.__init__ self filename degree).
Proof.
  unfold NEMOGrid.__init__. destruct (NEMOGrid.truthy filename) as [f|].
  - frame_attrs self.
  - apply (preserves_ret _ (same_but_attrs_refl self init_attrs)).
Qed.

(** X1.  Whatever the attributes of the grid are and whether it returns
    or raises, [write(filename)] prints exactly one line, changes no
    attribute of any instance or of the class and no list, and leaves
    every file other than [<path>_U.nc] and [<path>_V.nc] as it was. *)
Theorem write_frame self filename w :
  let w' := fst (NEMOGrid.write self filename w) in
  objects w' = objects w ∧ lists w' = lists w ∧ class_dict w' = class_dict w ∧
  stdout w' = (stdout w ++ [write_line filename])%list ∧
  ∀ p, p ≠ path_local filename ++ "_U.nc" → p ≠ path_local filename ++ "_V.nc" →
       fs w' !! p = fs w !! p.
Proof.
  rewrite write_unfold.
  change ((print ?l ;; ?k) w) with (k (set_stdout (stdout w ++ [l])%list w)).
  set (paths := [path_local filename ++ "_U.nc"; path_local filename ++ "_V.nc"]).
  match goal with |- context [fst (?k ?w0)] =>
    assert (same_but_files paths w0 (fst (k w0))) as (H1 & H2 & H3 & H4 & H5)
  end.
  { apply preserves_write_file_then; [apply list_elem_of_here|].
    apply preserves_write_file_then;
      [apply list_elem_of_further, list_elem_of_here|].
    apply (preserves_ret _ (same_but_files_refl _)). }
  simpl. split_and!; try done.
  intros p HpU HpV. rewrite H5; [done|].
  unfold paths. rewrite !not_elem_of_cons. split_and!; try done. apply not_elem_of_nil.
Qed.

(** X2.  Whatever its arguments and whether it returns or raises,
    [__init__] changes no file, prints nothing, changes no list and no
    class attribute, creates and deletes no object, and assigns nothing
    but the attributes [dset_u], [dset_v], [lon_u], [lat_u], [lon_v],
    [lat_v], [U], [V], [interp_u] and [interp_v] of [self]: [depth],
    [time_counter], [x], [y] and [_particles] stay as they were. *)
Theorem init_frame self filename degree w :
  let w' := fst (NEMOGrid.__init__ self filename degree w) in
  fs w' = fs w ∧ stdout w' = stdout w ∧ lists w' = lists w ∧
  class_dict w' = class_dict w ∧
  dom (objects w') = dom (objects w) ∧
  (∀ o n, o ≠ self → own_attr w' o n = own_attr w o n) ∧
  (∀ n, n ∉ init_attrs → own_attr w' self n = own_attr w self n) ∧
  Forall (λ n, own_attr w' self n = own_attr w self n)
    ["depth"; "time_counter"; "x"; "y"; "_particles"].
Proof.
  destruct (preserves_init self filename degree w) as (H1 & H2 & H3 & H4 & H5 & H6).
  simpl. split_and!; try done.
  - intros o n Ho. apply H6. by left.
  - intros n Hn. apply H6. by right.
  - repeat (apply Forall_cons; split;
      [apply H6; right; unfold init_attrs;
       repeat (apply not_elem_of_cons; split; [done|]); apply not_elem_of_nil|]).
    apply Forall_nil_2.
Qed.

End FrameTheorems.

(** ** The constructor *)

Section Constructor.
Context `{Scipy} `{PyPath}.
Import Np NetCDF.

Lemma bind_lift_raise {A B} (r : result A) e (k : A → M B) w :
  r = Raise e → (lift r ≫= k) w = (w, Raise e).
Proof. by intros ->. Qed.

Lemma lookup_attr_class w o n v :
  o ∈ dom (objects w) → own_attr w o n = None → class_dict w !! n = Some v →
  lookup_attr w o n = Ok v.
Proof.
  intros [d Hd]%elem_of_dom Hown Hcls. unfold own_attr in Hown.
  unfold lookup_attr. rewrite Hd in *. simpl in Hown. by rewrite Hown, Hcls.
Qed.

Lemma lookup_attr_class_missing w o n :
  o ∈ dom (objects w) → own_attr w o n = None → class_dict w !! n = None →
  lookup_attr w o n = Raise (AttributeError n).
Proof.
  intros [d Hd]%elem_of_dom Hown Hcls. unfold own_attr in Hown.
  unfold lookup_attr. rewrite Hd in *. simpl in Hown. by rewrite Hown, Hcls.
Qed.

(** What the constructor has done when it returns [g]. *)
Lemma new_inv filename degree w w' g :
  NEMOGrid.new filename degree w = (w', Ok g) →
  objects w !! g = None ∧
  NEMOGrid.__init__ g filename degree (set_objects (<[g := ∅]> (objects w)) w)
  = (w', Ok ()).
Proof.
  unfold NEMOGrid.new. set (self := fresh (dom (objects w))).
  unfold mbind at 1, M_bind at 1.
  destruct (NEMOGrid.__init__ self filename degree _) as [w1 [[]|e]] eqn:E; [|done].
  intros [= <- <-]. split; [|done].
  apply not_elem_of_dom. apply is_fresh.
Qed.

Lemma new_no_file filename degree w :
  NEMOGrid.truthy filename = None →
  NEMOGrid.new filename degree w
  = (set_objects (<[fresh (dom (objects w)) := ∅]> (objects w)) w,
     Ok (fresh (dom (objects w)))).
Proof.
  intros Hf. unfold NEMOGrid.new, NEMOGrid.__init__. by rewrite Hf.
Qed.

Lemma new_from_file f degree w ru rv su sv :
  f ≠ EmptyString →
  reads w (f ++ "_U.nc") "vozocrtx" ru →
  reads w (f ++ "_V.nc") "vomecrty" rv →
  RectBivariateSpline (d_lat ru) (d_lon ru) (nan_to_zero (d_slice ru))
    (default 3%Z degree) (default 3%Z degree) = Ok su →
  RectBivariateSpline (d_lat rv) (d_lon rv) (nan_to_zero (d_slice rv))
    (default 3%Z degree) (default 3%Z degree) = Ok sv →
  NEMOGrid.new (Some f) degree w
  = (set_objects (<[fresh (dom (objects w)) := initialised ru rv su sv ∅]> (objects w)) w,
     Ok (fresh (dom (objects w)))).
Proof.
  intros Hf Hru Hrv Hsu Hsv. unfold NEMOGrid.new.
  set (g := fresh (dom (objects w))).
  unfold mbind at 1, M_bind at 1.
  erewrite (init_ok g f degree _ ∅ ru rv su sv); try done.
  - simpl. unfold set_objects. simpl. by rewrite insert_insert_eq.
  - simpl. by rewrite lookup_insert_eq.
Qed.

(** The constructor adds one object, [g]; the attributes of [g] that
    [__init__] does not assign are left to the class. *)
Lemma new_frame filename degree w w' g :
  NEMOGrid.new filename degree w = (w', Ok g) →
  objects w !! g = None ∧
  g ∈ dom (objects w') ∧
  fs w' = fs w ∧ stdout w' = stdout w ∧ lists w' = lists w ∧
  class_dict w' = class_dict w ∧
  (∀ o, o ∈ dom (objects w) → o ∈ dom (objects w')) ∧
  (∀ o n, o ≠ g → own_attr w' o n = own_attr w o n) ∧
  (∀ n, n ∉ init_attrs → own_attr w' g n = None).
Proof.
  intros [Hg Hrun]%new_inv.
  destruct (preserves_init g filename degree
              (set_objects (<[g := ∅]> (objects w)) w))
    as (H1 & H2 & H3 & H4 & H5 & H6).
  rewrite Hrun in *. simpl in *.
  split_and!; try done.
  - rewrite H5, dom_insert_L. apply elem_of_union. left. by apply elem_of_singleton.
  - intros o Ho. rewrite H5, dom_insert_L. apply elem_of_union. by right.
  - intros o n Ho. rewrite H6 by (by left).
    unfold own_attr. simpl. by rewrite lookup_insert_ne.
  - intros n Hn. rewrite H6 by (by right).
    unfold own_attr. simpl. by rewrite lookup_insert_eq.
Qed.

Lemma not_init_attr n :
  n ∈ ["depth"; "time_counter"; "x"; "y"; "_particles"] → n ∉ init_attrs.
Proof.
  intros Hn Hin. unfold init_attrs in Hin.
  repeat (apply elem_of_cons in Hn as [-> | Hn];
          [repeat (apply elem_of_cons in Hin as [[=] | Hin]); by apply elem_of_nil in Hin|]).
  by apply elem_of_nil in Hn.
Qed.

Lemma class_body_lookup l :
  NEMOGrid.class_body l !! "interp_u" = None ∧
  NEMOGrid.class_body l !! "lon_u" = Some PyNone ∧
  NEMOGrid.class_body l !! "depth" = Some PyNone ∧
  NEMOGrid.class_body l !! "_particles" = Some (PyList l).
Proof. unfold NEMOGrid.class_body. split_and!; by simplify_map_eq. Qed.

(** X3.  A grid constructed without a file name ([None] or the empty
    string) gets no interpolator: the constructor returns, and [eval] on
    the new grid raises [AttributeError] for [interp_u], changing
    nothing. *)
Theorem eval_without_file filename degree l w w' g x y :
  NEMOGrid.truthy filename = None →
  class_dict w = NEMOGrid.class_body l →
  NEMOGrid.new filename degree w = (w', Ok g) →
  NEMOGrid.eval g x y w' = (w', Raise (AttributeError "interp_u")).
Proof.
  intros Hf Hcls Hnew. rewrite new_no_file in Hnew by done.
  injection Hnew as <- <-.
  unfold NEMOGrid.eval, mbind, M_bind, getattr, lookup_attr. simpl.
  rewrite lookup_insert_eq, lookup_empty, Hcls.
  by rewrite (proj1 (class_body_lookup l)).
Qed.

(** X4.  [write] on a grid constructed without a file name raises
    [TypeError] at [len(self.lon_u)], the class default being [None]; by
    then it has printed its line and created, or emptied, the file
    [<path>_U.nc]; the V file is not touched. *)
Theorem write_without_file filename degree l w w' g out :
  NEMOGrid.truthy filename = None →
  class_dict w = NEMOGrid.class_body l →
  NEMOGrid.new filename degree w = (w', Ok g) →
  NEMOGrid.write g out w'
  = (set_fs (<[path_local out ++ "_U.nc" := empty_dataset]> (fs w'))
       (set_stdout (stdout w' ++ [write_line out])%list w'),
     Raise TypeError).
Proof.
  intros Hf Hcls Hnew. rewrite new_no_file in Hnew by done.
  injection Hnew as <- <-.
  rewrite write_unfold.
  match goal with |- (print ?l ;; ?k) ?w0 = _ =>
    change ((print l ;; k) w0) with (k (set_stdout (stdout w0 ++ [l])%list w0)) end.
  unfold NEMOGrid.write_file_then at 1. rewrite bind_Dataset_w.
  erewrite (bind_getattr _ "lon_u" PyNone).
  - by rewrite (bind_lift_raise _ TypeError).
  - unfold lookup_attr. simpl. rewrite lookup_insert_eq, lookup_empty, Hcls.
    by destruct (class_body_lookup l) as (_ & -> & _).
Qed.

(** X5.  A grid constructed from files cannot be written: [__init__]
    sets neither [depth] nor [time_counter], so [write] raises
    [AttributeError] at [self.depth.size], [depth] being the class
    default [None].  By then it has created [<path>_U.nc] with the
    dimensions [x] and [y] and no variable.  (The files the grid was
    read from are taken to be other files than the ones written.) *)
Theorem write_after_read f degree l w w' g out :
  f ≠ EmptyString →
  class_dict w = NEMOGrid.class_body l →
  NEMOGrid.new (Some f) degree w = (w', Ok g) →
  path_local out ≠ f →
  ∃ w'' ds,
    NEMOGrid.write g out w' = (w'', Raise (AttributeError "size")) ∧
    fs w'' !! (path_local out ++ "_U.nc") = Some ds ∧
    dom (dimensions ds) = {[ "x"; "y" ]} ∧
    variables ds = ∅.
Proof.
  intros Hf Hcls Hnew _.
  destruct (new_frame _ _ _ _ _ Hnew) as (Hg & Hdom & _ & _ & _ & Hcls' & _ & _ & Hown).
  apply new_inv in Hnew as [_ Hrun].
  apply init_inv in Hrun
    as (d & ru & rv & su & sv & Hd & Hru & Hrv & Hsu & Hsv & Hw'); [|done].
  destruct Hru as (_ & _ & _ & _ & _ & Hcol & Hrow).
  assert (∃ n, len (NcVar (d_dataset ru) (d_nav_lon ru)) = Ok n) as [nx Hnx].
  { unfold getitem_row0 in Hrow. unfold len.
    destruct (shape (d_dataset ru) (d_nav_lon ru)) as [|n ?]; [done|]. eauto. }
  assert (∃ n, len (NcVar (d_dataset ru) (d_nav_lat ru)) = Ok n) as [ny Hny].
  { unfold getitem_col0 in Hcol. unfold len.
    destruct (shape (d_dataset ru) (d_nav_lat ru)) as [|n ?]; [done|]. eauto. }
  assert (lookup_attr w' g "depth" = Ok PyNone) as Hdepth.
  { apply lookup_attr_class; [done| |].
    - apply Hown, not_init_attr. apply list_elem_of_here.
    - rewrite Hcls', Hcls. by destruct (class_body_lookup l) as (_ & _ & -> & _). }
  destruct (initialised_attr ru rv su sv d
              (objects (set_objects (<[g := ∅]> (objects w)) w))
              (set_objects (<[g := ∅]> (objects w)) w) g)
    as (_ & _ & _ & _ & Hlon & Hlat & _).
  rewrite <- Hw' in Hlon, Hlat.
  rewrite write_unfold.
  match goal with |- context [(print ?l ;; ?k) ?w0] =>
    change ((print l ;; k) w0) with (k (set_stdout (stdout w0 ++ [l])%list w0)) end.
  unfold NEMOGrid.write_file_then at 1. rewrite bind_Dataset_w.
  erewrite (bind_getattr _ "lon_u") by exact Hlon.
  erewrite bind_lift by exact Hnx.
  erewrite bind_call by (by apply createDimension_ok).
  erewrite (bind_getattr _ "lat_u") by exact Hlat.
  erewrite bind_lift by exact Hny.
  erewrite bind_call by (by apply createDimension_ok).
  erewrite (bind_getattr _ "depth") by exact Hdepth.
  rewrite (bind_lift_raise _ (AttributeError "size")) by done.
  eexists _, _. split; [reflexivity|]. simpl. rewrite lookup_insert_eq.
  split; [reflexivity|]. simpl. split; [|done].
  rewrite !dom_insert_L, dom_empty_L. apply set_eq. intros n.
  rewrite !elem_of_union, !elem_of_singleton, elem_of_empty. tauto.
Qed.

End Constructor.

(** ** The particle list *)

Section Particles.
Context `{Scipy} `{PyPath}.
Import Np NetCDF.

Lemma particles_shared w g l ps :
  lookup_attr w g "_particles" = Ok (PyList l) → lists w !! l = Some ps →
  particles w g = Some ps.
Proof. intros Hattr Hl. unfold particles. by rewrite Hattr. Qed.

Lemma add_particle_run w g l ps p :
  lookup_attr w g "_particles" = Ok (PyList l) → lists w !! l = Some ps →
  NEMOGrid.add_particle g p w
  = (set_lists (<[l := (ps ++ [p])%list]> (lists w)) w, Ok ()).
Proof.
  intros Hattr Hl. unfold NEMOGrid.add_particle, mbind, M_bind, getattr, append.
  by rewrite Hattr, Hl.
Qed.

(** X6.  [__init__] never assigns [_particles], so any two grids made by
    the constructor, with or without files, share the list of the class:
    a particle added to the first is in the list of the second, after
    the particles [ps] that were there. *)
Theorem constructed_grids_share l ps f1 d1 f2 d2 w w1 w2 g1 g2 p :
  class_dict w = NEMOGrid.class_body l →
  lists w !! l = Some ps →
  NEMOGrid.new f1 d1 w = (w1, Ok g1) →
  NEMOGrid.new f2 d2 w1 = (w2, Ok g2) →
  g1 ≠ g2 ∧
  ∃ w3, NEMOGrid.add_particle g1 p w2 = (w3, Ok ()) ∧
        particles w3 g1 = Some (ps ++ [p])%list ∧
        particles w3 g2 = Some (ps ++ [p])%list.
Proof.
  intros Hcls Hl Hnew1 Hnew2.
  destruct (new_frame _ _ _ _ _ Hnew1)
    as (_ & Hdom1 & _ & _ & Hl1 & Hcls1 & _ & _ & Hown1).
  destruct (new_frame _ _ _ _ _ Hnew2)
    as (Hg2 & Hdom2 & _ & _ & Hl2 & Hcls2 & Hmono & Hother & Hown2).
  assert (g1 ≠ g2) as Hne.
  { intros ->. apply not_elem_of_dom in Hg2. done. }
  assert (class_dict w2 !! "_particles" = Some (PyList l)) as Hc.
  { rewrite Hcls2, Hcls1, Hcls. by destruct (class_body_lookup l) as (_ & _ & _ & ->). }
  assert ("_particles" ∉ init_attrs) as Hp.
  { apply not_init_attr. repeat first [apply list_elem_of_here | apply list_elem_of_further]. }
  assert (lookup_attr w2 g1 "_particles" = Ok (PyList l)) as Ha1.
  { apply lookup_attr_class; [by apply Hmono| |done].
    rewrite Hother by done. by apply Hown1. }
  assert (lookup_attr w2 g2 "_particles" = Ok (PyList l)) as Ha2.
  { apply lookup_attr_class; [done| |done]. by apply Hown2. }
  assert (lists w2 !! l = Some ps) as Hl' by (by rewrite Hl2, Hl1).
  split; [done|]. eexists. split; [by eapply add_particle_run|].
  split; (eapply particles_shared; [eassumption|]; simpl; by rewrite lookup_insert_eq).
Qed.

(** X7.  A grid that has been given a list of its own does not share:
    [add_particle] appends to its own list, and a grid that uses the
    list of the class sees no new particle. *)
Theorem add_particle_own_list w g1 g2 d1 d2 l l1 ps1 p :
  objects w !! g1 = Some d1 →
  objects w !! g2 = Some d2 →
  d1 !! "_particles" = Some (PyList l1) →
  d2 !! "_particles" = None →
  class_dict w !! "_particles" = Some (PyList l) →
  l1 ≠ l →
  lists w !! l1 = Some ps1 →
  ∃ w', NEMOGrid.add_particle g1 p w = (w', Ok ()) ∧
        particles w' g1 = Some (ps1 ++ [p])%list ∧
        particles w' g2 = particles w g2 ∧
        lists w' !! l = lists w !! l.
Proof.
  intros Hg1 Hg2 Hd1 Hd2 Hcls Hne Hl1.
  assert (lookup_attr w g1 "_particles" = Ok (PyList l1)) as Ha1.
  { unfold lookup_attr. by rewrite Hg1, Hd1. }
  assert (lookup_attr w g2 "_particles" = Ok (PyList l)) as Ha2.
  { unfold lookup_attr. by rewrite Hg2, Hd2, Hcls. }
  eexists. split; [by eapply add_particle_run|]. split_and!.
  - eapply particles_shared; [exact Ha1|]. simpl. by rewrite lookup_insert_eq.
  - unfold particles.
    change (lookup_attr (set_lists _ w) g2 "_particles")
      with (lookup_attr w g2 "_particles").
    rewrite Ha2. simpl. by rewrite lookup_insert_ne.
  - simpl. by rewrite lookup_insert_ne.
Qed.

(** X8.  Particles are kept in the order they are added, and one added
    twice is kept twice: adding the particles [qs] one after the other
    leaves the list [ps ++ qs], and changes nothing else. *)
Theorem add_particles_in_order g l qs : ∀ w ps,
  lookup_attr w g "_particles" = Ok (PyList l) →
  lists w !! l = Some ps →
  ∃ w', for_each qs (NEMOGrid.add_particle g) w = (w', Ok ()) ∧
        particles w' g = Some (ps ++ qs)%list ∧
        objects w' = objects w ∧ class_dict w' = class_dict w ∧
        fs w' = fs w ∧ stdout w' = stdout w ∧
        ∀ l', l' ≠ l → lists w' !! l' = lists w !! l'.
Proof.
  induction qs as [|q qs IH]; intros w ps Hattr Hl.
  - exists w. simpl. rewrite app_nil_r.
    split_and!; try done. by eapply particles_shared.
  - destruct (IH (set_lists (<[l := (ps ++ [q])%list]> (lists w)) w) (ps ++ [q])%list)
      as (w' & Hrun & Hps & Ho & Hc & Hf & Hs & Hother).
    + exact Hattr.
    + simpl. by rewrite lookup_insert_eq.
    + exists w'. simpl for_each. unfold mbind at 1, M_bind at 1.
      rewrite (add_particle_run w g l ps q Hattr Hl).
      split; [exact Hrun|]. rewrite Hps, <- app_assoc. simpl in *.
      split_and!; try done.
      intros l' Hl'. rewrite Hother by done. by rewrite lookup_insert_ne.
Qed.

(** X18.  A new grid is not born empty: whatever has been added to the
    list of the class, through any grid, is in [_particles] of a grid
    constructed afterwards. *)
Theorem new_grid_has_particles l ps filename degree w w' g :
  class_dict w = NEMOGrid.class_body l →
  lists w !! l = Some ps →
  NEMOGrid.new filename degree w = (w', Ok g) →
  particles w' g = Some ps.
Proof.
  intros Hcls Hl Hnew.
  destruct (new_frame _ _ _ _ _ Hnew)
    as (_ & Hdom & _ & _ & Hl' & Hcls' & _ & _ & Hown).
  eapply particles_shared; [|by rewrite Hl'].
  apply lookup_attr_class; [done| |].
  - apply Hown, not_init_attr.
    repeat first [apply list_elem_of_here | apply list_elem_of_further].
  - rewrite Hcls', Hcls. by destruct (class_body_lookup l) as (_ & _ & _ & ->).
Qed.

End Particles.

(** ** When [__init__] returns, and what it leaves when it does not *)

Section InitOutcomes.
Context `{Scipy} `{PyPath}.
Import Np NetCDF.

(** X9.  With a file name, [__init__] returns exactly when [self] is an
    object, both files can be opened and hold [nav_lon], [nav_lat] and
    their velocity with the slices [__init__] takes, and SciPy fits both
    splines to the cleaned slices; the instance then has the attributes
    [initialised] lists, and nothing else has changed. *)
Theorem init_returns_iff self f degree w w' :
  f ≠ EmptyString →
  NEMOGrid.__init__ self (Some f) degree w = (w', Ok ()) ↔
  ∃ d ru rv su sv,
    objects w !! self = Some d ∧
    reads w (f ++ "_U.nc") "vozocrtx" ru ∧
    reads w (f ++ "_V.nc") "vomecrty" rv ∧
    RectBivariateSpline (d_lat ru) (d_lon ru) (nan_to_zero (d_slice ru))
      (default 3%Z degree) (default 3%Z degree) = Ok su ∧
    RectBivariateSpline (d_lat rv) (d_lon rv) (nan_to_zero (d_slice rv))
      (default 3%Z degree) (default 3%Z degree) = Ok sv ∧
    w' = set_objects (<[self := initialised ru rv su sv d]> (objects w)) w.
Proof.
  intros Hf. split.
  - by apply init_inv.
  - intros (d & ru & rv & su & sv & Hd & Hru & Hrv & Hsu & Hsv & ->).
    by apply init_ok.
Qed.

Lemma bind_Dataset_r_missing {B} p (k : Value → M B) w :
  fs w !! p = None → (Dataset_r p ≫= k) w = (w, Raise (IOError p)).
Proof. intros Hp. unfold mbind, M_bind, Dataset_r. by rewrite Hp. Qed.

(** X10.  A file that cannot be opened makes [__init__] raise, and what
    it has assigned by then stays: nothing when [<filename>_U.nc] is
    missing; the attribute [dset_u] when only [<filename>_V.nc] is
    missing; [dset_u] and [dset_v] when both files open but the U file
    has no variable [nav_lon]. *)
Theorem init_failures self f degree w :
  f ≠ EmptyString →
  (fs w !! (f ++ "_U.nc") = None →
   ∃ e, NEMOGrid.__init__ self (Some f) degree w = (w, Raise e)) ∧
  (∀ dsu d,
     fs w !! (f ++ "_U.nc") = Some dsu → objects w !! self = Some d →
     fs w !! (f ++ "_V.nc") = None →
     ∃ e, NEMOGrid.__init__ self (Some f) degree w
          = (set_objects (<[self := <["dset_u" := PyDataset dsu]> d]> (objects w)) w,
             Raise e)) ∧
  (∀ dsu dsv d,
     fs w !! (f ++ "_U.nc") = Some dsu → objects w !! self = Some d →
     fs w !! (f ++ "_V.nc") = Some dsv →
     variables dsu !! "nav_lon" = None →
     ∃ e, NEMOGrid.__init__ self (Some f) degree w
          = (set_objects
               (<[self := <["dset_v" := PyDataset dsv]>
                            (<["dset_u" := PyDataset dsu]> d)]> (objects w)) w,
             Raise e)).
Proof.
  intros Hf. unfold NEMOGrid.__init__. rewrite truthy_nonempty by done.
  split_and!.
  - intros HU. eexists. by rewrite bind_Dataset_r_missing.
  - intros dsu d HU Hd HV. eexists.
    rewrite (bind_Dataset_r _ _ _ _ HU), (bind_setattr_first _ _ _ _ _ _ Hd).
    by rewrite bind_Dataset_r_missing.
  - intros dsu dsv d HU Hd HV Hvar. eexists.
    rewrite (bind_Dataset_r _ _ _ _ HU), (bind_setattr_first _ _ _ _ _ _ Hd).
    rewrite (bind_Dataset_r _ dsv) by exact HV. rewrite bind_setattr.
    erewrite bind_getattr_own
      by (rewrite lookup_insert_ne by done; apply lookup_insert_eq).
    rewrite (bind_lift_raise _ (KeyError "nav_lon")); [reflexivity|].
    unfold subscript, getvar. by rewrite Hvar.
Qed.

End InitOutcomes.

(** ** More on what [write] stores and what is read back *)

Section Stored.
Context `{Scipy} `{PyPath}.
Import Np NetCDF.

Local Ltac solve_not_elem :=
  repeat (apply not_elem_of_cons; split; [done|]); apply not_elem_of_nil.

Lemma isnan_astype t v : isnan (astype t v) = isnan v.
Proof. destruct v; simpl; try done. apply binary_round_not_nan. Qed.

Lemma rect_fmap (g : float → float) n m a :
  rect n m a → rect n m ((λ row : list float, g <$> row) <$> a).
Proof.
  intros [Hn Hm]. split; [by rewrite length_fmap|].
  apply Forall_fmap. eapply Forall_impl; [exact Hm|].
  intros row Hrow. simpl. by rewrite length_fmap.
Qed.

(** Entry [(i, j)] of the cleaned slice read back is entry [(j, i)] of
    the field, as float32, or zero. *)
Lemma read_back_lookup n m a i j row v :
  rect n m a → a !! j = Some row → row !! i = Some v →
  ∃ row', nan_to_zero (astype_array float32 (transpose a)) !! i = Some row' ∧
          row' !! j = Some (if isnan v then zero else astype float32 v).
Proof.
  intros [Hn Hm] Hrow Hv.
  assert (i < m) as Hi.
  { eapply Forall_forall in Hm; [|by eapply list_elem_of_lookup_2].
    simpl in Hm. rewrite <- Hm. by eapply lookup_lt_Some. }
  destruct a as [|r a]; [done|].
  assert (length r = m) as Hr by by inversion Hm.
  unfold nan_to_zero, astype_array, transpose. rewrite Hr.
  remember (r :: a) as b eqn:Hb. clear Hb.
  eexists. split.
  - rewrite !list_lookup_fmap, lookup_seq_lt by done. simpl. reflexivity.
  - rewrite !list_lookup_fmap, Hrow. simpl.
    by rewrite (nth_lookup_Some _ _ _ _ Hv), isnan_astype.
Qed.

Lemma read_back_rect n m a :
  0 < n → rect n m a →
  rect m n (nan_to_zero (astype_array float32 (transpose a))).
Proof.
  intros Hn Ha. unfold nan_to_zero, astype_array.
  by apply rect_fmap, rect_fmap, (transpose_rect n).
Qed.

(** What [__init__] holds after it has read the files of [write]. *)
Lemma init_after_write_inv w filename f self degree w' :
  well_shaped f →
  path_local filename ≠ EmptyString →
  NEMOGrid.__init__ self (Some (path_local filename)) degree (written w filename f)
  = (w', Ok ()) →
  ∃ d su sv,
    w' = set_objects
           (<[self := initialised (read_back_U f) (read_back_V f) su sv d]>
              (objects (written w filename f)))
           (written w filename f).
Proof.
  intros Hshape Hp Hrun.
  apply init_inv in Hrun
    as (d & ru & rv & su & sv & Hd & Hru & Hrv & Hsu & Hsv & ->); [|done].
  rewrite (reads_inj _ _ _ _ _ Hru (written_reads_U w filename f Hshape)).
  rewrite (reads_inj _ _ _ _ _ Hrv (written_reads_V w filename f Hshape)).
  eauto.
Qed.

(** X11.  The round trip for any field, NaN included: after [write] and
    [__init__] on the same path, [U] has the shape [(len(lat_u),
    len(lon_u))] and its entry [(i, j)] is entry [(j, i)] of the field
    written, converted to float32, or [0.] where that entry was NaN; and
    so for [V]. *)
Theorem roundtrip_entries w self filename f self' degree w1 w2 :
  holds w self f → well_shaped f →
  path_local filename ≠ EmptyString →
  NEMOGrid.write self filename w = (w1, Ok ()) →
  NEMOGrid.__init__ self' (Some (path_local filename)) degree w1 = (w2, Ok ()) →
  ∃ U' V',
    lookup_attr w2 self' "U" = Ok (NdArray (Arr2 U')) ∧
    lookup_attr w2 self' "V" = Ok (NdArray (Arr2 V')) ∧
    rect (length (f_lat_u f)) (length (f_lon_u f)) U' ∧
    rect (length (f_lat_v f)) (length (f_lon_v f)) V' ∧
    (∀ i j row v, f_U f !! j = Some row → row !! i = Some v →
       ∃ row', U' !! i = Some row' ∧
               row' !! j = Some (if isnan v then zero else astype float32 v)) ∧
    (∀ i j row v, f_V f !! j = Some row → row !! i = Some v →
       ∃ row', V' !! i = Some row' ∧
               row' !! j = Some (if isnan v then zero else astype float32 v)).
Proof.
  intros Hholds Hshape Hp Hwrite Hinit.
  rewrite (write_run _ _ _ _ Hholds Hshape) in Hwrite. injection Hwrite as <-.
  apply init_after_write_inv in Hinit as (d & su & sv & ->); [|done..].
  destruct (initialised_attr (read_back_U f) (read_back_V f) su sv d
              (objects (written w filename f)) (written w filename f) self')
    as (HU & HV & _).
  destruct Hshape as (Hxu & Hyu & Hxv & Hyv & Hz & HrU & HrV).
  eexists _, _. split; [exact HU|]. split; [exact HV|]. simpl. split_and!.
  - by apply read_back_rect.
  - by apply read_back_rect.
  - intros i j row v. by eapply read_back_lookup.
  - intros i j row v. by eapply read_back_lookup.
Qed.

(** X12.  The round trip changes the coordinates: [lon_u] and [lat_u],
    one-dimensional arrays when written, are the two-dimensional file
    variables when read back.  [len(lon_u)], the number of longitudes
    before, is the number of latitudes after; the longitudes are the
    first row of [lon_u] and the latitudes the first column of [lat_u],
    both converted to float32. *)
Theorem roundtrip_coordinates w self filename f self' degree w1 w2 :
  holds w self f → well_shaped f →
  path_local filename ≠ EmptyString →
  NEMOGrid.write self filename w = (w1, Ok ()) →
  NEMOGrid.__init__ self' (Some (path_local filename)) degree w1 = (w2, Ok ()) →
  ∃ lon lat,
    (lookup_attr w self "lon_u" ≫= len) = Ok (length (f_lon_u f)) ∧
    lookup_attr w2 self' "lon_u" = Ok lon ∧
    lookup_attr w2 self' "lat_u" = Ok lat ∧
    len lon = Ok (length (f_lat_u f)) ∧
    len lat = Ok (length (f_lat_u f)) ∧
    index_row0 lon = Ok (astype float32 <$> f_lon_u f) ∧
    index_col0 lat = Ok (astype float32 <$> f_lat_u f).
Proof.
  intros Hholds Hshape Hp Hwrite Hinit.
  rewrite (write_run _ _ _ _ Hholds Hshape) in Hwrite. injection Hwrite as <-.
  apply init_after_write_inv in Hinit as (d & su & sv & ->); [|done..].
  destruct (initialised_attr (read_back_U f) (read_back_V f) su sv d
              (objects (written w filename f)) (written w filename f) self')
    as (_ & _ & _ & _ & Hlon & Hlat & _).
  destruct Hholds as (Hlonu & _).
  destruct Hshape as (Hxu & Hyu & Hxv & Hyv & Hz & HrU & HrV).
  eexists _, _. split; [by rewrite Hlonu|].
  split; [exact Hlon|]. split; [exact Hlat|].
  unfold read_back_U, dataset_U. simpl. split_and!.
  - unfold shape. simpl. rewrite nemo_dim_len_y by solve_not_elem. done.
  - unfold shape. simpl. rewrite nemo_dim_len_y by solve_not_elem. done.
  - apply nemo_getitem_row0; [solve_not_elem..|done].
  - apply nemo_getitem_col0; [solve_not_elem..|done].
Qed.

(** X13.  [write] stores the velocity in the slice [[0, 0, :, :]] and
    nowhere else: whatever the number of depth levels and of time steps
    the file declares, the stored elements of [vozocrtx] are exactly the
    ones with time index 0 and depth index 0. *)
Theorem write_first_slice_only w self filename f :
  holds w self f → well_shaped f →
  0 < length (f_time_counter f) →
  ∃ w' ds v,
    NEMOGrid.write self filename w = (w', Ok ()) ∧
    fs w' !! (path_local filename ++ "_U.nc") = Some ds ∧
    getvar ds "vozocrtx" = Ok v ∧
    shape ds v = [length (f_time_counter f); length (f_depth f);
                  length (f_lat_u f); length (f_lon_u f)] ∧
    ∀ ix, is_Some (data v !! ix) ↔
          ∃ i j, ix = [0; 0; i; j] ∧ i < length (f_lat_u f) ∧ j < length (f_lon_u f).
Proof.
  intros Hholds Hshape Htc.
  eexists _, _, _. split; [by apply write_run|].
  split; [apply written_fs_U|].
  split; [apply nemo_getvar_velocity; solve_not_elem|].
  split.
  - unfold shape, dataset_U. simpl.
    rewrite nemo_dim_len_t, nemo_dim_len_z, nemo_dim_len_y, nemo_dim_len_x
      by solve_not_elem.
    by rewrite Nat.max_l by lia.
  - intros ix. simpl. rewrite lookup_write_region, <- elem_of_region_00.
    destruct (decide (ix ∈ region_00 (length (f_lat_u f)) (length (f_lon_u f))))
      as [Hin | Hin].
    + split; [done | by eauto].
    + rewrite lookup_empty. split; [by intros [? ?] | done].
Qed.

Lemma insert_pair_twice (F : gmap string Dataset) p q a b :
  <[q := b]> (<[p := a]> (<[q := b]> (<[p := a]> F))) = <[q := b]> (<[p := a]> F).
Proof.
  apply map_eq. intros k.
  destruct (decide (k = q)) as [-> | Hq]; [by rewrite !lookup_insert_eq|].
  rewrite !(lookup_insert_ne _ q) by done.
  destruct (decide (k = p)) as [-> | Hp'']; [by rewrite !lookup_insert_eq|].
  by repeat first [ rewrite (lookup_insert_ne _ p) by done
                  | rewrite (lookup_insert_ne _ q) by done ].
Qed.

(** X14.  [write] replaces what the two files held: a second [write] of
    the same grid to the same name returns too and leaves the files as
    the first one did; only its line is printed again. *)
Theorem write_twice w self filename f :
  holds w self f → well_shaped f →
  ∃ w1 w2,
    NEMOGrid.write self filename w = (w1, Ok ()) ∧
    NEMOGrid.write self filename w1 = (w2, Ok ()) ∧
    fs w2 = fs w1 ∧
    stdout w2 = (stdout w ++ [write_line filename; write_line filename])%list ∧
    objects w2 = objects w ∧ lists w2 = lists w ∧ class_dict w2 = class_dict w.
Proof.
  intros Hholds Hshape.
  exists (written w filename f), (written (written w filename f) filename f).
  split; [by apply write_run|].
  split; [apply write_run; [exact Hholds | exact Hshape]|].
  split_and!; try done.
  - unfold written. simpl. apply insert_pair_twice.
  - unfold written. simpl. by rewrite <- app_assoc.
Qed.

End Stored.

(** ** The axes in the file, [eval], and a second [__init__] *)

Section AxesEvalInit.
Context `{Scipy} `{PyPath}.
Import Np NetCDF.

Local Ltac solve_not_elem :=
  repeat (apply not_elem_of_cons; split; [done|]); apply not_elem_of_nil.

Local Ltac lk :=
  repeat (rewrite lookup_insert_eq || rewrite lookup_insert_ne by done);
  try done; eauto.

Lemma read_all_1d t (a : list float) k v :
  a !! k = Some v →
  default (fill_value t)
    (write_region t ((λ i, [i]) <$> seq 0 (length a))
       (λ ix, nth (hd 0 ix) a zero) ∅ !! [k])
  = astype t v.
Proof.
  intros Hv. rewrite lookup_write_region, decide_True.
  - simpl. by rewrite (nth_lookup_Some _ _ _ _ Hv).
  - apply list_elem_of_fmap. exists k. split; [done|].
    apply elem_of_seq. apply lookup_lt_Some in Hv. lia.
Qed.

(** X15.  What [write] stores in the U file beside the velocity: the
    longitudes on every row of [nav_lon] and the latitudes on every
    column of [nav_lat], converted to float32; the valid ranges, the
    first and last longitude and latitude as they are; the depths in
    [depthu], converted to float32; the times in [time_counter],
    converted to float64. *)
Theorem write_stores_axes w self filename f :
  holds w self f → well_shaped f →
  ∃ w' ds nav_lon nav_lat depthu time_counter,
    NEMOGrid.write self filename w = (w', Ok ()) ∧
    fs w' !! (path_local filename ++ "_U.nc") = Some ds ∧
    getvar ds "nav_lon" = Ok nav_lon ∧
    getvar ds "nav_lat" = Ok nav_lat ∧
    getvar ds "depthu" = Ok depthu ∧
    getvar ds "time_counter" = Ok time_counter ∧
    (∀ i j x y, f_lat_u f !! i = Some y → f_lon_u f !! j = Some x →
       read nav_lon [i; j] = astype float32 x ∧
       read nav_lat [i; j] = astype float32 y) ∧
    ncattrs nav_lon !! "valid_min" = head (f_lon_u f) ∧
    ncattrs nav_lon !! "valid_max" = last (f_lon_u f) ∧
    ncattrs nav_lat !! "valid_min" = head (f_lat_u f) ∧
    ncattrs nav_lat !! "valid_max" = last (f_lat_u f) ∧
    (∀ k z, f_depth f !! k = Some z → read depthu [k] = astype float32 z) ∧
    (∀ k t, f_time_counter f !! k = Some t →
       read time_counter [k] = astype float64 t).
Proof.
  intros Hholds Hshape.
  pose proof Hshape as (Hxu & Hyu & Hxv & Hyv & Hz & HrU & HrV).
  eexists _, _, _, _, _, _. split; [by apply write_run|].
  split; [apply written_fs_U|].
  split; [apply nemo_getvar_nav_lon; solve_not_elem|].
  split; [apply nemo_getvar_nav_lat; solve_not_elem|].
  split; [unfold getvar, dataset_U, NEMOGrid.nemo_dataset; simpl; by lk|].
  split; [unfold getvar, dataset_U, NEMOGrid.nemo_dataset; simpl; by lk|].
  split_and!.
  - intros i j x y Hy Hx.
    pose proof (lookup_lt_Some _ _ _ Hy). pose proof (lookup_lt_Some _ _ _ Hx).
    rewrite nemo_read_nav_lon, nemo_read_nav_lat by done.
    by rewrite (nth_lookup_Some _ _ _ _ Hy), (nth_lookup_Some _ _ _ _ Hx).
  - simpl. rewrite lookup_insert_ne, lookup_insert_eq by done.
    destruct (f_lon_u f); simpl in *; [lia|done].
  - simpl. rewrite lookup_insert_eq.
    destruct (last (f_lon_u f)) eqn:E; [done|].
    apply last_None in E. rewrite E in Hxu. simpl in Hxu. lia.
  - simpl. rewrite lookup_insert_ne, lookup_insert_eq by done.
    destruct (f_lat_u f); simpl in *; [lia|done].
  - simpl. rewrite lookup_insert_eq.
    destruct (last (f_lat_u f)) eqn:E; [done|].
    apply last_None in E. rewrite E in Hyu. simpl in Hyu. lia.
  - intros k z Hk. unfold read. simpl. by apply read_all_1d.
  - intros k t Hk. unfold read. simpl. by apply read_all_1d.
Qed.

(** X16.  [eval] reads the two interpolators and nothing else, and
    changes nothing: in two worlds where [interp_u] and [interp_v] of the
    grid are the same, it returns or raises the same, whatever [U], [V],
    the coordinates and the files have become since the splines were
    fitted. *)
Theorem eval_reads_interpolators_only g x y w w' :
  lookup_attr w g "interp_u" = lookup_attr w' g "interp_u" →
  lookup_attr w g "interp_v" = lookup_attr w' g "interp_v" →
  fst (NEMOGrid.eval g x y w) = w ∧
  snd (NEMOGrid.eval g x y w) = snd (NEMOGrid.eval g x y w').
Proof.
  intros Hu Hv. unfold NEMOGrid.eval, mbind, M_bind, getattr, lift, mret, M_ret.
  rewrite Hu, Hv.
  destruct (lookup_attr w' g "interp_u") as [su|]; [|done].
  destruct (NEMOGrid.spline_ev su y x) as [u|]; [|done].
  destruct (lookup_attr w' g "interp_v") as [sv|]; [|done].
  by destruct (NEMOGrid.spline_ev sv y x) as [v|].
Qed.

Lemma initialised_twice ru rv su sv d :
  initialised ru rv su sv (initialised ru rv su sv d) = initialised ru rv su sv d.
Proof.
  apply map_eq. intros k. unfold initialised.
  repeat match goal with
  | |- context [<[?n := _]> _ !! k] =>
      destruct (decide (k = n)) as [-> | ?];
        [by lk | rewrite !(lookup_insert_ne _ n) by done]
  end.
  done.
Qed.

(** X17.  A second [__init__] from the same files returns too and leaves
    the grid as the first one did. *)
Theorem init_twice self f degree w w1 :
  f ≠ EmptyString →
  NEMOGrid.__init__ self (Some f) degree w = (w1, Ok ()) →
  NEMOGrid.__init__ self (Some f) degree w1 = (w1, Ok ()).
Proof.
  intros Hf Hrun.
  apply init_inv in Hrun
    as (d & ru & rv & su & sv & Hd & Hru & Hrv & Hsu & Hsv & ->); [|done].
  erewrite (init_ok self f degree _ (initialised ru rv su sv d) ru rv su sv);
    try done.
  - simpl. unfold set_objects. simpl.
    by rewrite insert_insert_eq, initialised_twice.
  - simpl. by rewrite lookup_insert_eq.
Qed.

End AxesEvalInit.

(** ** The further properties on the small grid *)

Module MoreExamples.
Import Np NetCDF Demo.

#[local] Existing Instance Demo.scipy.
#[local] Existing Instance Demo.pypath.

Lemma demo_class u00 : class_dict (world (fields u00)) = NEMOGrid.class_body 1%positive.
Proof. reflexivity. Qed.

Lemma demo_new_from_file u00 :
  ∃ w' g,
    NEMOGrid.new (Some "/data/nemo") None
      (written (world (fields u00)) "/data/nemo" (fields u00)) = (w', Ok g).
Proof.
  eexists _, _.
  apply (new_from_file "/data/nemo" None _
           (read_back_U (fields u00)) (read_back_V (fields u00))).
  - discriminate.
  - exact (written_reads_U (world (fields u00)) "/data/nemo" (fields u00)
             (Examples.demo_well_shaped u00)).
  - exact (written_reads_V (world (fields u00)) "/data/nemo" (fields u00)
             (Examples.demo_well_shaped u00)).
  - reflexivity.
  - reflexivity.
Qed.

(** A grid made without a file name cannot be evaluated. *)
Lemma eval_without_file_witness :
  ∃ w' g,
    NEMOGrid.new None None (world (fields (f32 1))) = (w', Ok g) ∧
    NEMOGrid.eval g zero zero w' = (w', Raise (AttributeError "interp_u")).
Proof.
  eexists _, _. split; [by apply new_no_file|].
  apply (eval_without_file None None 1%positive (world (fields (f32 1)))).
  - reflexivity.
  - reflexivity.
  - by apply new_no_file.
Defined.

Lemma write_without_file_witness :
  ∃ w' g w'',
    NEMOGrid.new (Some EmptyString) None (world (fields (f32 1))) = (w', Ok g) ∧
    NEMOGrid.write g "/data/none" w' = (w'', Raise TypeError) ∧
    fs w'' !! "/data/none_U.nc" = Some empty_dataset.
Proof.
  eexists _, _, _. split; [by apply new_no_file|]. split.
  - apply (write_without_file (Some EmptyString) None 1%positive
             (world (fields (f32 1)))).
    + reflexivity.
    + reflexivity.
    + by apply new_no_file.
  - simpl. apply lookup_insert_eq.
Defined.

Lemma write_after_read_witness :
  ∃ w' g w'',
    NEMOGrid.new (Some "/data/nemo") None
      (written (world (fields (f32 1))) "/data/nemo" (fields (f32 1))) = (w', Ok g) ∧
    NEMOGrid.write g "/data/other" w' = (w'', Raise (AttributeError "size")).
Proof.
  destruct (demo_new_from_file (f32 1)) as (w' & g & Hnew).
  destruct (write_after_read "/data/nemo" None 1%positive
              (written (world (fields (f32 1))) "/data/nemo" (fields (f32 1)))
              w' g "/data/other")
    as (w'' & ds & Hrun & _).
  - discriminate.
  - reflexivity.
  - exact Hnew.
  - discriminate.
  - exists w', g, w''. split; [exact Hnew | exact Hrun].
Defined.

Lemma constructed_grids_share_witness :
  ∃ w1 g1 w2 g2 w3,
    NEMOGrid.new None None (world (fields (f32 1))) = (w1, Ok g1) ∧
    NEMOGrid.new None None w1 = (w2, Ok g2) ∧
    NEMOGrid.add_particle g1 7%positive w2 = (w3, Ok ()) ∧
    particles w3 g2 = Some [7%positive].
Proof.
  pose proof (new_no_file None None (world (fields (f32 1))) eq_refl) as Hnew1.
  match type of Hnew1 with
  | _ = (?w1, _) => pose proof (new_no_file None None w1 eq_refl) as Hnew2
  end.
  destruct (constructed_grids_share 1%positive [] None None None None
              _ _ _ _ _ 7%positive (demo_class _) eq_refl Hnew1 Hnew2)
    as (_ & w3 & Hadd & _ & Hg2).
  eexists _, _, _, _, w3. split; [exact Hnew1|]. split; [exact Hnew2|].
  split; [exact Hadd | exact Hg2].
Defined.

(** Object 2 appends to its own list; object 3 still sees no particle. *)
Lemma add_particle_own_list_witness :
  ∃ w', NEMOGrid.add_particle 2%positive 7%positive (world_own_list (fields (f32 1)))
        = (w', Ok ()) ∧
        particles w' 2%positive = Some [9%positive; 7%positive] ∧
        particles w' 3%positive = Some [].
Proof.
  destruct (add_particle_own_list (world_own_list (fields (f32 1)))
              2%positive 3%positive
              (<["_particles" := PyList 5%positive]> (attributes (fields (f32 1)))) ∅
              1%positive 5%positive [9%positive] 7%positive)
    as (w' & Hrun & Hg1 & Hg2 & _); [reflexivity..|discriminate|reflexivity|].
  exists w'. split; [exact Hrun|]. split; [exact Hg1|].
  rewrite Hg2. reflexivity.
Defined.

Lemma add_particles_in_order_witness :
  ∃ w', for_each [7%positive; 8%positive; 7%positive] (NEMOGrid.add_particle 2%positive)
          (world (fields (f32 1))) = (w', Ok ()) ∧
        particles w' 2%positive = Some [7%positive; 8%positive; 7%positive].
Proof.
  destruct (add_particles_in_order 2%positive 1%positive
              [7%positive; 8%positive; 7%positive] (world (fields (f32 1))) [])
    as (w' & Hrun & Hps & _); [reflexivity..|].
  exists w'. split; [exact Hrun | exact Hps].
Defined.

Lemma init_returns_iff_witness :
  ∃ d d', objects (world_written (fields (f32 1))) !! 3%positive = Some d ∧
          world_read (fields (f32 1))
          = set_objects
              (<[3%positive := d']> (objects (world_written (fields (f32 1)))))
              (world_written (fields (f32 1))).
Proof.
  destruct (proj1 (init_returns_iff 3%positive "/data/nemo" None
                     (world_written (fields (f32 1))) (world_read (fields (f32 1)))
                     ltac:(discriminate))
              (Examples.demo_init (f32 1)))
    as (d & ru & rv & su & sv & Hd & _ & _ & _ & _ & Hw).
  exists d, (initialised ru rv su sv d). split; [exact Hd | exact Hw].
Defined.

(** No file yet: [__init__] raises and leaves the world as it was. *)
Lemma init_failures_witness :
  ∃ e, NEMOGrid.__init__ 3%positive (Some "/data/nemo") None (world (fields (f32 1)))
       = (world (fields (f32 1)), Raise e).
Proof.
  destruct (init_failures 3%positive "/data/nemo" None (world (fields (f32 1))))
    as [Hmissing _]; [discriminate|].
  apply Hmissing. reflexivity.
Defined.

(** The NaN written at [U[0, 0]] is read back as zero. *)
Lemma roundtrip_entries_witness :
  ∃ U' row',
    lookup_attr (world_read (fields S754_nan)) 3%positive "U" = Ok (NdArray (Arr2 U')) ∧
    U' !! 0 = Some row' ∧ row' !! 0 = Some zero.
Proof.
  destruct (roundtrip_entries (world (fields S754_nan)) 2%positive "/data/nemo"
              (fields S754_nan) 3%positive None
              (world_written (fields S754_nan)) (world_read (fields S754_nan))
              (Examples.demo_holds _) (Examples.demo_well_shaped _))
    as (U' & V' & HU & _ & _ & _ & Hentry & _).
  - discriminate.
  - apply Examples.demo_write.
  - apply Examples.demo_init.
  - destruct (Hentry 0 0 [S754_nan; f32 2; f32 3] S754_nan eq_refl eq_refl)
      as (row' & Hrow & Hv).
    exists U', row'. split; [exact HU|]. split; [exact Hrow | exact Hv].
Defined.

(** Two longitudes and three latitudes: [len(lon_u)] is 2 before, 3 after. *)
Lemma roundtrip_coordinates_witness :
  ∃ lon,
    (lookup_attr (world (fields (f32 1))) 2%positive "lon_u" ≫= len) = Ok 2 ∧
    lookup_attr (world_read (fields (f32 1))) 3%positive "lon_u" = Ok lon ∧
    len lon = Ok 3.
Proof.
  destruct (roundtrip_coordinates (world (fields (f32 1))) 2%positive "/data/nemo"
              (fields (f32 1)) 3%positive None
              (world_written (fields (f32 1))) (world_read (fields (f32 1)))
              (Examples.demo_holds _) (Examples.demo_well_shaped _))
    as (lon & lat & Hbefore & Hlon & _ & Hlen & _).
  - discriminate.
  - apply Examples.demo_write.
  - apply Examples.demo_init.
  - exists lon. split; [exact Hbefore|]. split; [exact Hlon | exact Hlen].
Defined.

Lemma write_first_slice_only_witness :
  ∃ w' ds v,
    NEMOGrid.write 2%positive "/data/nemo" (world (fields (f32 1))) = (w', Ok ()) ∧
    fs w' !! "/data/nemo_U.nc" = Some ds ∧
    getvar ds "vozocrtx" = Ok v ∧
    shape ds v = [1; 1; 3; 2] ∧
    is_Some (data v !! [0; 0; 2; 1]) ∧ ¬ is_Some (data v !! [1; 0; 2; 1]).
Proof.
  destruct (write_first_slice_only (world (fields (f32 1))) 2%positive "/data/nemo"
              (fields (f32 1)) (Examples.demo_holds _) (Examples.demo_well_shaped _))
    as (w' & ds & v & Hrun & Hfs & Hv & Hshape & Hdata).
  - simpl. lia.
  - exists w', ds, v. split; [exact Hrun|]. split; [exact Hfs|].
    split; [exact Hv|]. split; [exact Hshape|]. split.
    + apply Hdata. exists 2, 1. simpl. split; [reflexivity|]. split; lia.
    + intros Hsome. apply Hdata in Hsome as (i & j & Hij & _). discriminate Hij.
Defined.

Lemma write_twice_witness :
  ∃ w1 w2,
    NEMOGrid.write 2%positive "/data/nemo" (world (fields (f32 1))) = (w1, Ok ()) ∧
    NEMOGrid.write 2%positive "/data/nemo" w1 = (w2, Ok ()) ∧
    fs w2 = fs w1 ∧
    stdout w2 = ["Generating NEMO grid output: /data/nemo";
                 "Generating NEMO grid output: /data/nemo"].
Proof.
  destruct (write_twice (world (fields (f32 1))) 2%positive "/data/nemo"
              (fields (f32 1)) (Examples.demo_holds _) (Examples.demo_well_shaped _))
    as (w1 & w2 & Hrun1 & Hrun2 & Hfs & Hout & _).
  exists w1, w2. split; [exact Hrun1|]. split; [exact Hrun2|].
  split; [exact Hfs | exact Hout].
Defined.

(** The depth [0.] and the latitude [2.] in the U file. *)
Lemma write_stores_axes_witness :
  ∃ w' ds nav_lat depthu,
    NEMOGrid.write 2%positive "/data/nemo" (world (fields (f32 1))) = (w', Ok ()) ∧
    fs w' !! "/data/nemo_U.nc" = Some ds ∧
    getvar ds "nav_lat" = Ok nav_lat ∧
    getvar ds "depthu" = Ok depthu ∧
    read nav_lat [2; 1] = astype float32 (f32 2) ∧
    read depthu [0] = astype float32 (f32 0).
Proof.
  destruct (write_stores_axes (world (fields (f32 1))) 2%positive "/data/nemo"
              (fields (f32 1)) (Examples.demo_holds _) (Examples.demo_well_shaped _))
    as (w' & ds & nav_lon & nav_lat & depthu & tc & Hrun & Hfs & _ & Hlat & Hz & _
        & Haxes & _ & _ & _ & _ & Hdepth & _).
  exists w', ds, nav_lat, depthu. split; [exact Hrun|]. split; [exact Hfs|].
  split; [exact Hlat|]. split; [exact Hz|]. split.
  - destruct (Haxes 2 1 (f32 1) (f32 2) eq_refl eq_refl) as [_ Hread]. exact Hread.
  - exact (Hdepth 0 (f32 0) eq_refl).
Defined.

(** Assigning another [U] to a grid with interpolators does not change
    what [eval] returns. *)
Lemma eval_reads_interpolators_only_witness :
  snd (NEMOGrid.eval 3%positive zero zero
         (world_splines (fields (f32 1)) [[f32 4]] [[f32 5]]))
  = snd (NEMOGrid.eval 3%positive zero zero
           (fst (setattr 3%positive "U" (NdArray (Arr2 [[f32 6]]))
                   (world_splines (fields (f32 1)) [[f32 4]] [[f32 5]])))).
Proof.
  destruct (eval_reads_interpolators_only 3%positive zero zero
              (world_splines (fields (f32 1)) [[f32 4]] [[f32 5]])
              (fst (setattr 3%positive "U" (NdArray (Arr2 [[f32 6]]))
                      (world_splines (fields (f32 1)) [[f32 4]] [[f32 5]]))))
    as [_ Hsame]; [reflexivity..|].
  exact Hsame.
Defined.

Lemma init_twice_witness :
  NEMOGrid.__init__ 3%positive (Some "/data/nemo") None (world_read (fields (f32 1)))
  = (world_read (fields (f32 1)), Ok ()).
Proof.
  apply (init_twice 3%positive "/data/nemo" None (world_written (fields (f32 1)))).
  - discriminate.
  - apply Examples.demo_init.
Defined.

Lemma new_grid_has_particles_witness :
  ∃ w' g,
    NEMOGrid.new None None (world_with_particle (fields (f32 1))) = (w', Ok g) ∧
    particles w' g = Some [7%positive].
Proof.
  pose proof (new_no_file None None (world_with_particle (fields (f32 1))) eq_refl)
    as Hnew.
  eexists _, _. split; [exact Hnew|].
  exact (new_grid_has_particles 1%positive [7%positive] None None
           (world_with_particle (fields (f32 1))) _ _ eq_refl eq_refl Hnew).
Defined.

End MoreExamples.
